(** * Nike SNKRS bot: the checkout state machine of [Nike_snkrs_bot.py]

    A shallow embedding of the bot's control flow.  The browser engine, the
    HTTP client, the random generator and the operator are external: they
    are the fields of the class [Env], every one of them a function of the
    history so far (the [World]), so a page may change after any command.
    Python statements become computations in the monad [M], which threads
    the world and carries the three ways a Python call can end: a value, a
    raised exception, or no end at all.

    Conventions of the model:
    - Time is the reading of an injected clock in microseconds;
      [time.sleep d] advances it by exactly [d], nothing else moves it.
      Float durations of the source are written in microseconds ([0.05] s
      is [50000]); [random.uniform] is a draw of [Env] kept in its range.
      A negative duration, which [time.sleep] rejects, is not modelled: a
      theorem that follows a run through a pause whose length comes from
      the configuration assumes that the length is not negative.
    - [datetime.now()] is the reading of that clock, a naive [datetime];
      [datetime.fromisoformat] is a function of [Env] that rejects the
      string or yields a [datetime] with or without a UTC offset.
    - A command sent to the outside ([driver.get], a click, a key press, a
      script, a screenshot, the HTTP POST, [input], [driver.quit]) goes
      through [perform]: it is recorded in the history and [raises] says
      whether it fails, and with what.  A [KeyboardInterrupt] is delivered
      that way: [time.sleep] and the logger never fail.
    - Queries ([find_elements], [current_url], [page_source], the
      attributes of a [WebElement]) are read off the world and do not fail;
      a stale element reference is not modelled.
    - [WebDriverWait(...).until] is one question to [Env] ([until]): the
      condition is met within the timeout or [TimeoutException] is raised.
      The time spent waiting is not counted.
    - Strings are byte strings; log lines are shortened to ASCII (their
      text plays no part in the control flow), exception messages are the
      source's. *)

From Stdlib Require Import ZArith List String Ascii Bool Lia DecimalString.
Import ListNotations.

Local Open Scope string_scope.
Local Open Scope Z_scope.

(** ** Python's [str] methods used by the bot (on byte strings) *)

Module PyStr.

(** [str.isspace] on the ASCII range: TAB..CR, FS..US and the space. *)
Definition isspace (c : ascii) : bool :=
  let n := Z.of_nat (nat_of_ascii c) in
  ((9 <=? n) && (n <=? 13)) || ((28 <=? n) && (n <=? 32)).

Fixpoint lstrip (s : string) : string :=
  match s with
  | EmptyString => EmptyString
  | String c r => if isspace c then lstrip r else s
  end.

Fixpoint rstrip (s : string) : string :=
  match s with
  | EmptyString => EmptyString
  | String c r =>
      match rstrip r with
      | EmptyString => if isspace c then EmptyString else String c EmptyString
      | r' => String c r'
      end
  end.

(** [s.strip()] *)
Definition strip (s : string) : string := rstrip (lstrip s).

(** [s.endswith(suffix)] *)
Fixpoint endswith (s suffix : string) : bool :=
  String.eqb s suffix ||
  match s with
  | EmptyString => false
  | String _ r => endswith r suffix
  end.

(** [sub in s] *)
Fixpoint contains (sub s : string) : bool :=
  String.prefix sub s ||
  match s with
  | EmptyString => false
  | String _ r => contains sub r
  end.

Definition lower_char (c : ascii) : ascii :=
  let n := nat_of_ascii c in
  if ((65 <=? n) && (n <=? 90))%nat then ascii_of_nat (n + 32) else c.

(** [s.lower()] *)
Fixpoint lower (s : string) : string :=
  match s with
  | EmptyString => EmptyString
  | String c r => String (lower_char c) (lower r)
  end.

(** [sep.join(parts)] *)
Fixpoint join (sep : string) (parts : list string) : string :=
  match parts with
  | [] => EmptyString
  | [p] => p
  | p :: rest => p ++ sep ++ join sep rest
  end.

(** [s.split(", ")] specialised to the separator the bot uses; the
    selector groups of the source never end in a dangling separator. *)
Fixpoint split_comma_space (acc s : string) : list string :=
  match s with
  | EmptyString => [acc]
  | String "," (String " " r) => acc :: split_comma_space EmptyString r
  | String c r => split_comma_space (acc ++ String c EmptyString) r
  end.

(** [str(n)] for an integer *)
Definition of_Z (n : Z) : string := NilZero.string_of_int (Z.to_int n).

(** [s[-2:]] *)
Definition last2 (s : string) : string :=
  substring (String.length s - 2) 2 s.

End PyStr.

(** ** Exceptions *)

(** The exception classes the bot raises or catches.  [OtherException]
    stands for any other subclass of [Exception]; [KeyboardInterrupt] is
    the one class here that [except Exception] does not catch. *)
Inductive exc_class :=
| TimeoutException
| NoSuchElementException
| ElementClickInterceptedException
| StaleElementReferenceException
| RuntimeError
| ValueError
| TypeError
| OtherException
| KeyboardInterrupt.

Record exn := mkExn { exn_class : exc_class; exn_msg : string }.

Definition exc_class_eqb (a b : exc_class) : bool :=
  match a, b with
  | TimeoutException, TimeoutException
  | NoSuchElementException, NoSuchElementException
  | ElementClickInterceptedException, ElementClickInterceptedException
  | StaleElementReferenceException, StaleElementReferenceException
  | RuntimeError, RuntimeError
  | ValueError, ValueError
  | TypeError, TypeError
  | OtherException, OtherException
  | KeyboardInterrupt, KeyboardInterrupt => true
  | _, _ => false
  end.

(** [isinstance(e, Exception)] *)
Definition is_Exception (e : exn) : bool :=
  negb (exc_class_eqb (exn_class e) KeyboardInterrupt).

(** [isinstance(e, cls)] for one of the leaf classes above *)
Definition is_a (cls : exc_class) (e : exn) : bool :=
  exc_class_eqb (exn_class e) cls.

(** ** The browser as the bot sees it *)

Inductive By := CSS_SELECTOR | XPATH | TAG_NAME.

(** What the bot reads from a [WebElement]. *)
Record WebElement := mkElement {
  el_id : nat;
  el_text : string;                 (* .text *)
  el_aria_label : option string;    (* .get_attribute("aria-label") *)
  el_type : option string;          (* .get_attribute("type") *)
  el_displayed : bool;              (* .is_displayed() *)
  el_selected : bool                (* .is_selected() *)
}.

Inductive Keys :=
| KText (s : string)
| KControlA
| KBackspace
| KReturn.

Inductive Level := INFO | WARNING | ERROR.

(** The conditions handed to [WebDriverWait(...).until]. *)
Inductive Condition :=
| presence_of_element_located (by_ : By) (value : string)
| visibility_of_element_located (by_ : By) (value : string)
| element_to_be_clickable (by_ : By) (value : string)
| sizes_present          (* the lambda of navigate_to_shoe *)
| left_login_page.       (* the lambda of _browser_login *)

(** Everything the bot asks of the outside, in the order it asks. *)
Inductive Event :=
| ECreateDriver
| EGet (url : string)
| ERefresh
| EQuit
| EClick (el : WebElement)
| EActionClick (el : WebElement) (dx dy pause : Z)
| EMouseMove (el : WebElement) (dx dy : Z)
| ESendKeys (el : WebElement) (keys : Keys)
| EScript (code : string) (arg : option WebElement)
| ESwitchFrame (iframe : WebElement)
| ESwitchDefault
| ESaveScreenshot (path : string)
| EAddCookie (name value domain path : string)
| EPost (url : string) (body headers : list (string * string))
| EInput (prompt : string)
| ELog (lvl : Level) (msg : string)
| ESleep (start duration : Z).

(** The state the bot and the browser share: the clock, the document the
    driver currently addresses ([None] is the top-level document), the
    history of events (newest first), and a ghost counter used by test
    doubles that count their own calls. *)
Record World := mkWorld {
  now : Z;
  frame : option WebElement;
  trace : list Event;
  calls : nat
}.

Record Cookie := mkCookie {
  ck_name : string; ck_value : string; ck_domain : string; ck_path : string
}.

(** An HTTP response of [requests.post]: [resp_json = None] is a body that
    [response.json()] rejects. *)
Record Response := mkResponse {
  status_code : Z;
  resp_text : string;
  resp_json : option (list (string * string));
  resp_cookies : list Cookie
}.

(** What the bot uses of a [datetime]: its reading on the clock of the
    run, in microseconds, and its [tzinfo], the UTC offset in seconds of a
    timestamp that carries one ([None] for a naive one, which is what
    [datetime.now()] returns). *)
Record datetime := mkDatetime {
  micros : Z;
  tzinfo : option Z
}.

(** The external collaborators.  Queries are functions of the world; a
    command is sent with [perform], and [raises] says whether it fails. *)
Class Env := {
  find_elements : World -> By -> string -> list WebElement;
  current_url : World -> string;
  page_source : World -> string;
  get_cookies : World -> list (string * string);
  script_value : World -> string -> string;
  until : World -> Z -> Condition -> option WebElement;
  raises : World -> Event -> option exn;
  http_response : World -> Response;
  random_draw : World -> Z -> Z -> Z;
  fromisoformat : string -> option datetime
}.

(** ** The monad of Python statements *)

Inductive outcome (A : Type) :=
| Ret (a : A)
| Raise (e : exn)
| Diverge.
Arguments Ret {A} a.
Arguments Raise {A} e.
Arguments Diverge {A}.

Definition M (A : Type) : Type := World -> outcome A * World.

Definition ret {A} (a : A) : M A := fun w => (Ret a, w).

Definition bind {A B} (m : M A) (k : A -> M B) : M B :=
  fun w =>
    match m w with
    | (Ret a, w') => k a w'
    | (Raise e, w') => (Raise e, w')
    | (Diverge, w') => (Diverge, w')
    end.

Definition raise {A} (cls : exc_class) (msg : string) : M A :=
  fun w => (Raise (mkExn cls msg), w).

Definition reraise {A} (e : exn) : M A := fun w => (Raise e, w).

Definition diverge {A} : M A := fun w => (Diverge, w).

(** [try: body  except <catches> as e: handler e] *)
Definition try_except {A} (body : M A) (catches : exn -> bool) (handler : exn -> M A) : M A :=
  fun w =>
    match body w with
    | (Raise e, w') => if catches e then handler e w' else (Raise e, w')
    | r => r
    end.

(** [try: body  finally: fin] *)
Definition try_finally {A} (body : M A) (fin : M unit) : M A :=
  fun w =>
    match body w with
    | (Diverge, w') => (Diverge, w')
    | (o, w') =>
        match fin w' with
        | (Ret _, w'') => (o, w'')
        | (Raise e, w'') => (Raise e, w'')
        | (Diverge, w'') => (Diverge, w'')
        end
    end.

Declare Scope py_scope.
Delimit Scope py_scope with py.
Notation "x <- c1 ;; c2" := (bind c1 (fun x => c2))
  (at level 61, c1 at next level, right associativity) : py_scope.
Notation "c1 ;; c2" := (bind c1 (fun _ => c2))
  (at level 61, right associativity) : py_scope.
Local Open Scope py_scope.

(** Read something of the world without changing it. *)
Definition ask {A} (f : World -> A) : M A := fun w => (Ret (f w), w).

Definition record (ev : Event) (w : World) : World :=
  mkWorld (now w) (frame w) (ev :: trace w) (calls w).

(** [log.info], [log.warning], [log.error]: they only leave a line. *)
Definition log (lvl : Level) (msg : string) : M unit :=
  fun w => (Ret tt, record (ELog lvl msg) w).

(** [time.sleep(d)]: the clock moves by [d]. *)
Definition sleep (d : Z) : M unit :=
  fun w => (Ret tt, mkWorld (now w + d) (frame w) (ESleep (now w) d :: trace w) (calls w)).

(** [range(lo, hi)] *)
Definition range (lo hi : Z) : list Z :=
  map (fun i => lo + Z.of_nat i) (seq 0 (Z.to_nat (hi - lo))).

(** Python truthiness of a string *)
Definition truthy (s : string) : bool := negb (String.eqb s "").

(** ** Configuration ([UserProfile], [BotConfig]) *)

Record UserProfile := mkProfile {
  email : string;
  password : string;
  email_imap_server : string;
  email_imap_password : string;
  first_name : string;
  last_name : string;
  address_line1 : string;
  address_line2 : string;
  city : string;
  state : string;
  zip_code : string;
  phone : string;
  card_number : string;
  card_exp_month : string;
  card_exp_year : string;
  card_cvv : string
}.

Record BotConfig := mkConfig {
  shoe_url : string;
  shoe_size : string;
  drop_time : option string;
  refresh_interval : Z;       (* microseconds *)
  page_load_timeout : Z;
  element_timeout : Z;
  headless : bool;
  retry_limit : Z;
  log_level : string;
  type_speed_min : Z;         (* microseconds *)
  type_speed_max : Z;         (* microseconds *)
  chrome_version : Z
}.

(** ** Loops *)

(** [for x in xs: <body>] where the body either returns from the enclosing
    function ([Some b]) or goes on to the next element ([None]; also what
    [continue] does).  The loop yields [None] when it runs off the end. *)
Fixpoint for_first {A B} (xs : list A) (body : A -> M (option B)) : M (option B) :=
  match xs with
  | [] => ret None
  | x :: rest =>
      r <- body x ;;
      match r with
      | Some b => ret (Some b)
      | None => for_first rest body
      end
  end.

(** [for x in xs: <body>] with no early exit. *)
Fixpoint for_each {A} (xs : list A) (body : A -> M unit) : M unit :=
  match xs with
  | [] => ret tt
  | x :: rest => body x ;; for_each rest body
  end.

Definition is_some {A} (o : option A) : bool :=
  match o with Some _ => true | None => false end.

(** ** Selector strings

    A Rocq string literal cannot hold the double quote the selectors of the
    source are full of, so they are assembled: [attr "type" "=" "email"] is
    the text [[type="email"]]. *)

Definition dq : string := String (ascii_of_nat 34) EmptyString.

Definition quoted (s : string) : string := dq ++ s ++ dq.

Definition attr (name op value : string) : string :=
  "[" ++ name ++ op ++ quoted value ++ "]".

Section Bot.

Context {env : Env}.
Variable profile : UserProfile.
Variable config : BotConfig.

(** *** Primitives over the environment *)

(** Send a command to the outside; it is recorded whether or not it fails. *)
Definition perform (ev : Event) : M unit :=
  fun w =>
    match raises w ev with
    | Some e => (Raise e, record ev w)
    | None => (Ret tt, record ev w)
    end.

(** [random.uniform(lo, hi)] and [random.randint(lo, hi)]: a draw of the
    generator, kept inside the requested interval. *)
Definition uniform (lo hi : Z) : M Z :=
  ask (fun w => Z.max lo (Z.min hi (random_draw w lo hi))).

Definition randint (lo hi : Z) : M Z := uniform lo hi.

(** [driver.find_element(by, value)]: the first match in document order. *)
Definition find_element (by_ : By) (value : string) : M WebElement :=
  fun w =>
    match find_elements w by_ value with
    | el :: _ => (Ret el, w)
    | [] => (Raise (mkExn NoSuchElementException value), w)
    end.

(** [WebDriverWait(driver, t).until(cond)] *)
Definition wait_until (t : Z) (cond : Condition) : M WebElement :=
  fun w =>
    match until w t cond with
    | Some el => (Ret el, w)
    | None => (Raise (mkExn TimeoutException ""), w)
    end.

Definition set_frame (f : option WebElement) : M unit :=
  fun w => (Ret tt, mkWorld (now w) f (trace w) (calls w)).

Definition timeout_or_not_found (e : exn) : bool :=
  is_a TimeoutException e || is_a NoSuchElementException e.

(** *** class HumanBehavior *)

Definition random_sleep (min_s max_s : Z) : M unit :=
  d <- uniform min_s max_s ;; sleep d.

(** The [for char in text] loop of [human_type]; [random.random() < 0.1]
    is a draw in millionths compared with [100000]. *)
Fixpoint type_chars (element : WebElement) (text : string) : M unit :=
  match text with
  | EmptyString => ret tt
  | String char rest =>
      perform (ESendKeys element (KText (String char EmptyString))) ;;
      r <- uniform 0 1000000 ;;
      (if r <? 100000
       then d <- uniform 200000 500000 ;; sleep d
       else d <- uniform (type_speed_min config) (type_speed_max config) ;; sleep d) ;;
      type_chars element rest
  end.

Definition human_type (element : WebElement) (text : string) : M unit :=
  perform (EClick element) ;;
  random_sleep 200000 500000 ;;
  type_chars element text.

Definition human_clear_and_type (element : WebElement) (text : string) : M unit :=
  perform (EClick element) ;;
  random_sleep 100000 300000 ;;
  perform (ESendKeys element KControlA) ;;
  d <- uniform 50000 150000 ;; sleep d ;;
  perform (ESendKeys element KBackspace) ;;
  random_sleep 100000 300000 ;;
  human_type element text.

Definition random_mouse_move : M unit :=
  try_except
    (body <- find_element TAG_NAME "body" ;;
     x_offset <- randint 100 800 ;;
     y_offset <- randint 100 500 ;;
     perform (EMouseMove body x_offset y_offset) ;;
     random_sleep 100000 300000)
    is_Exception
    (fun _ => ret tt).

Definition human_click (element : WebElement) : M unit :=
  try_except
    (x_off <- randint (-3) 3 ;;
     y_off <- randint (-3) 3 ;;
     pause <- uniform 100000 300000 ;;
     perform (EActionClick element x_off y_off pause))
    is_Exception
    (fun _ => perform (EScript "arguments[0].click();" (Some element))).

(** *** class ElementHelper ([self.timeout] is [config.element_timeout]) *)

Definition element_exists (by_ : By) (value : string) : M bool :=
  try_except
    (_ <- find_element by_ value ;; ret true)
    (is_a NoSuchElementException)
    (fun _ => ret false).

Definition switch_to_iframe (by_ : By) (value : string) (timeout : option Z) : M unit :=
  let t := match timeout with
           | Some t => if t =? 0 then element_timeout config else t
           | None => element_timeout config
           end in
  iframe <- wait_until t (presence_of_element_located by_ value) ;;
  perform (ESwitchFrame iframe) ;;
  set_frame (Some iframe).

Definition switch_to_default : M unit :=
  perform ESwitchDefault ;;
  set_frame None.

(** *** class NikeSNKRSBot: lifecycle helpers *)

Definition NIKE_LOGIN_URL : string :=
  "https://accounts.nike.com/lookup" ++
  "?client_id=4fd2d5e7db76e0f85a6bb56721bd51df" ++
  "&redirect_uri=https://www.nike.com/auth/login" ++
  "&response_type=code" ++
  "&scope=openid%20nike.digital%20profile%20email%20phone%20flow%20country" ++
  "&ui_locales=en-US" ++
  "&code_challenge_method=S256".

Definition NIKE_BASE_URL : string := "https://www.nike.com".

Definition LOGIN_PAGE_INDICATORS : list string :=
  ["accounts.nike.com"; "/login"; "/signin"; "/lookup"; "/auth/login"].

Definition _validate_config : M unit :=
  if negb (truthy (email profile)) || negb (truthy (password profile))
  then raise ValueError "Email and password are required."
  else if negb (truthy (shoe_url config))
  then raise ValueError "Shoe URL is required."
  else if negb (truthy (shoe_size config))
  then raise ValueError "Shoe size is required."
  else ret tt.

(** The time stamp of the path is [int(time.time())]; [os.makedirs] has
    no counterpart here. *)
Definition _screenshot (name : string) : M unit :=
  try_except
    (t <- ask now ;;
     let path := "screenshots/" ++ name ++ "_" ++ PyStr.of_Z (Z.quot t 1000000) ++ ".png" in
     perform (ESaveScreenshot path) ;;
     log INFO ("Screenshot -> " ++ path))
    is_Exception
    (fun _ => ret tt).

(** One pass of the [for attempt] loop of [_retry]: [Some v] is
    [return func()], [None] goes on to the next attempt. *)
Definition _retry_attempt {A} (func : M A) (step_name : string) (attempt : Z)
  : M (option A) :=
  try_except
    (v <- func ;; ret (Some v))
    is_Exception
    (fun exc =>
       log WARNING (step_name ++ " attempt " ++ PyStr.of_Z attempt ++ "/" ++
                    PyStr.of_Z (retry_limit config) ++ " failed: " ++ exn_msg exc) ;;
       _screenshot (step_name ++ "_fail_" ++ PyStr.of_Z attempt) ;;
       if attempt =? retry_limit config
       then reraise exc
       else (d <- uniform 1000000 3000000 ;; sleep d ;; ret None)).

(** [_retry(func, step_name)].  The value is [Some v] when [func]
    returned [v], and [None] when the [for] loop ran off its end (the
    implicit [return None] of the source). *)
Definition _retry {A} (func : M A) (step_name : string) : M (option A) :=
  for_first (range 1 (retry_limit config + 1)) (_retry_attempt func step_name).

(** A stage is a [_retry] whose value is dropped. *)
Definition stage (func : M unit) (step_name : string) : M unit :=
  _ <- _retry func step_name ;; ret tt.

(** The test of [_is_on_login_page] on the address it reads. *)
Definition is_login_url (address : string) : bool :=
  let url := PyStr.lower address in
  existsb (fun indicator => PyStr.contains indicator url) LOGIN_PAGE_INDICATORS.

Definition _is_on_login_page : M bool :=
  ask (fun w => is_login_url (current_url w)).

Definition _find_first_element (selectors : list string) : M (option WebElement) :=
  for_first selectors (fun sel =>
    try_except
      (el <- find_element CSS_SELECTOR sel ;;
       if el_displayed el then ret (Some el) else ret None)
      (is_a NoSuchElementException)
      (fun _ => ret None)).

(** *** 1. Login *)

(** STEP 1 of [_browser_login]: navigate and enter the email. *)
Definition login_enter_email : M unit :=
  log INFO "Navigating to accounts.nike.com" ;;
  perform (EGet NIKE_LOGIN_URL) ;;
  random_sleep 3000000 5000000 ;;
  current <- ask current_url ;;
  log INFO ("Current URL: " ++ current) ;;
  (if negb (PyStr.contains "accounts.nike.com" current)
   then log WARNING ("Redirected to " ++ current) ;;
        perform (EGet NIKE_LOGIN_URL) ;;
        random_sleep 3000000 5000000
   else ret tt) ;;
  random_mouse_move ;;
  random_sleep 500000 1500000 ;;
  log INFO "Step 1: Entering email" ;;
  email_field <- _find_first_element
    ["input" ++ attr "type" "=" "email";
     "input" ++ attr "name" "=" "emailAddress";
     "input" ++ attr "id" "=" "username";
     "input" ++ attr "autocomplete" "=" "email"] ;;
  match email_field with
  | None => raise NoSuchElementException "Email field not found."
  | Some email_field =>
      random_mouse_move ;;
      random_sleep 300000 800000 ;;
      human_clear_and_type email_field (email profile) ;;
      random_sleep 500000 1000000 ;;
      continue_btn <- _find_first_element
        ["button" ++ attr "type" "=" "submit";
         "input" ++ attr "type" "=" "submit";
         "button" ++ attr "data-qa" "=" "login-submit"] ;;
      match continue_btn with
      | Some continue_btn =>
          human_click continue_btn ;;
          log INFO "Clicked continue after email." ;;
          random_sleep 2000000 4000000
      | None =>
          perform (ESendKeys email_field KReturn) ;;
          random_sleep 2000000 4000000
      end
  end.

Definition use_password_selectors : list string :=
  ["//button[contains(text(), " ++ quoted "Use Password" ++ ")]";
   "//button[contains(text(), " ++ quoted "Use password" ++ ")]";
   "//button[contains(text(), " ++ quoted "use password" ++ ")]";
   "//a[contains(text(), " ++ quoted "Use Password" ++ ")]";
   "//a[contains(text(), " ++ quoted "Use password" ++ ")]";
   "//span[contains(text(), " ++ quoted "Use Password" ++ ")]/parent::button";
   "//span[contains(text(), " ++ quoted "Use password" ++ ")]/parent::button"].

(** STEP 2: leave the code screen through its "Use Password" control,
    unless the password field already shows. *)
Definition login_use_password : M unit :=
  log INFO "Step 2: Checking for verification method" ;;
  password_field <- _find_first_element
    ["input" ++ attr "type" "=" "password"; "input" ++ attr "name" "=" "password"] ;;
  match password_field with
  | Some _ => ret tt
  | None =>
      log INFO "Code screen detected - clicking 'Use Password'" ;;
      clicked <- for_first use_password_selectors (fun xpath =>
        try_except
          (el <- wait_until 3 (element_to_be_clickable XPATH xpath) ;;
           random_mouse_move ;;
           random_sleep 300000 800000 ;;
           human_click el ;;
           log INFO "Clicked 'Use Password'!" ;;
           random_sleep 2000000 3000000 ;;
           ret (Some tt))
          timeout_or_not_found
          (fun _ => ret None)) ;;
      clicked <-
        match clicked with
        | Some _ => ret clicked
        | None =>
            log INFO "Searching all buttons for 'Use Password'" ;;
            all_buttons <- ask (fun w => find_elements w CSS_SELECTOR "button, a, [role='button']") ;;
            for_first all_buttons (fun btn =>
              let btn_text := PyStr.lower (PyStr.strip (el_text btn)) in
              if PyStr.contains "use password" btn_text
              then human_click btn ;;
                   log INFO "Clicked 'Use Password' (text scan)!" ;;
                   random_sleep 2000000 3000000 ;;
                   ret (Some tt)
              else ret None)
        end ;;
      match clicked with
      | Some _ => ret tt
      | None =>
          _screenshot "no_use_password_btn" ;;
          raise NoSuchElementException
            "'Use Password' button not found. Nike may be forcing email code verification."
      end
  end.

(** STEP 3: enter the password and sign in. *)
Definition login_enter_password : M unit :=
  log INFO "Step 3: Entering password" ;;
  password_field <- for_first
    ["input" ++ attr "type" "=" "password";
     "input" ++ attr "name" "=" "password";
     "input" ++ attr "id" "=" "password";
     "input" ++ attr "autocomplete" "=" "current-password"]
    (fun sel =>
       try_except
         (el <- wait_until 8 (visibility_of_element_located CSS_SELECTOR sel) ;; ret (Some el))
         (is_a TimeoutException)
         (fun _ => ret None)) ;;
  match password_field with
  | None =>
      _screenshot "no_password_field" ;;
      raise NoSuchElementException "Password field not found after clicking 'Use Password'."
  | Some password_field =>
      random_mouse_move ;;
      random_sleep 300000 800000 ;;
      human_clear_and_type password_field (password profile) ;;
      random_sleep 500000 1500000 ;;
      signin_btn <- _find_first_element
        ["button" ++ attr "type" "=" "submit";
         "input" ++ attr "type" "=" "submit";
         "button" ++ attr "data-qa" "=" "login-submit"] ;;
      signin_btn <-
        match signin_btn with
        | Some _ => ret signin_btn
        | None =>
            all_buttons <- ask (fun w => find_elements w CSS_SELECTOR "button") ;;
            ret (find (fun btn => PyStr.contains "sign in" (PyStr.lower (PyStr.strip (el_text btn))))
                      all_buttons)
        end ;;
      match signin_btn with
      | None => raise NoSuchElementException "Sign-in button not found."
      | Some signin_btn =>
          random_mouse_move ;;
          random_sleep 200000 500000 ;;
          human_click signin_btn ;;
          log INFO "Clicked 'Sign In'."
      end
  end.

(** STEP 4, first half: is a verification-code input on the page? *)
Definition login_detect_code_input : M (option WebElement) :=
  random_sleep 3000000 5000000 ;;
  code_input <- _find_first_element
    ["input" ++ attr "name" "=" "verificationCode";
     "input" ++ attr "name" "=" "code";
     "input" ++ attr "placeholder" "*=" "code";
     "input" ++ attr "placeholder" "*=" "Code";
     "input" ++ attr "aria-label" "*=" "code";
     "input" ++ attr "aria-label" "*=" "digit";
     "input" ++ attr "type" "=" "tel";
     "input" ++ attr "inputmode" "=" "numeric"] ;;
  match code_input with
  | Some _ => ret code_input
  | None =>
      page_text <- ask (fun w => PyStr.lower (page_source w)) ;;
      if PyStr.contains "8-digit code" page_text
         || PyStr.contains "verification code" page_text
         || (PyStr.contains "enter the" page_text && PyStr.contains "code" page_text)
      then
        all_inputs <- ask (fun w => find_elements w CSS_SELECTOR "input") ;;
        ret (find (fun inp =>
                     el_displayed inp &&
                     match el_type inp with
                     | Some t => existsb (String.eqb t) ["text"; "tel"; "number"; ""]
                     | None => false
                     end)
                  all_inputs)
      else ret None
  end.

(** The progress notice of the 2FA wait, every 30 s. *)
Definition twofa_progress (max_wait start_time : Z) : M unit :=
  t <- ask now ;;
  let elapsed := Z.quot (t - start_time) 1000000 in
  if (elapsed mod 30 =? 0) && (0 <? elapsed)
  then log INFO ("Still waiting for code (" ++
                 PyStr.of_Z (Z.quot max_wait 1000000 - elapsed) ++ "s left)")
  else ret tt.

(** The [while time.time() - start_time < max_wait] loop of the 2FA wait.
    [Some tt] is the [return] taken when the browser has left the login
    pages, [None] is the loop ending on its condition. *)
Fixpoint twofa_loop (fuel : nat) (max_wait start_time : Z) : M (option unit) :=
  match fuel with
  | O => diverge
  | S fuel' =>
      t <- ask now ;;
      if t - start_time <? max_wait
      then
        on_login <- _is_on_login_page ;;
        if negb on_login
        then log INFO "2FA complete - logged in!" ;; ret (Some tt)
        else
          twofa_progress max_wait start_time ;;
          sleep 2000000 ;;
          twofa_loop fuel' max_wait start_time
      else ret None
  end.

(** STEP 4 when a code input was found: poll every 2 s, up to 5 min. *)
Definition login_wait_2fa : M unit :=
  log INFO "2FA VERIFICATION CODE REQUIRED" ;;
  let max_wait := 300000000 in
  start_time <- ask now ;;
  r <- twofa_loop 151 max_wait start_time ;;
  match r with
  | Some _ => ret tt
  | None => raise RuntimeError "Timed out waiting for 2FA code entry (5 min). Please try again."
  end.

(** STEP 4 when no code input was found: wait for the redirect. *)
Definition login_wait_redirect : M unit :=
  try_except
    (_ <- wait_until 20 left_login_page ;; ret tt)
    (is_a TimeoutException)
    (fun _ =>
       r <- for_first
         [attr "data-qa" "=" "login-error";
          ".nike-unite-error-message";
          attr "class" "*=" "error";
          attr "class" "*=" "Error"]
         (fun sel =>
            present <- element_exists CSS_SELECTOR sel ;;
            if present
            then err_el <- find_element CSS_SELECTOR sel ;;
                 raise RuntimeError ("Login error: " ++ el_text err_el)
            else ret (@None unit)) ;;
       raise RuntimeError "Login timed out - still on /login page.") ;;
  log INFO "Browser login successful!" ;;
  url <- ask current_url ;;
  log INFO ("Post-login URL: " ++ url).

Definition _browser_login : M unit :=
  login_enter_email ;;
  login_use_password ;;
  login_enter_password ;;
  code_input <- login_detect_code_input ;;
  match code_input with
  | Some _ => login_wait_2fa
  | None => login_wait_redirect
  end.

Definition login : M unit :=
  log INFO "Logging in via accounts.nike.com" ;;
  stage _browser_login "browser_login".

(** *** 2. Wait for drop *)

Definition _keep_session_alive : M unit :=
  try_except (perform (EScript "void(0);" None)) is_Exception (fun _ => ret tt).

(** The [while True] loop of [wait_for_drop]; [target] and the clock are
    in microseconds. *)
Fixpoint drop_loop (fuel : nat) (target : Z) : M unit :=
  match fuel with
  | O => diverge
  | S fuel' =>
      t <- ask now ;;
      let remaining := target - t in
      if remaining <=? 0
      then ret tt
      else
        (if 120000000 <? remaining
         then log INFO (PyStr.of_Z (Z.quot remaining 1000000) ++ "s remaining") ;;
              _keep_session_alive ;;
              sleep (Z.min (remaining - 10000000) 60000000)
         else if 5000000 <? remaining
         then sleep 1000000
         else sleep 50000) ;;
        drop_loop fuel' target
  end.

(** Enough iterations for a wait of [delta] microseconds: every pass of
    the loop sleeps 0.05 s or more. *)
Definition drop_fuel (delta : Z) : nat := Z.to_nat (delta / 50000) + 2.

Definition wait_for_drop : M unit :=
  match drop_time config with
  | None => log INFO "No drop time set - proceeding now."
  | Some s =>
      if negb (truthy s)
      then log INFO "No drop time set - proceeding now."
      else
        match fromisoformat s with
        | None => raise ValueError ("Invalid isoformat string: " ++ s)
        | Some target =>
            t <- ask now ;;
            match tzinfo target with
            | Some _ =>
                (* [now >= target] of a naive and an aware [datetime] *)
                raise TypeError "can't compare offset-naive and offset-aware datetimes"
            | None =>
                let target := micros target in
                if target <=? t
                then log INFO "Drop time already passed - proceeding now."
                else
                  let delta := target - t in
                  log INFO ("Waiting for drop (" ++ PyStr.of_Z (Z.quot delta 1000000) ++
                            "s away)") ;;
                  drop_loop (drop_fuel delta) target ;;
                  log INFO "DROP TIME - GO!"
            end
        end
  end.

(** *** 3. Navigate to shoe page *)

Definition navigate_to_shoe : M unit :=
  log INFO ("Loading shoe page: " ++ shoe_url config) ;;
  r <- for_first (range 1 (retry_limit config + 1)) (fun attempt =>
    try_except
      (perform (EGet (shoe_url config)) ;;
       random_sleep 1500000 3000000 ;;
       _ <- wait_until (element_timeout config) sizes_present ;;
       log INFO "Shoe page loaded." ;;
       ret (Some tt))
      (is_a TimeoutException)
      (fun _ =>
         log WARNING ("Sizes not found (attempt " ++ PyStr.of_Z attempt ++ "). Refreshing") ;;
         _screenshot ("shoe_page_" ++ PyStr.of_Z attempt) ;;
         sleep (refresh_interval config) ;;
         ret None)) ;;
  match r with
  | Some _ => ret tt
  | None => raise RuntimeError "Could not load shoe page with available sizes."
  end.

(** *** 4. Select size *)

(** The test of Strategy B on one button, for the stripped target. *)
Definition size_text_match (target : string) (btn : WebElement) : bool :=
  let txt := PyStr.strip (el_text btn) in
  let aria := match el_aria_label btn with Some a => a | None => EmptyString end in
  String.eqb txt target
  || PyStr.endswith txt (" " ++ target)
  || PyStr.contains target aria.

(** Python's [repr] of a list of strings, for texts without quotes. *)
Definition repr_list (l : list string) : string :=
  "[" ++ PyStr.join ", " (map (fun s => "'" ++ s ++ "'") l) ++ "]".

Definition size_buttons_selector : string :=
  attr "data-qa" "=" "size-available" ++ ", .size-grid-button, " ++
  "button" ++ attr "class" "*=" "size" ++ ", div" ++ attr "class" "*=" "size" ++ " button, " ++
  attr "class" "*=" "SizeGrid" ++ " button".

(** Strategy A: the specific selectors, for the configured size. *)
Definition size_selectors : list string :=
  ["button" ++ attr "data-qa" "=" "size-available" ++ attr "aria-label" "*=" (shoe_size config);
   "button.size-grid-button" ++ attr "aria-label" "*=" (shoe_size config);
   "button" ++ attr "aria-label" "=" ("US " ++ shoe_size config);
   "button" ++ attr "aria-label" "=" ("M " ++ shoe_size config ++ " / W")].

(** Strategy B, the body of [for btn in buttons]. *)
Definition click_if_text_matches (target : string) (btn : WebElement) : M (option unit) :=
  if size_text_match target btn
  then human_click btn ;;
       log INFO ("Size " ++ target ++ " selected (text match)!") ;;
       random_sleep 300000 800000 ;;
       ret (Some tt)
  else ret None.

(** Strategy A, the body of [for sel in size_selectors]. *)
Definition click_when_clickable (sel : string) : M (option unit) :=
  try_except
    (el <- wait_until 3 (element_to_be_clickable CSS_SELECTOR sel) ;;
     human_click el ;;
     log INFO ("Size " ++ shoe_size config ++ " selected!") ;;
     random_sleep 300000 800000 ;;
     ret (Some tt))
    timeout_or_not_found
    (fun _ => ret None).

Definition _do_select : M unit :=
  random_sleep 500000 1000000 ;;
  r <- for_first size_selectors click_when_clickable ;;
  match r with
  | Some _ => ret tt
  | None =>
      buttons <- ask (fun w => find_elements w CSS_SELECTOR size_buttons_selector) ;;
      let target := PyStr.strip (shoe_size config) in
      r <- for_first buttons (click_if_text_matches target) ;;
      match r with
      | Some _ => ret tt
      | None =>
          let available :=
            filter truthy (map (fun b => PyStr.strip (el_text b)) buttons) in
          raise NoSuchElementException
            ("Size '" ++ target ++ "' not found. Available: " ++ repr_list available)
      end
  end.

Definition select_size : M unit :=
  log INFO ("Selecting size " ++ shoe_size config) ;;
  stage _do_select "select_size".

(** *** 5. Add to cart *)

(** The shape shared by the add, continue and submit steps: click the
    first selector that becomes clickable within [t] seconds. *)
Definition click_first_clickable (t : Z) (selectors : list string) (after : M unit)
  : M (option unit) :=
  for_first selectors (fun sel =>
    try_except
      (el <- wait_until t (element_to_be_clickable CSS_SELECTOR sel) ;;
       human_click el ;;
       after ;;
       ret (Some tt))
      timeout_or_not_found
      (fun _ => ret None)).

Definition _do_add : M unit :=
  r <- click_first_clickable 4
    ["button" ++ attr "data-qa" "=" "add-to-cart";
     "button" ++ attr "aria-label" "*=" "Add to Cart";
     "button" ++ attr "aria-label" "*=" "Add to Bag";
     "button" ++ attr "aria-label" "*=" "Buy";
     "button.add-to-cart-btn";
     "button.ncss-btn-primary-dark";
     "button" ++ attr "data-qa" "=" "feed-buy-cta"]
    (log INFO "Added to cart!" ;; random_sleep 2000000 4000000) ;;
  match r with
  | Some _ => ret tt
  | None => raise NoSuchElementException "Add-to-cart button not found."
  end.

Definition add_to_cart : M unit :=
  log INFO "Adding to cart" ;;
  stage _do_add "add_to_cart".

(** *** 6. Begin checkout *)

Definition _do_checkout : M unit :=
  r <- for_first
    ["button" ++ attr "data-qa" "=" "checkout-link";
     "a" ++ attr "data-qa" "=" "checkout-link";
     "button" ++ attr "aria-label" "*=" "Checkout";
     "a" ++ attr "href" "*=" "/checkout";
     "button" ++ attr "data-qa" "=" "cart-checkout-button"]
    (fun sel =>
       try_except
         (el <- wait_until 5 (element_to_be_clickable CSS_SELECTOR sel) ;;
          human_click el ;;
          random_sleep 2000000 4000000 ;;
          url <- ask current_url ;;
          if PyStr.contains "/checkout" url
          then log INFO "On checkout page." ;; ret (Some tt)
          else ret None)
         timeout_or_not_found
         (fun _ => ret None)) ;;
  match r with
  | Some _ => ret tt
  | None =>
      perform (EGet (NIKE_BASE_URL ++ "/checkout")) ;;
      random_sleep 2000000 3000000 ;;
      url <- ask current_url ;;
      if PyStr.contains "/checkout" url
      then log INFO "On checkout page (direct URL)."
      else raise RuntimeError "Could not reach checkout page."
  end.

Definition begin_checkout : M unit :=
  log INFO "Starting checkout" ;;
  stage _do_checkout "begin_checkout".

(** *** Shared helpers *)

Definition _click_continue_button : M unit :=
  r <- click_first_clickable 3
    ["button" ++ attr "data-qa" "=" "save-button";
     "button" ++ attr "data-qa" "=" "continue-button";
     "button" ++ attr "aria-label" "*=" "Continue";
     "button" ++ attr "aria-label" "*=" "Save";
     "button.continue-btn";
     "button" ++ attr "type" "=" "submit"]
    (ret tt) ;;
  match r with
  | Some _ => ret tt
  | None => log WARNING "No continue/save button found."
  end.

(** The [indicators] dictionary of [_step_already_complete]. *)
Definition indicators (step_name : string) : list string :=
  if String.eqb step_name "shipping"
  then [attr "data-qa" "=" "payment"; "iframe" ++ attr "title" "*=" "card"]
  else if String.eqb step_name "payment"
  then [attr "data-qa" "=" "place-order"; "button" ++ attr "aria-label" "*=" "Place Order"]
  else [].

Definition _step_already_complete (step_name : string) : M bool :=
  r <- for_first (indicators step_name) (fun sel =>
    present <- element_exists CSS_SELECTOR sel ;;
    if present then ret (Some tt) else ret None) ;;
  ret (is_some r).

(** *** 7. Fill shipping *)

(** The [field_map] dictionary, in insertion order. *)
Definition shipping_field_map : list (string * string) :=
  [("input" ++ attr "id" "*=" "firstName" ++ ", input" ++ attr "name" "*=" "firstName",
    first_name profile);
   ("input" ++ attr "id" "*=" "lastName" ++ ", input" ++ attr "name" "*=" "lastName",
    last_name profile);
   ("input" ++ attr "id" "*=" "address1" ++ ", input" ++ attr "name" "*=" "address1",
    address_line1 profile);
   ("input" ++ attr "id" "*=" "address2" ++ ", input" ++ attr "name" "*=" "address2",
    address_line2 profile);
   ("input" ++ attr "id" "*=" "city" ++ ", input" ++ attr "name" "*=" "city",
    city profile);
   ("input" ++ attr "id" "*=" "state" ++ ", input" ++ attr "name" "*=" "state" ++
    ", select" ++ attr "id" "*=" "state",
    state profile);
   ("input" ++ attr "id" "*=" "postalCode" ++ ", input" ++ attr "name" "*=" "postalCode" ++
    ", input" ++ attr "id" "*=" "zip",
    zip_code profile);
   ("input" ++ attr "id" "*=" "phone" ++ ", input" ++ attr "name" "*=" "phone",
    phone profile)].

(** Fill the first displayed input among the selectors of a group; an
    input that is found but hidden, or not found, passes to the next. *)
Definition fill_first_displayed (selector_group value : string) (after : M unit) : M unit :=
  _ <- for_first (PyStr.split_comma_space EmptyString selector_group) (fun sel =>
    try_except
      (el <- find_element CSS_SELECTOR sel ;;
       if el_displayed el
       then human_clear_and_type el value ;;
            after ;;
            ret (Some tt)
       else ret None)
      (is_a NoSuchElementException)
      (fun _ => ret None)) ;;
  ret tt.

Definition _do_shipping : M unit :=
  random_sleep 2000000 3000000 ;;
  done <- _step_already_complete "shipping" ;;
  if done
  then log INFO "Shipping already saved - skipping."
  else
    for_each shipping_field_map (fun '(selector_group, value) =>
      if negb (truthy value)
      then ret tt
      else fill_first_displayed selector_group value (random_sleep 200000 500000)) ;;
    random_sleep 500000 1000000 ;;
    _click_continue_button ;;
    random_sleep 2000000 3000000 ;;
    log INFO "Shipping submitted.".

Definition fill_shipping : M unit :=
  log INFO "Filling shipping info" ;;
  stage _do_shipping "fill_shipping".

(** *** 8. Fill payment *)

(** The [iframe_card_map] dictionary, in insertion order. *)
Definition iframe_card_map : list (string * (string * string)) :=
  let exp_value := card_exp_month profile ++ "/" ++ PyStr.last2 (card_exp_year profile) in
  [("iframe" ++ attr "title" "*=" "card number" ++ ", iframe" ++ attr "id" "*=" "cardNumber",
    ("input" ++ attr "id" "*=" "cardNumber" ++ ", input" ++ attr "name" "*=" "cardNumber" ++
     ", input" ++ attr "name" "*=" "credit-card-number" ++ ", input",
     card_number profile));
   ("iframe" ++ attr "title" "*=" "expiration" ++ ", iframe" ++ attr "id" "*=" "expirationDate",
    ("input" ++ attr "id" "*=" "expiration" ++ ", input" ++ attr "name" "*=" "expirationDate" ++
     ", input",
     exp_value));
   ("iframe" ++ attr "title" "*=" "CVV" ++ ", iframe" ++ attr "title" "*=" "cvv" ++
    ", iframe" ++ attr "id" "*=" "cvv",
    ("input" ++ attr "id" "*=" "cvv" ++ ", input" ++ attr "name" "*=" "cvv" ++ ", input",
     card_cvv profile))].

(** Inside a frame: type into the first input found (the inner [for]). *)
Definition fill_in_frame (input_sel_group value : string) : M bool :=
  r <- for_first (PyStr.split_comma_space EmptyString input_sel_group) (fun inp_sel =>
    try_except
      (inp <- find_element CSS_SELECTOR inp_sel ;;
       human_clear_and_type inp value ;;
       ret (Some tt))
      (is_a NoSuchElementException)
      (fun _ => ret None)) ;;
  ret (is_some r).

(** One pass of the [for iframe_sel] loop body, after the [if filled:
    break]: enter the frame, try to fill, go back to the top document.
    The value is the new [filled].  The [try] of the source spans the
    entering, the filling and the first [switch_to_default]; the
    handler is the second [switch_to_default]. *)
Definition iframe_attempt (iframe_sel input_sel_group value : string) : M bool :=
  entered <- try_except
    (switch_to_iframe CSS_SELECTOR iframe_sel (Some 5) ;;
     filled <- fill_in_frame input_sel_group value ;;
     ret (Some filled))
    timeout_or_not_found
    (fun _ => switch_to_default ;; ret None) ;;
  match entered with
  | None => ret false
  | Some filled =>
      try_except switch_to_default timeout_or_not_found (fun _ => switch_to_default) ;;
      ret filled
  end.

(** The [for iframe_sel in iframe_sel_group.split(", ")] loop. *)
Fixpoint iframe_loop (iframe_sels : list string) (input_sel_group value : string)
         (filled : bool) : M bool :=
  match iframe_sels with
  | [] => ret filled
  | iframe_sel :: rest =>
      if filled
      then ret filled
      else
        filled' <- iframe_attempt iframe_sel input_sel_group value ;;
        iframe_loop rest input_sel_group value filled'
  end.

(** The body of the [for ... in iframe_card_map.items()] loop. *)
Definition fill_card_field (iframe_sel_group input_sel_group value : string) : M unit :=
  if negb (truthy value)
  then ret tt
  else
    filled <- iframe_loop (PyStr.split_comma_space EmptyString iframe_sel_group)
                          input_sel_group value false ;;
    (if negb filled
     then fill_first_displayed input_sel_group value (ret tt)
     else ret tt) ;;
    random_sleep 300000 600000.

Definition _do_payment : M unit :=
  random_sleep 2000000 3000000 ;;
  done <- _step_already_complete "payment" ;;
  if done
  then log INFO "Payment already saved - skipping."
  else
    for_each iframe_card_map (fun '(iframe_sel_group, (input_sel_group, value)) =>
      fill_card_field iframe_sel_group input_sel_group value) ;;
    try_except
      (billing_cb <- find_element CSS_SELECTOR
         ("input" ++ attr "id" "*=" "billingAddress" ++ ", input" ++ attr "name" "*=" "sameAs") ;;
       if negb (el_selected billing_cb) then human_click billing_cb else ret tt)
      (is_a NoSuchElementException)
      (fun _ => ret tt) ;;
    _click_continue_button ;;
    random_sleep 2000000 3000000 ;;
    log INFO "Payment submitted.".

Definition fill_payment : M unit :=
  log INFO "Filling payment info" ;;
  stage _do_payment "fill_payment".

(** *** 9. Submit order *)

Definition _do_submit : M unit :=
  random_sleep 1000000 2000000 ;;
  r <- click_first_clickable 6
    ["button" ++ attr "data-qa" "=" "save-button";
     "button" ++ attr "data-qa" "=" "place-order";
     "button" ++ attr "aria-label" "*=" "Place Order";
     "button" ++ attr "aria-label" "*=" "Submit Order";
     "button.checkout-submit"]
    (random_sleep 3000000 5000000 ;;
     log INFO "Order submitted!" ;;
     _screenshot "order_submitted") ;;
  match r with
  | Some _ => ret tt
  | None => raise NoSuchElementException "Submit order button not found."
  end.

Definition submit_order : M unit :=
  log INFO "Submitting order" ;;
  stage _do_submit "submit_order".

(** *** Lifecycle *)

(** The nine stages, the body of the [try] of [start]. *)
Definition run_stages : M unit :=
  login ;;
  wait_for_drop ;;
  navigate_to_shoe ;;
  select_size ;;
  add_to_cart ;;
  begin_checkout ;;
  fill_shipping ;;
  fill_payment ;;
  submit_order ;;
  log INFO "Order submitted! Check your Nike account.".

(** The [finally] of [start]. *)
Definition cleanup : M unit :=
  _screenshot "final_state" ;;
  perform (EInput "Press Enter to close the browser") ;;
  perform EQuit.

(** The two [except] clauses of [start], tried in order. *)
Definition start_handler (exc : exn) : M unit :=
  if is_a KeyboardInterrupt exc
  then log WARNING "Bot stopped by user (Ctrl+C)."
  else log ERROR ("Fatal error: " ++ exn_msg exc).

Definition start : M unit :=
  log INFO "Nike SNKRS Bot (v2 Stealth) starting" ;;
  _validate_config ;;
  perform ECreateDriver ;;
  try_finally
    (try_except run_stages
                (fun exc => is_a KeyboardInterrupt exc || is_Exception exc)
                start_handler)
    cleanup.

(** [main()] after the configuration is loaded. *)
Definition main : M unit := start.

End Bot.

(** The status the interpreter exits with: 0 when [main] returns, non-zero
    when an exception leaves it. *)
Definition exit_status (o : outcome unit) : option Z :=
  match o with
  | Ret _ => Some 0
  | Raise _ => Some 1
  | Diverge => None
  end.

(** ** class NikeAPILogin *)

Module NikeAPILogin.
Section NikeAPILogin.

Context {env : Env}.
Variable profile : UserProfile.

Definition AUTH_URL : string := "https://unite.nike.com/loginWithSetCookie".
Definition CLIENT_ID : string := "HlHa2Cje3ctlaOqnxvgZXNaAs7T9nAuH".

(** [json.dumps] of a flat dictionary of strings (no escaping). *)
Definition json_dumps (d : list (string * string)) : string :=
  "{" ++ PyStr.join ", " (map (fun '(k, v) => quoted k ++ ": " ++ quoted v) d) ++ "}".

(** [d.get(key, "")] *)
Fixpoint dict_get (key : string) (d : list (string * string)) : string :=
  match d with
  | [] => EmptyString
  | (k, v) :: rest => if String.eqb k key then v else dict_get key rest
  end.

Definition or_default (s default : string) : string :=
  if truthy s then s else default.

Definition _inject_session (auth_data : list (string * string)) (cookies : list Cookie)
  : M unit :=
  url <- ask current_url ;;
  (if negb (PyStr.contains "nike" url)
   then try_except
          (perform (EGet "https://www.nike.com/") ;; sleep 2000000)
          is_Exception (fun _ => ret tt)
   else ret tt) ;;
  for_each cookies (fun cookie =>
    try_except
      (perform (EAddCookie (ck_name cookie) (ck_value cookie)
                           (or_default (ck_domain cookie) ".nike.com")
                           (or_default (ck_path cookie) "/")))
      is_Exception (fun _ => ret tt)) ;;
  let access_token := dict_get "access_token" auth_data in
  (if truthy access_token
   then try_except
          (perform (EAddCookie "access_token" access_token ".nike.com" "/"))
          is_Exception (fun _ => ret tt)
   else ret tt) ;;
  try_except
    (let token_json := json_dumps auth_data in
     perform (EScript ("window.localStorage.setItem(" ++
                       "'com.nike.commerce.nikedotcom.web.credential', '" ++
                       token_json ++ "');") None))
    is_Exception (fun _ => ret tt) ;;
  perform ERefresh ;;
  d <- uniform 2000000 3000000 ;; sleep d.

(** The [if response.status_code == 200: ... else: ...] of [login]. *)
Definition on_response (response : Response) : M bool :=
  if status_code response =? 200
  then
    match resp_json response with
    | None => raise ValueError "Expecting value"
    | Some data =>
        log INFO "API login successful! Injecting session" ;;
        _inject_session data (resp_cookies response) ;;
        ret true
    end
  else
    log WARNING ("API login returned " ++ PyStr.of_Z (status_code response) ++ ": " ++
                 substring 0 200 (resp_text response)) ;;
    ret false.

(** The first part of the outer [try] of [login], up to the POST: the
    visit that establishes cookies, then the payload and the headers of
    the request. *)
Definition build_request : M (list (string * string) * list (string * string)) :=
  try_except
    (perform (EGet "https://www.nike.com/") ;;
     d <- uniform 2000000 4000000 ;; sleep d)
    is_Exception (fun _ => ret tt) ;;
  let payload :=
    [("client_id", CLIENT_ID);
     ("grant_type", "password");
     ("keepMeLoggedIn", "true");
     ("password", password profile);
     ("username", email profile);
     ("ux_id", "com.nike.commerce.nikedotcom.web")] in
  perform (EScript "return navigator.userAgent;" None) ;;
  user_agent <- ask (fun w => script_value w "return navigator.userAgent;") ;;
  let headers :=
    [("User-Agent", user_agent);
     ("Content-Type", "application/json");
     ("Origin", "https://www.nike.com");
     ("Referer", "https://www.nike.com/")] in
  browser_cookies <- ask get_cookies ;;
  let cookie_str :=
    PyStr.join "; " (map (fun '(name, value) => name ++ "=" ++ value) browser_cookies) in
  let headers :=
    if truthy cookie_str then (headers ++ [("Cookie", cookie_str)])%list else headers in
  ret (payload, headers).

(** The body of the outer [try] of [login]. *)
Definition login_attempt : M bool :=
  request <- build_request ;;
  perform (EPost AUTH_URL (fst request) (snd request)) ;;
  response <- ask http_response ;;
  on_response response.

Definition login : M bool :=
  log INFO "Attempting Nike API login" ;;
  try_except
    login_attempt
    is_Exception
    (fun exc => log WARNING ("API login failed: " ++ exn_msg exc) ;; ret false).

End NikeAPILogin.
End NikeAPILogin.

(** ** Observations on a run *)

(** The element an event acts on, if it acts on one. *)
Definition acted_on (ev : Event) : option WebElement :=
  match ev with
  | EClick el | EActionClick el _ _ _ | ESendKeys el _ | EScript _ (Some el) => Some el
  | _ => None
  end.

(** The events a run added: [trace w'] is [added ++ trace w]. *)
Definition added (w w' : World) (evs : list Event) : Prop :=
  trace w' = (evs ++ trace w)%list.

(** An event that only waits or logs. *)
Definition idle (ev : Event) : bool :=
  match ev with
  | ELog _ _ | ESleep _ _ => true
  | _ => false
  end.

(** A test double: [func] with its calls counted in the ghost field. *)
Definition counted {A} (func : M A) : M A :=
  fun w => func (mkWorld (now w) (frame w) (trace w) (S (calls w))).

(** No command is ever interrupted from the keyboard. *)
Definition no_interrupt (env : Env) : Prop :=
  forall w ev e, raises w ev = Some e -> is_Exception e = true.

(** What the selector resolver looks at: the first match of a selector in
    document order, and whether it is displayed. *)
Definition first_match {env : Env} (w : World) (sel : string) : option WebElement :=
  hd_error (find_elements w CSS_SELECTOR sel).

Definition first_match_shown {env : Env} (w : World) (sel : string) : bool :=
  match first_match w sel with
  | Some el => el_displayed el
  | None => false
  end.

(** A selector has some visible match, first in the document or not. *)
Definition has_visible_match {env : Env} (w : World) (sel : string) : Prop :=
  exists el, In el (find_elements w CSS_SELECTOR sel) /\ el_displayed el = true.

(** ** Worlds and environments for concrete runs *)

Definition w0 : World := mkWorld 0 None [] 0.

(** A browser that never fails, shows one fixed page at one fixed address
    and lets every wait time out; the generator always draws the lower
    bound. *)
Definition still_env (dom : By -> string -> list WebElement) (url : string) : Env :=
  {| find_elements := fun _ => dom;
     current_url := fun _ => url;
     page_source := fun _ => EmptyString;
     get_cookies := fun _ => [];
     script_value := fun _ _ => EmptyString;
     until := fun _ _ _ => None;
     raises := fun _ _ => None;
     http_response := fun _ => mkResponse 200 EmptyString None [];
     random_draw := fun _ lo _ => lo;
     fromisoformat := fun _ => None |}.

Definition button (id : nat) (text : string) (aria : option string) (shown : bool) : WebElement :=
  mkElement id text aria None shown false.

Definition a_profile : UserProfile :=
  mkProfile "runner@example.com" "secret" "outlook.office365.com" ""
            "John" "Doe" "123 Sneaker Street" "" "Portland" "OR" "97201" "5031234567"
            "4111111111111111" "12" "2027" "123".

Definition a_config (size : string) (limit : Z) : BotConfig :=
  mkConfig "https://www.nike.com/t/air-jordan-1" size None 3000000 20 12 false limit "INFO"
           50000 150000 0.

(** A page with a hidden and a visible submit button, and a visible submit
    input. *)
Definition submit_hidden : WebElement := button 1 "Sign In" None false.
Definition submit_shown : WebElement := button 2 "Sign In" None true.
Definition submit_input : WebElement := button 3 "" None true.

Definition two_submit_dom (by_ : By) (sel : string) : list WebElement :=
  match by_ with
  | CSS_SELECTOR =>
      if String.eqb sel ("button" ++ attr "type" "=" "submit")
      then [submit_hidden; submit_shown]
      else if String.eqb sel ("input" ++ attr "type" "=" "submit")
      then [submit_input]
      else []
  | _ => []
  end.

Definition two_submit_env : Env := still_env two_submit_dom "https://accounts.nike.com/lookup".

(** A size grid in document order 8, 9, 10.5, 10, 11, every button with an
    accessible label, found only by the text-matching selector. *)
Definition size_8 : WebElement := button 1 "8" (Some "Size 8") true.
Definition size_9 : WebElement := button 2 "9" (Some "Size 9") true.
Definition size_10_5 : WebElement := button 3 "10.5" (Some "Size 10.5") true.
Definition size_10 : WebElement := button 4 "10" (Some "Size 10") true.
Definition size_11 : WebElement := button 5 "11" (Some "Size 11") true.

Definition size_grid_dom (by_ : By) (sel : string) : list WebElement :=
  match by_ with
  | CSS_SELECTOR =>
      if String.eqb sel size_buttons_selector
      then [size_8; size_9; size_10_5; size_10; size_11]
      else []
  | _ => []
  end.

Definition size_grid_env : Env := still_env size_grid_dom "https://www.nike.com/t/air-jordan-1".

(** ** What the properties speak of: relations between worlds, observations,
    test doubles and concrete pages *)

(** A run from [w] that ended, in a world related to [w] by [R]. *)
Definition ends_well {A} (R : World -> World -> Prop) (w : World) (r : outcome A * World)
  : Prop :=
  R w (snd r) /\ fst r <> Diverge.

(** From any world, [m] ends (a value or an exception) in a world related
    to the first by [R]. *)
Definition keeps {A} (R : World -> World -> Prop) (m : M A) : Prop :=
  forall w, ends_well R w (m w).

(** [func] raises an [Exception] from [w], leaving the call count alone. *)
Definition fails {A} (func : M A) (w : World) : Prop :=
  exists e w', func w = (Raise e, w') /\ is_Exception e = true /\ calls w' = calls w.

(** [func] returns from [w], leaving the call count alone. *)
Definition succeeds {A} (func : M A) (w : World) : Prop :=
  exists v w', func w = (Ret v, w') /\ calls w' = calls w.

Definition tick (w : World) : World :=
  mkWorld (now w) (frame w) (trace w) (S (calls w)).

(** Two stage functions for concrete runs: one that always raises, one
    that raises until its [k]-th call and then returns [v]. *)
Definition always_raises : M Z := raise RuntimeError "boom".

Definition returns_on_call (k : nat) (v : Z) : M Z :=
  fun w =>
    if (calls w <? k)%nat
    then (Raise (mkExn TimeoutException "not yet"), w)
    else (Ret v, w).

Definition blank_env : Env := still_env (fun _ _ => []) "about:blank".

(** Some element matches the selector. *)
Definition present {env : Env} (w : World) (sel : string) : bool :=
  match find_elements w CSS_SELECTOR sel with
  | [] => false
  | _ :: _ => true
  end.

(** One of the payment-stage markers is on the page. *)
Definition payment_marker_present {env : Env} (w : World) : bool :=
  present w (attr "data-qa" "=" "payment") || present w ("iframe" ++ attr "title" "*=" "card").

(** The world a pause of [random_sleep lo hi] leads to. *)
Definition after_pause {env : Env} (lo hi : Z) (w : World) : World :=
  snd (random_sleep lo hi w).

(** A checkout page that already shows the payment step, with a visible
    first-name input the shipping stage would otherwise type into. *)
Definition payment_step_dom (by_ : By) (sel : string) : list WebElement :=
  match by_ with
  | CSS_SELECTOR =>
      if String.eqb sel (attr "data-qa" "=" "payment")
      then [mkElement 1 "Payment" None None true false]
      else if String.eqb sel ("input" ++ attr "id" "*=" "firstName")
      then [mkElement 2 "" None (Some "text") true false]
      else []
  | _ => []
  end.

Definition payment_step_env : Env :=
  still_env payment_step_dom "https://www.nike.com/checkout".

(** Two instances of the relation of [keeps]: any world at all (what
    remains is that the computation ends), and the same frame. *)
Definition any_world (w w' : World) : Prop := True.

Definition same_frame (w w' : World) : Prop := frame w' = frame w.

(** The world inside a frame just entered. *)
Definition entered_frame (iframe : WebElement) (w : World) : World :=
  mkWorld (now w) (Some iframe) (ESwitchFrame iframe :: trace w) (calls w).

(** Started on the top-level document, [m] returns there when it returns. *)
Definition returns_to_top {A} (m : M A) : Prop :=
  forall w a w', frame w = None -> m w = (Ret a, w') -> frame w' = None.

(** A payment form whose card number input lives in a frame: the frame is
    found from the top-level document, the input only from inside it. *)
Definition card_iframe : WebElement := mkElement 10 "" None None true false.
Definition card_input : WebElement := mkElement 11 "" None (Some "text") true false.

Definition card_env : Env :=
  {| find_elements := fun w by_ sel =>
       match frame w, by_ with
       | Some f, CSS_SELECTOR =>
           if Nat.eqb (el_id f) 10 && String.eqb sel ("input" ++ attr "id" "*=" "cardNumber")
           then [card_input] else []
       | _, _ => []
       end;
     current_url := fun _ => "https://www.nike.com/checkout";
     page_source := fun _ => EmptyString;
     get_cookies := fun _ => [];
     script_value := fun _ _ => EmptyString;
     until := fun _ _ cond =>
       match cond with
       | presence_of_element_located CSS_SELECTOR v =>
           if String.eqb v ("iframe" ++ attr "title" "*=" "card number")
           then Some card_iframe else None
       | _ => None
       end;
     raises := fun _ _ => None;
     http_response := fun _ => mkResponse 200 EmptyString None [];
     random_draw := fun _ lo _ => lo;
     fromisoformat := fun _ => None |}.

(** The size grid the text-matching strategy scans: what the selector of
    Strategy B matches after the opening pause of the stage body. *)
Definition size_buttons {env : Env} (w : World) : list WebElement :=
  find_elements (after_pause 500000 1000000 w) CSS_SELECTOR size_buttons_selector.

(** None of the specific selectors of Strategy A becomes clickable. *)
Definition strategy_a_times_out {env : Env} (config : BotConfig) (w : World) : Prop :=
  forall sel, In sel (size_selectors config) ->
    until (after_pause 500000 1000000 w) 3 (element_to_be_clickable CSS_SELECTOR sel) = None.

Definition aria_or_empty (btn : WebElement) : string :=
  match el_aria_label btn with Some a => a | None => EmptyString end.

(** The size grid in the order 8, 9, 10, 11, 10.5, without accessible
    labels. *)
Definition plain_grid : list WebElement :=
  [button 1 "8" None true; button 2 "9" None true; button 3 "10" None true;
   button 4 "11" None true; button 5 "10.5" None true].

Definition plain_grid_dom (by_ : By) (sel : string) : list WebElement :=
  match by_ with
  | CSS_SELECTOR => if String.eqb sel size_buttons_selector then plain_grid else []
  | _ => []
  end.

Definition plain_grid_env : Env := still_env plain_grid_dom "https://www.nike.com/t/air-jordan-1".

(** [m] ends, and whatever it raises is an [Exception]. *)
Definition tame {A} (m : M A) : Prop :=
  forall w,
    match fst (m w) with
    | Ret _ => True
    | Raise e => is_Exception e = true
    | Diverge => False
    end.

(** A browser on nike.com and an authentication endpoint that either
    answers with [response] or cannot be reached. *)
Definition api_env (response : Response) (reachable : bool) : Env :=
  {| find_elements := fun _ _ _ => [];
     current_url := fun _ => "https://www.nike.com/";
     page_source := fun _ => EmptyString;
     get_cookies := fun _ => [("anonymousId", "A1")];
     script_value := fun _ _ => "Mozilla/5.0";
     until := fun _ _ _ => None;
     raises := fun _ ev =>
       match ev with
       | EPost _ _ _ =>
           if reachable then None else Some (mkExn OtherException "ConnectionError")
       | _ => None
       end;
     http_response := fun _ => response;
     random_draw := fun _ lo _ => lo;
     fromisoformat := fun _ => None |}.

Definition forbidden : Response := mkResponse 403 "Access Denied" None [].

Definition granted : Response :=
  mkResponse 200 "{}" (Some [("access_token", "tok")]) [mkCookie "sid" "S1" "" ""].

(** [_validate_config] passes. *)
Definition config_valid (profile : UserProfile) (config : BotConfig) : bool :=
  truthy (email profile) && truthy (password profile)
  && truthy (shoe_url config) && truthy (shoe_size config).

(** The line [start] logs for the way the stages ended. *)
Definition stage_report (o : outcome unit) : list Event :=
  match o with
  | Raise e =>
      [if is_a KeyboardInterrupt e
       then ELog WARNING "Bot stopped by user (Ctrl+C)."
       else ELog ERROR ("Fatal error: " ++ exn_msg e)]
  | _ => []
  end.

Definition final_path (w : World) : string :=
  "screenshots/final_state_" ++ PyStr.of_Z (Z.quot (now w) 1000000) ++ ".png".

(** The history [t] ends with the final capture, the closing prompt and
    the teardown, in this order, on top of [before]; [at_] is the world in
    which the capture is taken. *)
Definition ends_with_cleanup (at_ : World) (t before : list Event) : Prop :=
  t = EQuit :: EInput "Press Enter to close the browser"
      :: ELog INFO ("Screenshot -> " ++ final_path at_)
      :: ESaveScreenshot (final_path at_) :: before
  \/
  t = EQuit :: EInput "Press Enter to close the browser"
      :: ESaveScreenshot (final_path at_) :: before.

(** The final capture is not interrupted from the keyboard, the operator
    answers the closing prompt, and the browser quits. *)
Definition cleanup_goes_through (env : Env) : Prop :=
  (forall w path e, raises w (ESaveScreenshot path) = Some e -> is_Exception e = true) /\
  (forall w prompt, raises w (EInput prompt) = None) /\
  (forall w, raises w EQuit = None).

(** The world in which the stages start. *)
Definition stages_start (w : World) : World :=
  record ECreateDriver (record (ELog INFO "Nike SNKRS Bot (v2 Stealth) starting") w).

(** The world at the next poll: the progress notice, then 2 s of sleep. *)
Definition next_poll (max_wait start_time : Z) (w : World) : World :=
  snd ((twofa_progress max_wait start_time ;; sleep 2000000) w).

(** The world at the [n]-th poll after [w]. *)
Fixpoint poll_world (max_wait start_time : Z) (n : nat) (w : World) : World :=
  match n with
  | O => w
  | S n' => poll_world max_wait start_time n' (next_poll max_wait start_time w)
  end.

(** The browser is on a login page in the world [w]. *)
Definition on_login_page {env : Env} (w : World) : bool := is_login_url (current_url w).

(** The world in which the 2FA wait reads its start time. *)
Definition twofa_start (w : World) : World :=
  record (ELog INFO "2FA VERIFICATION CODE REQUIRED") w.

(** A browser that sits on the verification page until the clock reads
    [t] and is on the storefront from then on. *)
Definition code_entered_at (t : Z) : Env :=
  {| find_elements := fun _ _ _ => [];
     current_url := fun w =>
       if now w <? t then "https://accounts.nike.com/challenge" else "https://www.nike.com/";
     page_source := fun _ => EmptyString;
     get_cookies := fun _ => [];
     script_value := fun _ _ => EmptyString;
     until := fun _ _ _ => None;
     raises := fun _ _ => None;
     http_response := fun _ => mkResponse 200 EmptyString None [];
     random_draw := fun _ lo _ => lo;
     fromisoformat := fun _ => None |}.

Definition stuck_on_login : Env := still_env (fun _ _ => []) "https://accounts.nike.com/lookup".

(** The keep-alive script is not interrupted from the keyboard. *)
Definition keep_alive_not_interrupted (env : Env) : Prop :=
  forall w e, raises w (EScript "void(0);" None) = Some e -> is_Exception e = true.

(** A sleep of the wait: it starts before the target; begun with more
    than 5 s to go it ends before the target; begun with 5 s or less to go
    it is a tick of 0.05 s. *)
Definition sleep_fits (target : Z) (ev : Event) : Prop :=
  match ev with
  | ESleep start d =>
      start < target /\
      (5000000 < target - start -> start + d < target) /\
      (target - start <= 5000000 -> d = 50000)
  | _ => True
  end.

(** The world in which the drop loop starts. *)
Definition drop_wait_start (target : Z) (w : World) : World :=
  record (ELog INFO ("Waiting for drop (" ++
                     PyStr.of_Z (Z.quot (target - now w) 1000000) ++ "s away)")) w.

(** A release at [target] microseconds on the clock of the run. *)
Definition drop_env (target : Z) : Env :=
  {| find_elements := fun _ _ _ => [];
     current_url := fun _ => "https://www.nike.com/";
     page_source := fun _ => EmptyString;
     get_cookies := fun _ => [];
     script_value := fun _ _ => EmptyString;
     until := fun _ _ _ => None;
     raises := fun _ _ => None;
     http_response := fun _ => mkResponse 200 EmptyString None [];
     random_draw := fun _ lo _ => lo;
     fromisoformat := fun _ => Some (mkDatetime target None) |}.

Definition drop_config : BotConfig :=
  mkConfig "https://www.nike.com/t/air-jordan-1" "10" (Some "2026-02-05T10:00:00")
           3000000 20 12 false 5 "INFO" 50000 150000 0.

(** A release written with a UTC offset, [target] microseconds on the
    clock of the run. *)
Definition aware_drop_env (target : Z) : Env :=
  {| find_elements := fun _ _ _ => [];
     current_url := fun _ => "https://www.nike.com/";
     page_source := fun _ => EmptyString;
     get_cookies := fun _ => [];
     script_value := fun _ _ => EmptyString;
     until := fun _ _ _ => None;
     raises := fun _ _ => None;
     http_response := fun _ => mkResponse 200 EmptyString None [];
     random_draw := fun _ lo _ => lo;
     fromisoformat := fun _ => Some (mkDatetime target (Some 0)) |}.

Definition aware_drop_config : BotConfig :=
  mkConfig "https://www.nike.com/t/air-jordan-1" "10" (Some "2026-02-05T10:00:00+00:00")
           3000000 20 12 false 0 "INFO" 50000 150000 0.

(** A browser in which the user presses Ctrl+C during the first page
    load. *)
Definition cancelled_env : Env :=
  {| find_elements := fun _ _ _ => [];
     current_url := fun _ => "about:blank";
     page_source := fun _ => EmptyString;
     get_cookies := fun _ => [];
     script_value := fun _ _ => EmptyString;
     until := fun _ _ _ => None;
     raises := fun _ ev =>
       match ev with
       | EGet _ => Some (mkExn KeyboardInterrupt EmptyString)
       | _ => None
       end;
     http_response := fun _ => mkResponse 200 EmptyString None [];
     random_draw := fun _ lo _ => lo;
     fromisoformat := fun _ => None |}.

(** ** Helpers of the source that no stage calls: [random_scroll],
    [wait_and_find], [wait_and_click], [_verify_logged_in] *)

Section Helpers.

Context {env : Env}.
Variable config : BotConfig.

(** [random.choice(seq)] for a sequence given by its first element and
    the others: an index drawn among the positions. *)
Definition choice {A} (first : A) (others : list A) : M A :=
  i <- randint 0 (Z.of_nat (List.length others)) ;;
  ret (nth (Z.to_nat i) (first :: others) first).

Definition random_scroll : M unit :=
  scroll_amount <- randint 100 400 ;;
  direction <- choice 1 [-1] ;;
  perform (EScript ("window.scrollBy(0, " ++ PyStr.of_Z (scroll_amount * direction) ++ ");")
                   None) ;;
  random_sleep 300000 800000.

(** [timeout or self.timeout] of [ElementHelper] *)
Definition timeout_or_default (timeout : option Z) : Z :=
  match timeout with
  | Some t => if t =? 0 then element_timeout config else t
  | None => element_timeout config
  end.

Definition wait_and_find (by_ : By) (value : string) (timeout : option Z) : M WebElement :=
  let t := timeout_or_default timeout in
  wait_until t (presence_of_element_located by_ value).

Definition wait_and_click (by_ : By) (value : string) (timeout : option Z) : M WebElement :=
  let t := timeout_or_default timeout in
  el <- wait_until t (element_to_be_clickable by_ value) ;;
  try_except
    (perform (EClick el))
    (is_a ElementClickInterceptedException)
    (fun _ => perform (EScript "arguments[0].click();" (Some el))) ;;
  ret el.

Definition _verify_logged_in : M bool :=
  try_except
    (perform (EGet "https://www.nike.com/member/profile") ;;
     sleep 3000000 ;;
     on_login <- _is_on_login_page ;;
     if on_login then ret false else ret true)
    is_Exception
    (fun _ => ret false).

End Helpers.

(** ** Observations on the history of a run *)

(** The world an event leaves behind: a sleep moves the clock, every other
    event is only recorded. *)
Definition after_event (ev : Event) (w : World) : World :=
  match ev with
  | ESleep _ d => mkWorld (now w + d) (frame w) (ev :: trace w) (calls w)
  | _ => record ev w
  end.

(** The world reached from [w] through the events [evs] (newest first) by
    a run that switches no frame. *)
Definition replay (w : World) (evs : list Event) : World :=
  fold_right after_event w evs.

(** A click command, by the action chain, by the element or by script. *)
Definition is_click (ev : Event) : bool :=
  match ev with
  | EClick _ | EActionClick _ _ _ _ | EScript _ (Some _) => true
  | _ => false
  end.

(** The click [ev], sent after the events [pre] of a run from [w], did
    not fail. *)
Definition went_through {env : Env} (w : World) (pre : list Event) (ev : Event) : Prop :=
  is_click ev = true /\ raises (replay w pre) ev = None.

(** No click of the history [evs] went through: every event, in the world
    it was sent in, is something else than a click that did not fail. *)
Fixpoint none_through {env : Env} (w : World) (evs : list Event) : Prop :=
  match evs with
  | [] => True
  | ev :: pre => ~ went_through w pre ev /\ none_through w pre
  end.

(** One click of the history [evs] went through, every click before it
    failed, and no click was sent after it. *)
Definition one_through {env : Env} (w : World) (evs : list Event) : Prop :=
  exists post ev pre,
    evs = (post ++ ev :: pre)%list /\
    went_through w pre ev /\
    Forall (fun e => is_click e = false) post /\
    none_through w pre.

(** The two states of a stage that has to click once, seen from the
    world [wi] it started in: no click has gone through yet, or one has
    and nothing was clicked since. *)
Definition before_click {env : Env} (wi w : World) : Prop :=
  exists h, w = replay wi h /\ none_through wi h.

Definition after_click {env : Env} (wi w : World) : Prop :=
  exists h, w = replay wi h /\ one_through wi h.

(** How a loop over candidates leaves the stage: it returns [Some] after
    the click, [None] before it; what it raises before the click may be
    anything, what it raises after the click is an interrupt. *)
Definition click_state {env : Env} {A} (wi : World) (r : outcome (option A) * World) : Prop :=
  match r with
  | (Ret (Some _), w') => after_click wi w'
  | (Ret None, w') => before_click wi w'
  | (Raise e, w') =>
      if is_Exception e then before_click wi w' else before_click wi w' \/ after_click wi w'
  | (Diverge, _) => False
  end.

(** The same for a stage function: it returns only after the click. *)
Definition stage_state {env : Env} {A} (wi : World) (r : outcome A * World) : Prop :=
  match r with
  | (Ret _, w') => after_click wi w'
  | (Raise e, w') =>
      if is_Exception e then before_click wi w' else before_click wi w' \/ after_click wi w'
  | (Diverge, _) => False
  end.

(** A stage function that clicks once, from wherever it is started. *)
Definition clicks_once {env : Env} {A} (func : M A) : Prop :=
  forall wi w, before_click wi w -> stage_state wi (func w).

Definition not_a_click (ev : Event) : Prop := is_click ev = false.

(** From any world, [m] ends having switched no frame, and every event it
    added satisfies [P]. *)
Definition emits {env : Env} (P : Event -> Prop) {A} (m : M A) : Prop :=
  forall w, exists evs,
    snd (m w) = replay w evs /\ Forall P evs /\ fst (m w) <> Diverge.

(** What [m] raises is never an [Exception] (it can only be an interrupt). *)
Definition calm {A} (m : M A) : Prop :=
  forall w e w', m w = (Raise e, w') -> is_Exception e = false.

(** The keys sent in a history, oldest first. *)
Definition keys_sent (evs : list Event) : list Keys :=
  rev (flat_map (fun ev => match ev with ESendKeys _ k => [k] | _ => [] end) evs).

(** One key press per character of [text]. *)
Definition text_keys (text : string) : list Keys :=
  map (fun c => KText (String c EmptyString)) (list_ascii_of_string text).

(** Every event of the history that acts on an element acts on [el]. *)
Definition acts_only_on (el : WebElement) (evs : list Event) : Prop :=
  forall ev el', In ev evs -> acted_on ev = Some el' -> el' = el.

(** From any world, [m] ends having acted on [el] only; the keys it sent
    are the first of [ks], and all of [ks] when it returns. *)
Definition sends {env : Env} (el : WebElement) (ks : list Keys) {A} (m : M A) : Prop :=
  forall w, exists evs,
    added w (snd (m w)) evs /\
    acts_only_on el evs /\
    fst (m w) <> Diverge /\
    (exists rest, ks = (keys_sent evs ++ rest)%list) /\
    (forall a, fst (m w) = Ret a -> keys_sent evs = ks).

(** The run [r] from [w] took at most [hi] on the clock, and at least
    [lo] when it returned. *)
Definition within_time {A} (lo hi : Z) (w : World) (r : outcome A * World) : Prop :=
  0 <= now (snd r) - now w <= hi /\
  (forall a, fst r = Ret a -> lo <= now (snd r) - now w).

(** The world in which the API login starts to build its request. *)
Definition api_login_start (w : World) : World :=
  record (ELog INFO "Attempting Nike API login") w.

(** The POST of the API login, and the answer to it when it is sent in the
    world [w_p]. *)
Definition login_post (body headers : list (string * string)) : Event :=
  EPost NikeAPILogin.AUTH_URL body headers.

Definition answer_to {env : Env} (body headers : list (string * string)) (w_p : World)
  : Response :=
  http_response (record (login_post body headers) w_p).

(** The cookies handed to [driver.add_cookie] in a history, oldest first. *)
Definition cookies_offered (evs : list Event) : list Cookie :=
  rev (flat_map (fun ev => match ev with
                           | EAddCookie n v d p => [mkCookie n v d p]
                           | _ => []
                           end) evs).

(** The file a diagnostic capture taken in the world [w] is written to. *)
Definition capture_path (name : string) (w : World) : string :=
  "screenshots/" ++ name ++ "_" ++ PyStr.of_Z (Z.quot (now w) 1000000) ++ ".png".

(** The cookie [_inject_session] builds from a cookie of the response:
    [".nike.com"] and ["/"] stand in for a missing domain and path. *)
Definition injected (cookie : Cookie) : Cookie :=
  mkCookie (ck_name cookie) (ck_value cookie)
           (NikeAPILogin.or_default (ck_domain cookie) ".nike.com")
           (NikeAPILogin.or_default (ck_path cookie) "/").

(** The cookie that carries the access token, when the answer has one. *)
Definition token_cookie (auth_data : list (string * string)) : list Cookie :=
  let access_token := NikeAPILogin.dict_get "access_token" auth_data in
  if truthy access_token then [mkCookie "access_token" access_token ".nike.com" "/"] else [].

(** The time a history spent in the pauses of the bot, its calls of
    [time.sleep], in microseconds. *)
Definition slept (evs : list Event) : Z :=
  fold_right (fun ev total => match ev with ESleep _ d => d + total | _ => total end) 0 evs.

(** The number of times the address [url] was loaded in a history. *)
Definition loads (url : string) (evs : list Event) : nat :=
  List.length (filter (fun ev => match ev with EGet u => String.eqb u url | _ => false end) evs).

(** An event that types, types into an element that was displayed. *)
Definition typed_only_into_displayed (ev : Event) : Prop :=
  match ev with
  | ESendKeys el _ => el_displayed el = true
  | _ => True
  end.

(** One of the markers of the review step (the step after payment) is on
    the page. *)
Definition review_marker_present {env : Env} (w : World) : bool :=
  present w (attr "data-qa" "=" "place-order") ||
  present w ("button" ++ attr "aria-label" "*=" "Place Order").

(** The world the shipping stage body leaves on a page where it finds
    nothing to fill and nothing to click: three pauses, a warning and the
    closing line. *)
Definition shipping_found_nothing {env : Env} (w : World) : World :=
  record (ELog INFO "Shipping submitted.")
    (after_pause 2000000 3000000
       (record (ELog WARNING "No continue/save button found.")
          (after_pause 500000 1000000 (after_pause 2000000 3000000 w)))).

(** The selectors [_browser_login] looks for an error message with. *)
Definition login_error_selectors : list string :=
  [attr "data-qa" "=" "login-error";
   ".nike-unite-error-message";
   attr "class" "*=" "error";
   attr "class" "*=" "Error"].

(** The world three seconds after the profile page was asked for. *)
Definition profile_page_settled (w : World) : World :=
  mkWorld (now w + 3000000) (frame w)
          (ESleep (now w) 3000000 :: EGet "https://www.nike.com/member/profile" :: trace w)
          (calls w).

(** The test of the text scan of [_browser_login] for the control that
    switches to the password. *)
Definition says_use_password (btn : WebElement) : bool :=
  PyStr.contains "use password" (PyStr.lower (PyStr.strip (el_text btn))).

(** A password field shows: one of the two selectors step 2 looks at has
    a displayed first match. *)
Definition password_field_shows {env : Env} (w : World) : bool :=
  first_match_shown w ("input" ++ attr "type" "=" "password") ||
  first_match_shown w ("input" ++ attr "name" "=" "password").

(** The worlds of step 2 of the login: once it has started, once it has
    decided that the code screen shows, and once it has started to scan
    the texts of the controls. *)
Definition step2_start (w : World) : World :=
  record (ELog INFO "Step 2: Checking for verification method") w.

Definition code_screen (w : World) : World :=
  record (ELog INFO "Code screen detected - clicking 'Use Password'") (step2_start w).

Definition text_scan (w : World) : World :=
  record (ELog INFO "Searching all buttons for 'Use Password'") (code_screen w).

(** ** More environments for concrete runs *)

(** A code screen whose control for the password is found by its text
    only. *)
Definition get_code_button : WebElement := button 1 "Send code again" None true.
Definition use_password_link : WebElement := button 2 "  USE PASSWORD " None true.

Definition code_screen_dom (by_ : By) (sel : string) : list WebElement :=
  match by_ with
  | CSS_SELECTOR =>
      if String.eqb sel "button, a, [role='button']"
      then [get_code_button; use_password_link]
      else []
  | _ => []
  end.

Definition code_screen_env : Env :=
  still_env code_screen_dom "https://accounts.nike.com/challenge".


(** A login page that shows an error banner and never redirects. *)
Definition login_error_dom (by_ : By) (sel : string) : list WebElement :=
  match by_ with
  | CSS_SELECTOR =>
      if String.eqb sel (attr "class" "*=" "error")
      then [mkElement 1 "Your email or password was entered incorrectly." None None true false]
      else []
  | _ => []
  end.

Definition login_error_env : Env :=
  still_env login_error_dom "https://accounts.nike.com/lookup".

(** A page on which a banner intercepts the click on every element. *)
Definition covered_env : Env :=
  {| find_elements := fun _ _ _ => [];
     current_url := fun _ => "https://www.nike.com/checkout";
     page_source := fun _ => EmptyString;
     get_cookies := fun _ => [];
     script_value := fun _ _ => EmptyString;
     until := fun _ _ cond =>
       match cond with
       | element_to_be_clickable _ _ => Some (button 7 "Continue" None true)
       | _ => None
       end;
     raises := fun _ ev =>
       match ev with
       | EClick _ => Some (mkExn ElementClickInterceptedException "element click intercepted")
       | _ => None
       end;
     http_response := fun _ => mkResponse 200 EmptyString None [];
     random_draw := fun _ lo _ => lo;
     fromisoformat := fun _ => None |}.


(** A checkout page that already shows the review step. *)
Definition review_step_dom (by_ : By) (sel : string) : list WebElement :=
  match by_ with
  | CSS_SELECTOR =>
      if String.eqb sel ("button" ++ attr "aria-label" "*=" "Place Order")
      then [button 1 "Place Order" (Some "Place Order") true]
      else []
  | _ => []
  end.

Definition review_step_env : Env :=
  still_env review_step_dom "https://www.nike.com/checkout".


(** A host on which the browser cannot be started. *)
Definition no_browser_env : Env :=
  {| find_elements := fun _ _ _ => [];
     current_url := fun _ => "about:blank";
     page_source := fun _ => EmptyString;
     get_cookies := fun _ => [];
     script_value := fun _ _ => EmptyString;
     until := fun _ _ _ => None;
     raises := fun _ ev =>
       match ev with
       | ECreateDriver => Some (mkExn OtherException "cannot connect to chrome")
       | _ => None
       end;
     http_response := fun _ => mkResponse 200 EmptyString None [];
     random_draw := fun _ lo _ => lo;
     fromisoformat := fun _ => None |}.

(** A browser without network: every page load fails. *)
Definition offline_env : Env :=
  {| find_elements := fun _ _ _ => [];
     current_url := fun _ => "about:blank";
     page_source := fun _ => EmptyString;
     get_cookies := fun _ => [];
     script_value := fun _ _ => EmptyString;
     until := fun _ _ _ => None;
     raises := fun _ ev =>
       match ev with
       | EGet _ => Some (mkExn OtherException "net::ERR_INTERNET_DISCONNECTED")
       | _ => None
       end;
     http_response := fun _ => mkResponse 200 EmptyString None [];
     random_draw := fun _ lo _ => lo;
     fromisoformat := fun _ => None |}.

(** An answer with status 200 whose body is not JSON. *)
Definition not_json : Response := mkResponse 200 "<html>Welcome</html>" None [].

(** A configuration whose drop time is not a date. *)
Definition bad_date_config : BotConfig :=
  mkConfig "https://www.nike.com/t/air-jordan-1" "10" (Some "tomorrow at ten")
           3000000 20 12 false 0 "INFO" 50000 150000 0.

(** A product page whose size grid shows at once. *)
Definition sizes_shown_env : Env :=
  {| find_elements := fun _ _ _ => [];
     current_url := fun _ => "https://www.nike.com/t/air-jordan-1";
     page_source := fun _ => EmptyString;
     get_cookies := fun _ => [];
     script_value := fun _ _ => EmptyString;
     until := fun _ _ cond =>
       match cond with
       | sizes_present => Some (button 1 "10" None true)
       | _ => None
       end;
     raises := fun _ _ => None;
     http_response := fun _ => mkResponse 200 EmptyString None [];
     random_draw := fun _ lo _ => lo;
     fromisoformat := fun _ => None |}.

(** * The properties *)

(** ** Running a computation *)

Lemma bind_ret {A B} (a : A) (k : A -> M B) w : bind (ret a) k w = k a w.
Proof. reflexivity. Qed.

Lemma bind_run {A B} (m : M A) (k : A -> M B) w a w' :
  m w = (Ret a, w') -> bind m k w = k a w'.
Proof. intros H. unfold bind. now rewrite H. Qed.

Lemma bind_raise {A B} (m : M A) (k : A -> M B) w e w' :
  m w = (Raise e, w') -> bind m k w = (Raise e, w').
Proof. intros H. unfold bind. now rewrite H. Qed.

Lemma bind_diverge {A B} (m : M A) (k : A -> M B) w w' :
  m w = (Diverge, w') -> bind m k w = (Diverge, w').
Proof. intros H. unfold bind. now rewrite H. Qed.

Lemma try_except_ret {A} (body : M A) catches handler w a w' :
  body w = (Ret a, w') -> try_except body catches handler w = (Ret a, w').
Proof. intros H. unfold try_except. now rewrite H. Qed.

Lemma try_except_caught {A} (body : M A) catches handler w e w' :
  body w = (Raise e, w') -> catches e = true ->
  try_except body catches handler w = handler e w'.
Proof. intros H Hc. unfold try_except. now rewrite H, Hc. Qed.

Lemma try_except_uncaught {A} (body : M A) catches handler w e w' :
  body w = (Raise e, w') -> catches e = false ->
  try_except body catches handler w = (Raise e, w').
Proof. intros H Hc. unfold try_except. now rewrite H, Hc. Qed.

Lemma try_except_diverge {A} (body : M A) catches handler w w' :
  body w = (Diverge, w') -> try_except body catches handler w = (Diverge, w').
Proof. intros H. unfold try_except. now rewrite H. Qed.

Lemma range_nil lo hi : hi <= lo -> range lo hi = [].
Proof.
  intros H. unfold range. replace (Z.to_nat (hi - lo)) with 0%nat by lia. reflexivity.
Qed.

Lemma range_cons lo hi : lo < hi -> range lo hi = lo :: range (lo + 1) hi.
Proof.
  intros H. unfold range.
  replace (Z.to_nat (hi - lo)) with (S (Z.to_nat (hi - (lo + 1)))) by lia.
  cbn [seq map]. f_equal; [lia|].
  rewrite <- seq_shift, map_map. apply map_ext. intros i. lia.
Qed.

(** ** The selector resolver *)

Section Resolver.

Context {env : Env}.

(** The resolver is a function of the page: it never raises, and it
    leaves the world as it was. *)
Lemma find_first_element_run (selectors : list string) (w : World) :
  _find_first_element selectors w =
  (Ret (match find (first_match_shown w) selectors with
        | Some sel => first_match w sel
        | None => None
        end), w).
Proof.
  unfold _find_first_element.
  induction selectors as [|sel rest IH]; [reflexivity|].
  cbn [for_first find]. unfold bind, try_except, find_element, ret.
  unfold first_match_shown, first_match. cbv beta.
  destruct (find_elements w CSS_SELECTOR sel) as [|el more] eqn:E; cbn.
  - exact IH.
  - destruct (el_displayed el); cbn; [now rewrite E | exact IH].
Qed.

End Resolver.

(** What the resolver computes, for every chain of selectors and every
    page.  It returns without raising and without touching the page; it
    returns the first match in document order of the earliest selector
    whose first match is displayed, every selector listed before it having
    no match or a hidden first match; and it returns nothing only when that
    is so of every selector of the chain.  A selector is judged by its
    first match alone: this is where the resolver parts from its docstring
    (the first visible element matched). *)
Theorem find_first_element_earliest :
  forall (env : Env) (selectors : list string) (w : World),
  exists r, _find_first_element selectors w = (Ret r, w) /\
    match r with
    | Some el =>
        exists pre sel post,
          selectors = (pre ++ sel :: post)%list /\
          first_match w sel = Some el /\ el_displayed el = true /\
          Forall (fun s => first_match_shown w s = false) pre
    | None => Forall (fun s => first_match_shown w s = false) selectors
    end.
Proof.
  intros env selectors w. rewrite find_first_element_run.
  eexists; split; [reflexivity|].
  induction selectors as [|sel rest IH]; cbn [find]; [constructor|].
  destruct (first_match_shown w sel) eqn:Hs.
  - unfold first_match_shown in Hs.
    destruct (first_match w sel) as [el|] eqn:Hm; [|discriminate].
    exists [], sel, rest. repeat split; auto.
  - destruct (find (first_match_shown w) rest) as [sel'|] eqn:Hf.
    + destruct (first_match w sel') as [el|] eqn:Hm.
      * destruct IH as (pre & s & post & -> & H1 & H2 & H3).
        exists (sel :: pre), s, post. repeat split; auto.
      * inversion IH; subst; constructor; auto.
    + constructor; auto.
Qed.

(** C8, the resolver at a page on which the claim and the code part.
    Both selectors of the chain have a present and visible match, so the
    claim (like the docstring of [_find_first_element]) asks for the
    visible match of the first selector, the second submit button.  The
    resolver looks only at the first match of a selector; that of the
    first selector is hidden, so the selector is passed over and the
    element of the second selector is returned, which is no match of the
    first. *)
Lemma find_first_element_hidden_first_match :
  @has_visible_match two_submit_env w0 ("button" ++ attr "type" "=" "submit") /\
  @has_visible_match two_submit_env w0 ("input" ++ attr "type" "=" "submit") /\
  @_find_first_element two_submit_env
     ["button" ++ attr "type" "=" "submit"; "input" ++ attr "type" "=" "submit"] w0
  = (Ret (Some submit_input), w0) /\
  ~ In submit_input
       (@find_elements two_submit_env w0 CSS_SELECTOR ("button" ++ attr "type" "=" "submit")).
Proof.
  repeat split.
  - exists submit_shown. split; [right; left; reflexivity | reflexivity].
  - exists submit_input. split; [left; reflexivity | reflexivity].
  - intros [H | [H | []]]; discriminate H.
Qed.

(** ** What every step of the bot preserves

    [keeps R m]: from any world, [m] ends (a value or an exception) in a
    world related to the first by [R].  [R] is any preorder that the
    primitive steps respect; it is instantiated below with "same frame",
    "same clock", "same call count" and with the full relation, which
    leaves only "[m] ends". *)

Section Keeps.

Context {env : Env}.
Variable R : World -> World -> Prop.
Hypothesis R_refl : forall w, R w w.
Hypothesis R_trans : forall w1 w2 w3, R w1 w2 -> R w2 w3 -> R w1 w3.
Hypothesis R_record : forall ev w, R w (record ev w).
Hypothesis R_sleep :
  forall d w, R w (mkWorld (now w + d) (frame w) (ESleep (now w) d :: trace w) (calls w)).
Hypothesis R_frame :
  forall f w, R w (mkWorld (now w) f (trace w) (calls w)).

Lemma keeps_ret {A} (a : A) : keeps R (ret a).
Proof. intros w. split; [apply R_refl | discriminate]. Qed.

Lemma keeps_raise {A} cls msg : keeps R (@raise A cls msg).
Proof. intros w. split; [apply R_refl | discriminate]. Qed.

Lemma keeps_reraise {A} e : keeps R (@reraise A e).
Proof. intros w. split; [apply R_refl | discriminate]. Qed.

Lemma keeps_ask {A} (f : World -> A) : keeps R (ask f).
Proof. intros w. split; [apply R_refl | discriminate]. Qed.

Lemma keeps_log lvl msg : keeps R (log lvl msg).
Proof. intros w. split; [apply R_record | discriminate]. Qed.

Lemma keeps_sleep d : keeps R (sleep d).
Proof. intros w. split; [apply R_sleep | discriminate]. Qed.

Lemma keeps_set_frame f : keeps R (set_frame f).
Proof. intros w. split; [apply R_frame | discriminate]. Qed.

Lemma keeps_perform ev : keeps R (perform ev).
Proof.
  intros w. unfold perform.
  destruct (raises w ev); (split; [apply R_record | discriminate]).
Qed.

Lemma keeps_find_element by_ value : keeps R (find_element by_ value).
Proof.
  intros w. unfold find_element.
  destruct (find_elements w by_ value); (split; [apply R_refl | discriminate]).
Qed.

Lemma keeps_wait_until t cond : keeps R (wait_until t cond).
Proof.
  intros w. unfold wait_until.
  destruct (until w t cond); (split; [apply R_refl | discriminate]).
Qed.

Lemma keeps_bind {A B} (m : M A) (k : A -> M B) :
  keeps R m -> (forall a, keeps R (k a)) -> keeps R (bind m k).
Proof.
  intros Hm Hk w. unfold bind. specialize (Hm w).
  destruct (m w) as [[a|e|] w1]; cbn in *.
  - destruct (Hk a w1) as [H1 H2]. split; [eapply R_trans; [apply Hm | exact H1] | exact H2].
  - split; [apply Hm | discriminate].
  - destruct Hm as [_ H]. now contradiction H.
Qed.

Lemma keeps_try_except {A} (body : M A) catches handler :
  keeps R body -> (forall e, keeps R (handler e)) -> keeps R (try_except body catches handler).
Proof.
  intros Hb Hh w. unfold try_except. specialize (Hb w).
  destruct (body w) as [[a|e|] w1]; cbn in *; try exact Hb.
  destruct (catches e); cbn; [|exact Hb].
  destruct (Hh e w1) as [H1 H2]. split; [eapply R_trans; [apply Hb | exact H1] | exact H2].
Qed.

Lemma keeps_try_finally {A} (body : M A) fin :
  keeps R body -> keeps R fin -> keeps R (try_finally body fin).
Proof.
  intros Hb Hf w. unfold try_finally. specialize (Hb w).
  destruct (body w) as [[a|e|] w1]; cbn in *; try exact Hb;
    specialize (Hf w1); destruct (fin w1) as [[[]|e'|] w2]; cbn in *;
    destruct Hb as [Hb _], Hf as [Hf Hf'];
    (split; [eapply R_trans; eassumption | first [discriminate | now contradiction Hf']]).
Qed.

Lemma keeps_for_first {A B} (xs : list A) (body : A -> M (option B)) :
  (forall x, keeps R (body x)) -> keeps R (for_first xs body).
Proof.
  intros Hb. induction xs as [|x rest IH]; cbn [for_first]; [apply keeps_ret|].
  apply keeps_bind; [apply Hb|]. intros [b|]; [apply keeps_ret | exact IH].
Qed.

Lemma keeps_for_each {A} (xs : list A) (body : A -> M unit) :
  (forall x, keeps R (body x)) -> keeps R (for_each xs body).
Proof.
  intros Hb. induction xs as [|x rest IH]; cbn [for_each]; [apply keeps_ret|].
  apply keeps_bind; [apply Hb | intros _; exact IH].
Qed.

End Keeps.

Create HintDb keeps discriminated.

#[export] Hint Resolve keeps_ret keeps_raise keeps_reraise keeps_ask keeps_log keeps_sleep
  keeps_set_frame keeps_perform keeps_find_element keeps_wait_until : keeps.

(** One step of a proof of [keeps]: split the computation at its outermost
    combinator, or take a case of the test it branches on. *)
Ltac keeps_step :=
  match goal with
  | |- keeps _ (bind _ _) => apply keeps_bind; [assumption .. | idtac | intros ?]
  | |- keeps _ (try_except _ _ _) => apply keeps_try_except; [assumption .. | idtac | intros ?]
  | |- keeps _ (try_finally _ _) => apply keeps_try_finally; [assumption .. | idtac | idtac]
  | |- keeps _ (for_first _ _) => apply keeps_for_first; [assumption .. | intros ?]
  | |- keeps _ (for_each _ _) => apply keeps_for_each; [assumption .. | intros ?]
  | |- keeps _ (if ?b then _ else _) => destruct b
  | |- keeps _ (match ?x with _ => _ end) => destruct x
  | |- keeps _ _ => solve [eauto with keeps]
  end.

Ltac keeps_auto := repeat keeps_step.

Lemma keep_session_alive_now {env : Env} (w : World) :
  now (snd (_keep_session_alive w)) = now w.
Proof.
  unfold _keep_session_alive, try_except, perform.
  destruct (raises w _) as [e|]; [destruct (is_Exception e)|]; reflexivity.
Qed.

Section BotKeeps.

Context {env : Env}.
Variable profile : UserProfile.
Variable config : BotConfig.
Variable R : World -> World -> Prop.
Hypothesis R_refl : forall w, R w w.
Hypothesis R_trans : forall w1 w2 w3, R w1 w2 -> R w2 w3 -> R w1 w3.
Hypothesis R_record : forall ev w, R w (record ev w).
Hypothesis R_sleep :
  forall d w, R w (mkWorld (now w + d) (frame w) (ESleep (now w) d :: trace w) (calls w)).
Hypothesis R_frame :
  forall f w, R w (mkWorld (now w) f (trace w) (calls w)).

Lemma keeps_uniform lo hi : keeps R (uniform lo hi).
Proof. unfold uniform. keeps_auto. Qed.
Hint Resolve keeps_uniform : keeps.

Lemma keeps_randint lo hi : keeps R (randint lo hi).
Proof. unfold randint. keeps_auto. Qed.
Hint Resolve keeps_randint : keeps.

Lemma keeps_random_sleep lo hi : keeps R (random_sleep lo hi).
Proof. unfold random_sleep. keeps_auto. Qed.
Hint Resolve keeps_random_sleep : keeps.

Lemma keeps_type_chars el text : keeps R (type_chars config el text).
Proof. induction text as [|c rest IH]; cbn [type_chars]; keeps_auto. Qed.
Hint Resolve keeps_type_chars : keeps.

Lemma keeps_human_type el text : keeps R (human_type config el text).
Proof. unfold human_type. keeps_auto. Qed.
Hint Resolve keeps_human_type : keeps.

Lemma keeps_human_clear_and_type el text : keeps R (human_clear_and_type config el text).
Proof. unfold human_clear_and_type. keeps_auto. Qed.
Hint Resolve keeps_human_clear_and_type : keeps.

Lemma keeps_random_mouse_move : keeps R random_mouse_move.
Proof. unfold random_mouse_move. keeps_auto. Qed.
Hint Resolve keeps_random_mouse_move : keeps.

Lemma keeps_human_click el : keeps R (human_click el).
Proof. unfold human_click. keeps_auto. Qed.
Hint Resolve keeps_human_click : keeps.

Lemma keeps_element_exists by_ value : keeps R (element_exists by_ value).
Proof. unfold element_exists. keeps_auto. Qed.
Hint Resolve keeps_element_exists : keeps.

Lemma keeps_switch_to_iframe by_ value t : keeps R (switch_to_iframe config by_ value t).
Proof. unfold switch_to_iframe. keeps_auto. Qed.
Hint Resolve keeps_switch_to_iframe : keeps.

Lemma keeps_switch_to_default : keeps R switch_to_default.
Proof. unfold switch_to_default. keeps_auto. Qed.
Hint Resolve keeps_switch_to_default : keeps.

Lemma keeps_validate_config : keeps R (_validate_config profile config).
Proof. unfold _validate_config. keeps_auto. Qed.
Hint Resolve keeps_validate_config : keeps.

Lemma keeps_screenshot name : keeps R (_screenshot name).
Proof. unfold _screenshot. keeps_auto. Qed.
Hint Resolve keeps_screenshot : keeps.

Lemma keeps_retry_attempt {A} (func : M A) name attempt :
  keeps R func -> keeps R (_retry_attempt config func name attempt).
Proof. intros Hf. unfold _retry_attempt. keeps_auto. Qed.
Hint Resolve keeps_retry_attempt : keeps.

Lemma keeps_retry {A} (func : M A) name : keeps R func -> keeps R (_retry config func name).
Proof. intros Hf. unfold _retry. keeps_auto. Qed.
Hint Resolve keeps_retry : keeps.

Lemma keeps_stage func name : keeps R func -> keeps R (stage config func name).
Proof. intros Hf. unfold stage. keeps_auto. Qed.
Hint Resolve keeps_stage : keeps.

Lemma keeps_is_on_login_page : keeps R _is_on_login_page.
Proof. unfold _is_on_login_page. keeps_auto. Qed.
Hint Resolve keeps_is_on_login_page : keeps.

Lemma keeps_find_first_element sels : keeps R (_find_first_element sels).
Proof. unfold _find_first_element. keeps_auto. Qed.
Hint Resolve keeps_find_first_element : keeps.

Lemma keeps_login_enter_email : keeps R (login_enter_email profile config).
Proof. unfold login_enter_email. keeps_auto. Qed.
Hint Resolve keeps_login_enter_email : keeps.

Lemma keeps_login_use_password : keeps R login_use_password.
Proof. unfold login_use_password. keeps_auto. Qed.
Hint Resolve keeps_login_use_password : keeps.

Lemma keeps_login_enter_password : keeps R (login_enter_password profile config).
Proof. unfold login_enter_password. keeps_auto. Qed.
Hint Resolve keeps_login_enter_password : keeps.

Lemma keeps_login_detect_code_input : keeps R login_detect_code_input.
Proof. unfold login_detect_code_input. keeps_auto. Qed.
Hint Resolve keeps_login_detect_code_input : keeps.

(** The 2FA loop ends when it is given one pass more than the number of
    2 s sleeps that fit before the ceiling. *)
Lemma keeps_twofa_loop fuel : forall max_wait start_time w,
  (1 <= fuel)%nat ->
  max_wait - (now w - start_time) <= 2000000 * (Z.of_nat fuel - 1) ->
  ends_well R w (twofa_loop fuel max_wait start_time w).
Proof.
  induction fuel as [|f IH]; intros max_wait start_time w Hpos Hf; [lia|].
  cbn [twofa_loop]. unfold twofa_progress, bind, ask, _is_on_login_page, log, sleep, ret.
  cbn -[is_login_url].
  destruct (Z.ltb_spec (now w - start_time) max_wait) as [Hlt|Hge];
    [|split; [apply R_refl | discriminate]].
  destruct (is_login_url _); cbn; [|split; [apply R_record | discriminate]].
  destruct (_ && _); cbn;
    match goal with
    | |- ends_well _ _ (twofa_loop f _ _ ?w') =>
        destruct (IH max_wait start_time w') as [H1 H2]; [lia | cbn [now record]; lia |];
        split; [|exact H2];
        refine (R_trans _ _ _ _ H1)
    end.
  - eapply R_trans; [apply R_record | apply (R_sleep 2000000 (record _ w))].
  - apply (R_sleep 2000000 w).
Qed.

Lemma keeps_login_wait_2fa : keeps R login_wait_2fa.
Proof.
  intros w. unfold login_wait_2fa, bind, log, ask.
  set (w1 := record _ w).
  destruct (keeps_twofa_loop 151 300000000 (now w1) w1) as [H1 H2]; [lia | lia |].
  assert (Hw : R w w1) by apply R_record.
  destruct (twofa_loop 151 300000000 (now w1) w1) as [[[u|]|e|] w2]; cbn in *;
    (split; [eapply R_trans; eassumption | first [discriminate | now contradiction H2]]).
Qed.
Hint Resolve keeps_login_wait_2fa : keeps.

Lemma keeps_login_wait_redirect : keeps R login_wait_redirect.
Proof. unfold login_wait_redirect. keeps_auto. Qed.
Hint Resolve keeps_login_wait_redirect : keeps.

Lemma keeps_browser_login : keeps R (_browser_login profile config).
Proof. unfold _browser_login. keeps_auto. Qed.
Hint Resolve keeps_browser_login : keeps.

Lemma keeps_login : keeps R (login profile config).
Proof. unfold login. keeps_auto. Qed.
Hint Resolve keeps_login : keeps.

Lemma keeps_keep_session_alive : keeps R _keep_session_alive.
Proof. unfold _keep_session_alive. keeps_auto. Qed.
Hint Resolve keeps_keep_session_alive : keeps.

(** The drop loop ends when it is given one pass more than the number of
    0.05 s sleeps that fit before the target. *)
Lemma keeps_drop_loop fuel : forall target w,
  (1 <= fuel)%nat ->
  target - now w <= 50000 * (Z.of_nat fuel - 1) ->
  ends_well R w (drop_loop fuel target w).
Proof.
  induction fuel as [|f IH]; intros target w Hpos Hf; [lia|].
  cbn [drop_loop]. unfold bind at 1, ask. cbv zeta.
  destruct (Z.leb_spec (target - now w) 0) as [Hle|Hgt];
    [split; [apply R_refl | discriminate]|].
  assert (Hstep : forall (m : M unit),
             keeps R m ->
             (forall w1, m w = (Ret tt, w1) -> now w + 50000 <= now w1) ->
             ends_well R w (bind m (fun _ => drop_loop f target) w)).
  { intros m Hm Hnow. unfold bind. destruct (Hm w) as [Hm1 Hm2].
    destruct (m w) as [[[]|e|] w1]; cbn [fst snd] in *.
    - specialize (Hnow w1 eq_refl).
      destruct (IH target w1) as [H1 H2]; [lia | lia |].
      split; [eapply R_trans; eassumption | exact H2].
    - split; [assumption | discriminate].
    - now contradiction Hm2. }
  destruct (Z.ltb_spec 120000000 (target - now w)) as [H120|H120];
    [|destruct (Z.ltb_spec 5000000 (target - now w)) as [H5|H5]].
  - apply Hstep; [keeps_auto |].
    unfold bind, log, sleep.
    pose proof (keep_session_alive_now (record (ELog INFO
      (PyStr.of_Z (Z.quot (target - now w) 1000000) ++ "s remaining")) w)) as Hk.
    destruct (_keep_session_alive _) as [[[]|e|] w1]; cbn [fst snd now record] in *;
      intros w2 [= <-]; cbn [now]; lia.
  - apply Hstep; [keeps_auto | intros w1 [= <-]; cbn [now]; lia].
  - apply Hstep; [keeps_auto | intros w1 [= <-]; cbn [now]; lia].
Qed.

Lemma keeps_wait_for_drop : keeps R (wait_for_drop config).
Proof.
  unfold wait_for_drop.
  destruct (drop_time config) as [s|]; [|keeps_auto].
  destruct (negb (truthy s)); [keeps_auto|].
  destruct (fromisoformat s) as [[target [offset|]]|]; [| |keeps_auto].
  { intros w. split; [apply R_refl | discriminate]. }
  intros w. unfold bind at 1, ask. cbn [tzinfo micros]. cbv zeta.
  destruct (Z.leb_spec target (now w)) as [Hle|Hgt]; [apply keeps_log; assumption|].
  unfold bind at 1, log. set (w1 := record _ w).
  assert (Hw : R w w1) by apply R_record.
  destruct (keeps_drop_loop (drop_fuel (target - now w)) target w1) as [H1 H2].
  { unfold drop_fuel. lia. }
  { unfold drop_fuel. cbn [now w1 record].
    pose proof (Z.mul_succ_div_gt (target - now w) 50000). lia. }
  unfold bind. destruct (drop_loop _ target w1) as [[[]|e|] w2]; cbn in *.
  - split; [|discriminate].
    eapply R_trans; [exact Hw|]. eapply R_trans; [exact H1 | apply R_record].
  - split; [eapply R_trans; eassumption | discriminate].
  - now contradiction H2.
Qed.
Hint Resolve keeps_wait_for_drop : keeps.

Lemma keeps_navigate_to_shoe : keeps R (navigate_to_shoe config).
Proof. unfold navigate_to_shoe. keeps_auto. Qed.
Hint Resolve keeps_navigate_to_shoe : keeps.

Lemma keeps_do_select : keeps R (_do_select config).
Proof. unfold _do_select, click_if_text_matches, click_when_clickable. keeps_auto. Qed.
Hint Resolve keeps_do_select : keeps.

Lemma keeps_select_size : keeps R (select_size config).
Proof. unfold select_size. keeps_auto. Qed.
Hint Resolve keeps_select_size : keeps.

Lemma keeps_click_first_clickable t sels after :
  keeps R after -> keeps R (click_first_clickable t sels after).
Proof. intros Ha. unfold click_first_clickable. keeps_auto. Qed.
Hint Resolve keeps_click_first_clickable : keeps.

Lemma keeps_do_add : keeps R _do_add.
Proof. unfold _do_add. keeps_auto. apply keeps_click_first_clickable. keeps_auto. Qed.
Hint Resolve keeps_do_add : keeps.

Lemma keeps_add_to_cart : keeps R (add_to_cart config).
Proof. unfold add_to_cart. keeps_auto. Qed.
Hint Resolve keeps_add_to_cart : keeps.

Lemma keeps_do_checkout : keeps R _do_checkout.
Proof. unfold _do_checkout. keeps_auto. Qed.
Hint Resolve keeps_do_checkout : keeps.

Lemma keeps_begin_checkout : keeps R (begin_checkout config).
Proof. unfold begin_checkout. keeps_auto. Qed.
Hint Resolve keeps_begin_checkout : keeps.

Lemma keeps_click_continue_button : keeps R _click_continue_button.
Proof. unfold _click_continue_button. keeps_auto. Qed.
Hint Resolve keeps_click_continue_button : keeps.

Lemma keeps_step_already_complete name : keeps R (_step_already_complete name).
Proof. unfold _step_already_complete. keeps_auto. Qed.
Hint Resolve keeps_step_already_complete : keeps.

Lemma keeps_fill_first_displayed group value after :
  keeps R after -> keeps R (fill_first_displayed config group value after).
Proof. intros Ha. unfold fill_first_displayed. keeps_auto. Qed.
Hint Resolve keeps_fill_first_displayed : keeps.

Lemma keeps_do_shipping : keeps R (_do_shipping profile config).
Proof. unfold _do_shipping. keeps_auto. Qed.
Hint Resolve keeps_do_shipping : keeps.

Lemma keeps_fill_shipping : keeps R (fill_shipping profile config).
Proof. unfold fill_shipping. keeps_auto. Qed.
Hint Resolve keeps_fill_shipping : keeps.

Lemma keeps_fill_in_frame group value : keeps R (fill_in_frame config group value).
Proof. unfold fill_in_frame. keeps_auto. Qed.
Hint Resolve keeps_fill_in_frame : keeps.

Lemma keeps_iframe_attempt isel group value : keeps R (iframe_attempt config isel group value).
Proof. unfold iframe_attempt. keeps_auto. Qed.
Hint Resolve keeps_iframe_attempt : keeps.

Lemma keeps_iframe_loop isels group value filled :
  keeps R (iframe_loop config isels group value filled).
Proof.
  revert filled. induction isels as [|isel rest IH]; intros filled; cbn [iframe_loop];
    keeps_auto.
Qed.
Hint Resolve keeps_iframe_loop : keeps.

Lemma keeps_fill_card_field igroup group value :
  keeps R (fill_card_field config igroup group value).
Proof. unfold fill_card_field. keeps_auto. Qed.
Hint Resolve keeps_fill_card_field : keeps.

Lemma keeps_do_payment : keeps R (_do_payment profile config).
Proof. unfold _do_payment. keeps_auto. Qed.
Hint Resolve keeps_do_payment : keeps.

Lemma keeps_fill_payment : keeps R (fill_payment profile config).
Proof. unfold fill_payment. keeps_auto. Qed.
Hint Resolve keeps_fill_payment : keeps.

Lemma keeps_do_submit : keeps R _do_submit.
Proof. unfold _do_submit. keeps_auto. apply keeps_click_first_clickable. keeps_auto. Qed.
Hint Resolve keeps_do_submit : keeps.

Lemma keeps_submit_order : keeps R (submit_order config).
Proof. unfold submit_order. keeps_auto. Qed.
Hint Resolve keeps_submit_order : keeps.

Lemma keeps_run_stages : keeps R (run_stages profile config).
Proof. unfold run_stages. keeps_auto. Qed.
Hint Resolve keeps_run_stages : keeps.

Lemma keeps_cleanup : keeps R cleanup.
Proof. unfold cleanup. keeps_auto. Qed.
Hint Resolve keeps_cleanup : keeps.

Lemma keeps_start : keeps R (start profile config).
Proof. unfold start, start_handler. keeps_auto. Qed.

End BotKeeps.

#[export] Hint Resolve
  keeps_uniform keeps_randint keeps_random_sleep keeps_type_chars
  keeps_human_type keeps_human_clear_and_type keeps_random_mouse_move keeps_human_click
  keeps_element_exists keeps_switch_to_iframe keeps_switch_to_default keeps_validate_config
  keeps_screenshot keeps_retry_attempt keeps_retry keeps_stage
  keeps_is_on_login_page keeps_find_first_element keeps_login_enter_email keeps_login_use_password
  keeps_login_enter_password keeps_login_detect_code_input keeps_login_wait_2fa keeps_login_wait_redirect
  keeps_browser_login keeps_login keeps_keep_session_alive keeps_wait_for_drop
  keeps_navigate_to_shoe keeps_do_select keeps_select_size keeps_click_first_clickable
  keeps_do_add keeps_add_to_cart keeps_do_checkout keeps_begin_checkout
  keeps_click_continue_button keeps_step_already_complete keeps_fill_first_displayed keeps_do_shipping
  keeps_fill_shipping keeps_fill_in_frame keeps_iframe_attempt keeps_iframe_loop
  keeps_fill_card_field keeps_do_payment keeps_fill_payment keeps_do_submit
  keeps_submit_order keeps_run_stages keeps_cleanup keeps_start
  : keeps.

(** ** The retry controller *)

Section RetryController.

Context {env : Env}.
Variable config : BotConfig.
Variable A : Type.
Variable func : M A.
Variable step_name : string.

(** The diagnostic capture is not interrupted from the keyboard. *)
Hypothesis capture_not_interrupted :
  forall w path e, raises w (ESaveScreenshot path) = Some e -> is_Exception e = true.

Lemma screenshot_returns name w :
  exists w', _screenshot name w = (Ret tt, w') /\ calls w' = calls w.
Proof.
  unfold _screenshot, try_except, bind, ask, perform, log, ret.
  destruct (raises w _) as [e|] eqn:He; cbn.
  - rewrite (capture_not_interrupted _ _ _ He). eexists; split; reflexivity.
  - eexists; split; reflexivity.
Qed.

Lemma retry_attempt_fails attempt w e w2 :
  func (tick w) = (Raise e, w2) -> is_Exception e = true -> calls w2 = S (calls w) ->
  exists w3, calls w3 = S (calls w) /\
    _retry_attempt config (counted func) step_name attempt w =
    if attempt =? retry_limit config then (Raise e, w3) else (Ret None, w3).
Proof.
  intros Hf He Hc. unfold _retry_attempt, try_except, counted.
  unfold bind at 1. cbv beta. fold (tick w). rewrite Hf, He. unfold bind at 1, log.
  match goal with |- context [bind (_screenshot ?n) _ ?w1] =>
    destruct (screenshot_returns n w1) as (w3 & Hs & Hc3);
    rewrite (bind_run _ _ _ _ _ Hs) end.
  destruct (attempt =? retry_limit config).
  - exists w3. split; [cbn in Hc3; congruence | reflexivity].
  - eexists. split; [|reflexivity]. cbn in *; congruence.
Qed.

Lemma retry_attempt_succeeds attempt w v w2 :
  func (tick w) = (Ret v, w2) ->
  _retry_attempt config (counted func) step_name attempt w = (Ret (Some v), w2).
Proof.
  intros Hf. unfold _retry_attempt, try_except, counted.
  unfold bind. cbv beta. fold (tick w). now rewrite Hf.
Qed.

(** From attempt [a] on, with [n] attempts left up to the limit and
    [func] failing every time: [n] calls, and the last error. *)
Lemma retry_loop_always_fails (n : nat) : forall a w,
  retry_limit config - a = Z.of_nat n ->
  (forall w1, fails func w1) ->
  exists e w_last w',
    for_first (range a (retry_limit config + 1))
              (_retry_attempt config (counted func) step_name) w = (Raise e, w') /\
    calls w' = (calls w + S n)%nat /\
    fst (func w_last) = Raise e /\ calls w_last = (calls w + S n)%nat.
Proof.
  induction n as [|n IH]; intros a w Ha Hfail;
    rewrite range_cons by lia; cbn [for_first];
    destruct (Hfail (tick w)) as (e & w2 & Hf & He & Hc);
    destruct (retry_attempt_fails a w e w2 Hf He Hc) as (w3 & Hc3 & Hrun);
    unfold bind at 1; rewrite Hrun.
  - replace (a =? retry_limit config) with true by (symmetry; apply Z.eqb_eq; lia).
    exists e, (tick w), w3. rewrite Hf. cbn. repeat split; lia.
  - replace (a =? retry_limit config) with false by (symmetry; apply Z.eqb_neq; lia).
    destruct (IH (a + 1) w3) as (e' & w_last & w' & H1 & H2 & H3 & H4); [lia | assumption |].
    exists e', w_last, w'. repeat split; try assumption; lia.
Qed.

(** From attempt [a] on, [func] failing [n] times and then returning,
    with the returning attempt within the limit: [n + 1] calls. *)
Lemma retry_loop_succeeds_after (n : nat) : forall a w c,
  a + Z.of_nat n <= retry_limit config ->
  c = (calls w + S n)%nat ->
  (forall w1, (calls w < calls w1 < c)%nat -> fails func w1) ->
  (forall w1, calls w1 = c -> succeeds func w1) ->
  exists v w_k w',
    for_first (range a (retry_limit config + 1))
              (_retry_attempt config (counted func) step_name) w = (Ret (Some v), w') /\
    calls w' = c /\
    fst (func w_k) = Ret v /\ calls w_k = c.
Proof.
  induction n as [|n IH]; intros a w c Ha Hc Hfail Hok;
    rewrite range_cons by lia; cbn [for_first]; unfold bind at 1.
  - destruct (Hok (tick w)) as (v & w2 & Hf & Hc2); [cbn; lia|].
    rewrite (retry_attempt_succeeds a w v w2 Hf).
    exists v, (tick w), w2. rewrite Hf. cbn in *. repeat split; lia.
  - destruct (Hfail (tick w)) as (e & w2 & Hf & He & Hc2); [cbn; lia|].
    destruct (retry_attempt_fails a w e w2 Hf He Hc2) as (w3 & Hc3 & Hrun).
    rewrite Hrun.
    replace (a =? retry_limit config) with false by (symmetry; apply Z.eqb_neq; lia).
    destruct (IH (a + 1) w3 c) as (v & w_k & w' & H1 & H2 & H3 & H4);
      [lia | lia | intros w1 Hw1; apply Hfail; lia | assumption |].
    exists v, w_k, w'. repeat split; assumption.
Qed.

End RetryController.



(** ** A retry budget of zero or less *)

Section ZeroBudget.

Context {env : Env}.
Variable profile : UserProfile.
Variable config : BotConfig.
Hypothesis no_budget : retry_limit config <= 0.

Lemma retry_without_budget {A} (func : M A) step_name w :
  _retry config func step_name w = (Ret None, w).
Proof. unfold _retry. now rewrite range_nil by lia. Qed.

Lemma stage_without_budget func step_name w :
  stage config func step_name w = (Ret tt, w).
Proof. unfold stage, bind. now rewrite retry_without_budget. Qed.

Lemma navigate_without_budget w :
  navigate_to_shoe config w =
  (Raise (mkExn RuntimeError "Could not load shoe page with available sizes."),
   record (ELog INFO ("Loading shoe page: " ++ shoe_url config)) w).
Proof. unfold navigate_to_shoe. now rewrite range_nil by lia. Qed.

Lemma run_stages_without_budget w :
  run_stages profile config w =
  match wait_for_drop config (record (ELog INFO "Logging in via accounts.nike.com") w) with
  | (Ret _, w') =>
      (Raise (mkExn RuntimeError "Could not load shoe page with available sizes."),
       record (ELog INFO ("Loading shoe page: " ++ shoe_url config)) w')
  | (Raise e, w') => (Raise e, w')
  | (Diverge, w') => (Diverge, w')
  end.
Proof.
  unfold run_stages, login. unfold bind at 1. unfold bind at 1, log.
  rewrite stage_without_budget. unfold bind at 1.
  destruct (wait_for_drop config _) as [[[]|e|] w']; try reflexivity.
  unfold bind at 1. now rewrite navigate_without_budget.
Qed.

(** The wait for the drop always ends: it returns or it raises. *)
Lemma wait_for_drop_ends w : fst (wait_for_drop config w) <> Diverge.
Proof.
  apply (keeps_wait_for_drop config any_world); unfold any_world; auto.
Qed.

End ZeroBudget.

(** C9, as the code has it.  When [retry_limit] is zero or negative,
    [_retry] returns [None] at once, in the world it was called in: the
    stage function is never invoked and nothing is raised.  The stages
    built on [_retry] therefore do nothing, but [navigate_to_shoe] has an
    attempt loop of its own and raises [RuntimeError] after it: the run
    never completes its stages.  Whatever the drop time, the login stage
    leaves one log line and the wait for the drop, the second stage, runs
    and ends; when the wait returns, the run aborts at the third stage with
    the [RuntimeError] of [navigate_to_shoe], and when the wait raises (a
    drop time that cannot be parsed, for one) the run aborts at the second
    stage with the exception of the wait.  With no drop time set the run
    ends at the third stage having done nothing but write three log
    lines. *)
Theorem zero_retry_budget :
  forall (env : Env) (profile : UserProfile) (config : BotConfig),
  retry_limit config <= 0 ->
  (forall (A : Type) (func : M A) (step_name : string) (w : World),
     _retry config func step_name w = (Ret None, w)) /\
  (forall w, fst (navigate_to_shoe config w) =
             Raise (mkExn RuntimeError "Could not load shoe page with available sizes.")) /\
  (forall w, fst (run_stages profile config w) <> Ret tt) /\
  (forall w,
     fst (wait_for_drop config (record (ELog INFO "Logging in via accounts.nike.com") w))
       <> Diverge /\
     (forall w2,
        wait_for_drop config (record (ELog INFO "Logging in via accounts.nike.com") w)
          = (Ret tt, w2) ->
        run_stages profile config w =
        (Raise (mkExn RuntimeError "Could not load shoe page with available sizes."),
         record (ELog INFO ("Loading shoe page: " ++ shoe_url config)) w2)) /\
     (forall e w2,
        wait_for_drop config (record (ELog INFO "Logging in via accounts.nike.com") w)
          = (Raise e, w2) ->
        run_stages profile config w = (Raise e, w2))) /\
  (drop_time config = None ->
   forall w,
     run_stages profile config w =
     (Raise (mkExn RuntimeError "Could not load shoe page with available sizes."),
      mkWorld (now w) (frame w)
              ([ELog INFO ("Loading shoe page: " ++ shoe_url config);
                ELog INFO "No drop time set - proceeding now.";
                ELog INFO "Logging in via accounts.nike.com"] ++ trace w)%list
              (calls w))).
Proof.
  intros env profile config Hlimit. repeat split.
  - intros A func step_name w. now apply retry_without_budget.
  - intros w. now rewrite navigate_without_budget.
  - intros w. rewrite run_stages_without_budget by assumption.
    destruct (wait_for_drop config _) as [[[]|e|] w']; discriminate.
  - apply wait_for_drop_ends.
  - intros w2 Hwait. rewrite run_stages_without_budget by assumption. now rewrite Hwait.
  - intros e w2 Hwait. rewrite run_stages_without_budget by assumption. now rewrite Hwait.
  - intros Hdrop w. rewrite run_stages_without_budget by assumption.
    unfold wait_for_drop. rewrite Hdrop. reflexivity.
Qed.

(** The same on concrete runs with limit 0: the stage function is not
    called and the navigation raises; with a drop time that cannot be
    parsed the run stops at the second stage. *)
Lemma zero_retry_budget_run :
  @_retry blank_env (a_config "10" 0) Z (counted always_raises) "stage" w0 = (Ret None, w0) /\
  fst (@navigate_to_shoe blank_env (a_config "10" 0) w0) =
    Raise (mkExn RuntimeError "Could not load shoe page with available sizes.") /\
  @run_stages blank_env a_profile bad_date_config w0 =
    (Raise (mkExn ValueError "Invalid isoformat string: tomorrow at ten"),
     record (ELog INFO "Logging in via accounts.nike.com") w0).
Proof.
  destruct (zero_retry_budget blank_env a_profile (a_config "10" 0)) as (H1 & H2 & _).
  - cbn; lia.
  - split; [apply H1 | split; [apply H2|]].
    destruct (zero_retry_budget blank_env a_profile bad_date_config) as (_ & _ & _ & H4 & _).
    + cbn; lia.
    + destruct (H4 w0) as (_ & _ & Hraise). apply Hraise. reflexivity.
Defined.

(** C9, the claim as it is worded fails: with a budget of zero the state
    machine does not complete its stages; the run stops at the third one
    and is reported as a fatal error. *)
Lemma zero_retry_budget_aborts :
  fst (@run_stages blank_env a_profile (a_config "10" 0) w0) =
    Raise (mkExn RuntimeError "Could not load shoe page with available sizes.") /\
  trace (snd (@start blank_env a_profile (a_config "10" 0) w0)) =
    [EQuit; EInput "Press Enter to close the browser";
     ELog INFO "Screenshot -> screenshots/final_state_0.png";
     ESaveScreenshot "screenshots/final_state_0.png";
     ELog ERROR "Fatal error: Could not load shoe page with available sizes.";
     ELog INFO "Loading shoe page: https://www.nike.com/t/air-jordan-1";
     ELog INFO "No drop time set - proceeding now.";
     ELog INFO "Logging in via accounts.nike.com";
     ECreateDriver;
     ELog INFO "Nike SNKRS Bot (v2 Stealth) starting"].
Proof. split; vm_compute; reflexivity. Qed.

(** ** The shipping stage on a page that already shows the payment step *)

Section ShippingShortCircuit.

Context {env : Env}.
Variable profile : UserProfile.
Variable config : BotConfig.

Lemma random_sleep_run lo hi w :
  random_sleep lo hi w = (Ret tt, after_pause lo hi w).
Proof. reflexivity. Qed.

Lemma element_exists_run sel w :
  element_exists CSS_SELECTOR sel w = (Ret (present w sel), w).
Proof.
  unfold element_exists, try_except, bind, find_element, present.
  destruct (find_elements w CSS_SELECTOR sel); reflexivity.
Qed.

Lemma step_already_complete_run step_name w :
  _step_already_complete step_name w = (Ret (existsb (present w) (indicators step_name)), w).
Proof.
  unfold _step_already_complete.
  assert (H : forall sels,
             for_first sels (fun sel =>
               present <- element_exists CSS_SELECTOR sel ;;
               if present then ret (Some tt) else ret None) w
             = (Ret (if existsb (present w) sels then Some tt else None), w)).
  { induction sels as [|sel rest IH]; [reflexivity|].
    cbn [for_first existsb]. unfold bind at 1. unfold bind at 1.
    rewrite element_exists_run. destruct (present w sel); [reflexivity | exact IH]. }
  unfold bind. rewrite H. now destruct (existsb _ _).
Qed.

Lemma do_shipping_skips w :
  payment_marker_present (after_pause 2000000 3000000 w) = true ->
  _do_shipping profile config w =
  (Ret tt, record (ELog INFO "Shipping already saved - skipping.")
                  (after_pause 2000000 3000000 w)).
Proof.
  intros Hm. unfold _do_shipping. unfold bind at 1. rewrite random_sleep_run.
  unfold bind at 1. rewrite step_already_complete_run.
  change (existsb _ (indicators "shipping"))
    with (present (after_pause 2000000 3000000 w) (attr "data-qa" "=" "payment")
          || (present (after_pause 2000000 3000000 w) ("iframe" ++ attr "title" "*=" "card")
              || false)).
  rewrite orb_false_r. unfold payment_marker_present in Hm. now rewrite Hm.
Qed.

Lemma added_nil w : added w w [].
Proof. reflexivity. Qed.

Lemma added_record ev w w' evs :
  added w w' evs -> added w (record ev w') (ev :: evs).
Proof. unfold added. cbn. now intros ->. Qed.

Lemma added_pause lo hi w w' evs :
  added w w' evs ->
  added w (after_pause lo hi w')
        (ESleep (now w') (Z.max lo (Z.min hi (random_draw w' lo hi))) :: evs).
Proof. unfold added. cbn. now intros ->. Qed.

End ShippingShortCircuit.

(** C6.  When a payment-stage marker is on the page at the moment the
    shipping stage looks for it (right after its opening pause), the stage
    body returns having only paused and logged, and so does the whole
    retried stage, whatever the retry budget: no element is clicked,
    cleared or typed into. *)
Theorem fill_shipping_idempotent :
  forall (env : Env) (profile : UserProfile) (config : BotConfig) (w : World),
  (payment_marker_present (after_pause 2000000 3000000 w) = true ->
   exists w' evs,
     _do_shipping profile config w = (Ret tt, w') /\
     added w w' evs /\ Forall (fun ev => idle ev = true) evs) /\
  (payment_marker_present
     (after_pause 2000000 3000000 (record (ELog INFO "Filling shipping info") w)) = true ->
   exists w' evs,
     fill_shipping profile config w = (Ret tt, w') /\
     added w w' evs /\ Forall (fun ev => idle ev = true) evs).
Proof.
  intros env profile config w. split; intros Hm.
  - rewrite do_shipping_skips by assumption.
    do 2 eexists. split; [reflexivity|]. split.
    + apply added_record, added_pause, added_nil.
    + repeat constructor.
  - unfold fill_shipping. unfold bind at 1, log. unfold stage, _retry.
    destruct (Z.leb_spec (retry_limit config) 0) as [Hle|Hgt].
    + rewrite range_nil by lia. do 2 eexists. split; [reflexivity|]. split.
      * apply added_record, added_nil.
      * repeat constructor.
    + rewrite range_cons by lia. cbn [for_first]. unfold _retry_attempt at 1.
      unfold try_except. unfold bind.
      rewrite do_shipping_skips by assumption.
      do 2 eexists. split; [reflexivity|]. split.
      * apply added_record, added_pause, added_record, added_nil.
      * repeat constructor.
Qed.

(** C6 on a concrete run with the default budget of 5. *)
Lemma fill_shipping_idempotent_run :
  exists w' evs,
    @fill_shipping payment_step_env a_profile (a_config "10" 5) w0 = (Ret tt, w') /\
    added w0 w' evs /\ Forall (fun ev => idle ev = true) evs.
Proof.
  apply (proj2 (fill_shipping_idempotent payment_step_env a_profile (a_config "10" 5) w0)).
  reflexivity.
Defined.

(** ** The frame the driver addresses during the payment stage *)

Section PaymentFrames.

Context {env : Env}.
Variable profile : UserProfile.
Variable config : BotConfig.

(** [driver.switch_to.default_content()] itself does not fail. *)
Hypothesis default_content_works : forall w, raises w ESwitchDefault = None.

Lemma switch_to_default_run w :
  switch_to_default w =
  (Ret tt, mkWorld (now w) None (ESwitchDefault :: trace w) (calls w)).
Proof. unfold switch_to_default, bind, perform. now rewrite default_content_works. Qed.

Lemma iframe_attempt_ends isel group value w :
  fst (iframe_attempt config isel group value w) <> Diverge.
Proof.
  apply (keeps_iframe_attempt config any_world); unfold any_world; auto.
Qed.

(** However an attempt goes, it ends; when it returns the driver is back
    on the top-level document; and what it raises is neither a timeout
    nor a missing element. *)
Lemma iframe_attempt_outcome isel group value w :
  match iframe_attempt config isel group value w with
  | (Ret _, w') => frame w' = None
  | (Raise e, _) => timeout_or_not_found e = false
  | (Diverge, _) => False
  end.
Proof.
  pose proof (iframe_attempt_ends isel group value w) as Hends.
  unfold iframe_attempt in *.
  set (body := (switch_to_iframe config CSS_SELECTOR isel (Some 5) ;;
                filled <- fill_in_frame config group value ;;
                ret (Some filled))) in *.
  set (back := fun _ : exn => (switch_to_default ;; ret (@None bool))) in *.
  assert (Hback : forall e w1,
             back e w1 = (Ret None, mkWorld (now w1) None (ESwitchDefault :: trace w1) (calls w1))).
  { intros e w1. unfold back. now rewrite (bind_run _ _ _ _ _ (switch_to_default_run w1)). }
  assert (Hbody : (exists filled w1, body w = (Ret (Some filled), w1)) \/
                  (exists e w1, body w = (Raise e, w1)) \/
                  (exists w1, body w = (Diverge, w1))).
  { unfold body.
    destruct (switch_to_iframe config CSS_SELECTOR isel (Some 5) w) as [[[]|e|] w1] eqn:Hs.
    - rewrite (bind_run _ _ _ _ _ Hs).
      destruct (fill_in_frame config group value w1) as [[filled|e|] w2] eqn:Hf.
      + rewrite (bind_run _ _ _ _ _ Hf). left. now exists filled, w2.
      + rewrite (bind_raise _ _ _ _ _ Hf). right; left. now exists e, w2.
      + rewrite (bind_diverge _ _ _ _ Hf). right; right. now exists w2.
    - rewrite (bind_raise _ _ _ _ _ Hs). right; left. now exists e, w1.
    - rewrite (bind_diverge _ _ _ _ Hs). right; right. now exists w1. }
  destruct Hbody as [(filled & w1 & Hb) | [(e & w1 & Hb) | (w1 & Hb)]].
  - rewrite (bind_run _ _ _ _ _ (try_except_ret _ _ _ _ _ _ Hb)).
    rewrite (bind_run _ _ _ _ _
               (try_except_ret _ _ _ _ _ _ (switch_to_default_run w1))).
    reflexivity.
  - destruct (timeout_or_not_found e) eqn:He.
    + rewrite (bind_run (try_except body timeout_or_not_found back) _ w None
                 (mkWorld (now w1) None (ESwitchDefault :: trace w1) (calls w1))).
      * reflexivity.
      * rewrite (try_except_caught _ _ _ _ _ _ Hb He). apply Hback.
    + rewrite (bind_raise _ _ _ _ _ (try_except_uncaught _ _ _ _ _ _ Hb He)). exact He.
  - rewrite (bind_diverge _ _ _ _ (try_except_diverge _ _ _ _ _ Hb)) in Hends.
    now contradiction Hends.
Qed.

(** Entering the frame times out. *)
Lemma iframe_attempt_timeout isel group value w :
  until w 5 (presence_of_element_located CSS_SELECTOR isel) = None ->
  iframe_attempt config isel group value w =
  (Ret false, mkWorld (now w) None (ESwitchDefault :: trace w) (calls w)).
Proof.
  intros Hu. unfold iframe_attempt.
  assert (Hs : switch_to_iframe config CSS_SELECTOR isel (Some 5) w =
               (Raise (mkExn TimeoutException ""), w)).
  { unfold switch_to_iframe. cbn [Z.eqb]. apply bind_raise. unfold wait_until. now rewrite Hu. }
  rewrite (bind_run _ _ w None
             (mkWorld (now w) None (ESwitchDefault :: trace w) (calls w))).
  - reflexivity.
  - rewrite (try_except_caught _ _ _ _ _ _ (bind_raise _ _ _ _ _ Hs) eq_refl).
    now rewrite (bind_run _ _ _ _ _ (switch_to_default_run w)).
Qed.

Lemma fill_in_frame_nothing group value w :
  (forall sel, In sel (PyStr.split_comma_space EmptyString group) ->
               find_elements w CSS_SELECTOR sel = []) ->
  fill_in_frame config group value w = (Ret false, w).
Proof.
  unfold fill_in_frame. generalize (PyStr.split_comma_space EmptyString group).
  intros sels Hnone.
  assert (H : for_first sels (fun inp_sel =>
                try_except
                  (inp <- find_element CSS_SELECTOR inp_sel ;;
                   human_clear_and_type config inp value ;;
                   ret (Some tt))
                  (is_a NoSuchElementException)
                  (fun _ => ret None)) w = (Ret None, w)).
  { induction sels as [|sel rest IH]; [reflexivity|].
    cbn [for_first]. unfold bind at 1. unfold try_except at 1. unfold bind at 1.
    unfold find_element at 1. rewrite (Hnone sel) by (left; reflexivity). cbn.
    apply IH. intros s Hs. apply Hnone. now right. }
  now rewrite (bind_run _ _ _ _ _ H).
Qed.

(** The frame is entered and no input is found inside. *)
Lemma iframe_attempt_not_found isel group value w iframe :
  until w 5 (presence_of_element_located CSS_SELECTOR isel) = Some iframe ->
  raises w (ESwitchFrame iframe) = None ->
  (forall sel, In sel (PyStr.split_comma_space EmptyString group) ->
               find_elements (entered_frame iframe w) CSS_SELECTOR sel = []) ->
  iframe_attempt config isel group value w =
  (Ret false,
   mkWorld (now w) None (ESwitchDefault :: ESwitchFrame iframe :: trace w) (calls w)).
Proof.
  intros Hu Hr Hnone. unfold iframe_attempt.
  assert (Hs : switch_to_iframe config CSS_SELECTOR isel (Some 5) w =
               (Ret tt, entered_frame iframe w)).
  { unfold switch_to_iframe, bind, wait_until, perform. cbn [Z.eqb]. now rewrite Hu, Hr. }
  assert (Hb : (switch_to_iframe config CSS_SELECTOR isel (Some 5) ;;
                filled <- fill_in_frame config group value ;;
                ret (Some filled)) w = (Ret (Some false), entered_frame iframe w)).
  { rewrite (bind_run _ _ _ _ _ Hs).
    now rewrite (bind_run _ _ _ _ _ (fill_in_frame_nothing group value _ Hnone)). }
  rewrite (bind_run _ _ _ _ _ (try_except_ret _ _ _ _ _ _ Hb)).
  rewrite (bind_run _ _ _ _ _
             (try_except_ret _ _ _ _ _ _ (switch_to_default_run (entered_frame iframe w)))).
  reflexivity.
Qed.

Lemma returns_to_top_of_same_frame {A} (m : M A) :
  keeps same_frame m -> returns_to_top m.
Proof.
  intros Hk w a w' Hw Hm. destruct (Hk w) as [H _]. rewrite Hm in H.
  unfold same_frame in H. cbn in H. congruence.
Qed.

Lemma returns_to_top_bind {A B} (m : M A) (k : A -> M B) :
  returns_to_top m -> (forall a, returns_to_top (k a)) -> returns_to_top (bind m k).
Proof.
  intros Hm Hk w b w' Hw. unfold bind.
  destruct (m w) as [[a|e|] w1] eqn:E; try discriminate.
  intros Hr. eapply Hk; [|exact Hr]. eapply Hm; eassumption.
Qed.

Lemma returns_to_top_for_each {A} (xs : list A) (body : A -> M unit) :
  (forall x, returns_to_top (body x)) -> returns_to_top (for_each xs body).
Proof.
  intros Hb. induction xs as [|x rest IH]; cbn [for_each].
  - intros w a w' Hw [= _ <-]. exact Hw.
  - apply returns_to_top_bind; [apply Hb | intros _; exact IH].
Qed.

Lemma returns_to_top_iframe_attempt isel group value :
  returns_to_top (iframe_attempt config isel group value).
Proof.
  intros w a w' _ Hr. pose proof (iframe_attempt_outcome isel group value w) as H.
  now rewrite Hr in H.
Qed.

Lemma returns_to_top_iframe_loop isels group value filled :
  returns_to_top (iframe_loop config isels group value filled).
Proof.
  revert filled. induction isels as [|isel rest IH]; intros filled; cbn [iframe_loop].
  - intros w a w' Hw [= _ <-]. exact Hw.
  - destruct filled.
    + intros w a w' Hw [= _ <-]. exact Hw.
    + apply returns_to_top_bind; [apply returns_to_top_iframe_attempt | intros b; apply IH].
Qed.

End PaymentFrames.

Lemma same_frame_refl w : same_frame w w.
Proof. reflexivity. Qed.

Lemma same_frame_trans w1 w2 w3 : same_frame w1 w2 -> same_frame w2 w3 -> same_frame w1 w3.
Proof. unfold same_frame. congruence. Qed.

Lemma same_frame_record ev w : same_frame w (record ev w).
Proof. reflexivity. Qed.

Lemma same_frame_sleep d w :
  same_frame w (mkWorld (now w + d) (frame w) (ESleep (now w) d :: trace w) (calls w)).
Proof. reflexivity. Qed.

(** Bring the facts about [same_frame] into the context, where
    [keeps_auto] looks for them. *)
Ltac with_same_frame :=
  pose proof same_frame_refl; pose proof same_frame_trans;
  pose proof same_frame_record; pose proof same_frame_sleep.

Section PaymentStage.

Context {env : Env}.
Variable profile : UserProfile.
Variable config : BotConfig.
Hypothesis default_content_works : forall w, raises w ESwitchDefault = None.

Lemma returns_to_top_fill_card_field igroup group value :
  returns_to_top (fill_card_field config igroup group value).
Proof.
  with_same_frame. unfold fill_card_field.
  destruct (negb (truthy value)).
  - apply returns_to_top_of_same_frame. keeps_auto.
  - apply returns_to_top_bind.
    + now apply returns_to_top_iframe_loop.
    + intros filled. apply returns_to_top_of_same_frame. keeps_auto.
Qed.

Lemma returns_to_top_do_payment : returns_to_top (_do_payment profile config).
Proof.
  with_same_frame. unfold _do_payment.
  apply returns_to_top_bind; [apply returns_to_top_of_same_frame; keeps_auto|].
  intros _. apply returns_to_top_bind; [apply returns_to_top_of_same_frame; keeps_auto|].
  intros [|]; [apply returns_to_top_of_same_frame; keeps_auto|].
  apply returns_to_top_bind.
  - apply returns_to_top_for_each. intros [igroup [group value]].
    apply returns_to_top_fill_card_field.
  - intros _. apply returns_to_top_of_same_frame. keeps_auto.
Qed.

End PaymentStage.



(** ** Size selection by text *)

Section SelectSize.

Context {env : Env}.
Variable config : BotConfig.

Lemma click_when_clickable_times_out sel w :
  until w 3 (element_to_be_clickable CSS_SELECTOR sel) = None ->
  click_when_clickable config sel w = (Ret None, w).
Proof.
  intros Hu. unfold click_when_clickable.
  rewrite (try_except_caught _ _ _ w (mkExn TimeoutException "") w); [reflexivity | | reflexivity].
  apply bind_raise. unfold wait_until. now rewrite Hu.
Qed.

Lemma strategy_a_run sels w :
  (forall sel, In sel sels -> until w 3 (element_to_be_clickable CSS_SELECTOR sel) = None) ->
  for_first sels (click_when_clickable config) w = (Ret None, w).
Proof.
  induction sels as [|sel rest IH]; intros H; [reflexivity|].
  cbn [for_first].
  rewrite (bind_run _ _ _ _ _ (click_when_clickable_times_out sel w (H sel (or_introl eq_refl)))).
  apply IH. intros s Hs. apply H. now right.
Qed.

(** The text-matching loop acts on the first button that passes the
    test, and on no other. *)
Lemma strategy_b_run target buttons w :
  for_first buttons (click_if_text_matches target) w =
  match find (size_text_match target) buttons with
  | Some btn =>
      (human_click btn ;;
       log INFO ("Size " ++ target ++ " selected (text match)!") ;;
       random_sleep 300000 800000 ;;
       ret (Some tt)) w
  | None => (Ret None, w)
  end.
Proof.
  induction buttons as [|btn rest IH]; [reflexivity|].
  cbn [for_first find]. unfold click_if_text_matches at 1.
  destruct (size_text_match target btn).
  - unfold bind at 1.
    destruct ((human_click btn ;; log INFO _ ;; random_sleep 300000 800000 ;; ret (Some tt)) w)
      as [[[[]|]|e|] w1] eqn:E; try reflexivity.
    exfalso. revert E. unfold bind.
    destruct (human_click btn w) as [[[]|e|] w2]; cbn; discriminate.
  - rewrite bind_ret. exact IH.
Qed.

(** What a click leaves in the history: the action chain on the element,
    and the script click on the same element when the chain failed. *)
Lemma human_click_trace btn w :
  exists o dx dy pause,
    human_click btn w = (o, record (EActionClick btn dx dy pause) w) \/
    human_click btn w =
      (o, record (EScript "arguments[0].click();" (Some btn))
                 (record (EActionClick btn dx dy pause) w)).
Proof.
  unfold human_click, try_except, bind, randint, uniform, ask, perform.
  destruct (raises w _) as [e|] eqn:Hr.
  - destruct (is_Exception e).
    + destruct (raises _ (EScript _ _)); do 4 eexists; right; reflexivity.
    + do 4 eexists; left; reflexivity.
  - do 4 eexists; left; reflexivity.
Qed.

Lemma cons_app_eq {A} (x : A) l evs t : l = (evs ++ t)%list -> x :: l = ((x :: evs) ++ t)%list.
Proof. now intros ->. Qed.

Lemma nil_app_eq {A} (t : list A) : t = ([] ++ t)%list.
Proof. reflexivity. Qed.

Lemma do_select_run w :
  strategy_a_times_out config w ->
  _do_select config w =
  match find (size_text_match (PyStr.strip (shoe_size config))) (size_buttons w) with
  | Some btn =>
      (human_click btn ;;
       log INFO ("Size " ++ PyStr.strip (shoe_size config) ++ " selected (text match)!") ;;
       random_sleep 300000 800000) (after_pause 500000 1000000 w)
  | None =>
      (Raise (mkExn NoSuchElementException
                ("Size '" ++ PyStr.strip (shoe_size config) ++ "' not found. Available: " ++
                 repr_list (filter truthy
                              (map (fun b => PyStr.strip (el_text b)) (size_buttons w))))),
       after_pause 500000 1000000 w)
  end.
Proof.
  intros Ha. unfold _do_select.
  rewrite (bind_run _ _ _ _ _ (random_sleep_run 500000 1000000 w)).
  rewrite (bind_run _ _ _ _ _ (strategy_a_run (size_selectors config) _ Ha)).
  unfold bind at 1, ask. fold (size_buttons w). cbv zeta.
  unfold bind at 1. rewrite strategy_b_run.
  destruct (find _ (size_buttons w)) as [btn|]; [|reflexivity].
  unfold bind. destruct (human_click btn _) as [[[]|e|] w1]; reflexivity.
Qed.

Lemma do_select_text_match w :
  strategy_a_times_out config w ->
  match find (size_text_match (PyStr.strip (shoe_size config))) (size_buttons w) with
  | Some btn =>
      exists evs,
        added w (snd (_do_select config w)) evs /\
        (exists dx dy pause, In (EActionClick btn dx dy pause) evs) /\
        (forall ev el, In ev evs -> acted_on ev = Some el -> el = btn)
  | None =>
      _do_select config w =
      (Raise (mkExn NoSuchElementException
                ("Size '" ++ PyStr.strip (shoe_size config) ++ "' not found. Available: " ++
                 repr_list (filter truthy
                              (map (fun b => PyStr.strip (el_text b)) (size_buttons w))))),
       after_pause 500000 1000000 w)
  end.
Proof.
  intros Ha. rewrite (do_select_run w Ha).
  destruct (find _ (size_buttons w)) as [btn|]; [|reflexivity].
  destruct (human_click_trace btn (after_pause 500000 1000000 w))
    as (o & dx & dy & pause & [H|H]);
    unfold bind; rewrite H; destruct o as [[]|e|];
    (eexists; split;
     [unfold added; cbn [snd trace record after_pause random_sleep bind uniform ask sleep ret fst log];
      repeat apply cons_app_eq; apply nil_app_eq
     | split;
       [exists dx, dy, pause; cbn [In]; repeat (first [left; reflexivity | right])
       | intros ev el Hin Hact; cbn [In] in Hin;
         repeat (destruct Hin as [<-|Hin]; [cbn in Hact; congruence|]);
         contradiction]]).
Qed.

End SelectSize.

(** C1, as the code has it.  When none of the specific selectors becomes
    clickable, the text-matching fallback clicks the first button in
    document order whose stripped text equals the stripped target, or ends
    with a space and the target, or whose accessible label contains the
    target, and acts on no other element; when no button passes it raises
    [NoSuchElementException].  A button whose text is "10.5" passes for
    the target "10" exactly when its accessible label contains "10".  With
    buttons of texts "8", "9", "10", "11", "10.5" in that document order,
    the button selected for "10" is never the "10.5" one. *)
Theorem select_size_text_match :
  forall (env : Env) (config : BotConfig),
  (forall w,
     strategy_a_times_out config w ->
     match find (size_text_match (PyStr.strip (shoe_size config))) (size_buttons w) with
     | Some btn =>
         In btn (size_buttons w) /\
         (PyStr.strip (el_text btn) = PyStr.strip (shoe_size config) \/
          PyStr.endswith (PyStr.strip (el_text btn))
                         (" " ++ PyStr.strip (shoe_size config)) = true \/
          PyStr.contains (PyStr.strip (shoe_size config)) (aria_or_empty btn) = true) /\
         exists evs,
           added w (snd (_do_select config w)) evs /\
           (exists dx dy pause, In (EActionClick btn dx dy pause) evs) /\
           (forall ev el, In ev evs -> acted_on ev = Some el -> el = btn)
     | None =>
         fst (_do_select config w) =
         Raise (mkExn NoSuchElementException
                  ("Size '" ++ PyStr.strip (shoe_size config) ++ "' not found. Available: " ++
                   repr_list (filter truthy
                                (map (fun b => PyStr.strip (el_text b)) (size_buttons w)))))
     end) /\
  (forall btn,
     PyStr.strip (el_text btn) = "10.5" ->
     size_text_match "10" btn = PyStr.contains "10" (aria_or_empty btn)) /\
  (forall buttons,
     map (fun b => PyStr.strip (el_text b)) buttons = ["8"; "9"; "10"; "11"; "10.5"] ->
     exists btn,
       find (size_text_match "10") buttons = Some btn /\
       PyStr.strip (el_text btn) <> "10.5").
Proof.
  intros env config. refine (conj _ (conj _ _)).
  - intros w Ha. pose proof (do_select_text_match config w Ha) as H.
    destruct (find _ (size_buttons w)) as [btn|] eqn:Hfind.
    + apply find_some in Hfind. destruct Hfind as [Hin Hm]. split; [exact Hin|]. split; [|exact H].
      unfold size_text_match in Hm. fold (aria_or_empty btn) in Hm.
      apply orb_true_iff in Hm. destruct Hm as [Hm|Hm]; [|now right; right].
      apply orb_true_iff in Hm. destruct Hm as [Hm|Hm]; [left | now right; left].
      now apply String.eqb_eq.
    + now rewrite H.
  - intros btn Htext. unfold size_text_match. fold (aria_or_empty btn).
    rewrite Htext. reflexivity.
  - intros buttons Htexts.
    destruct buttons as [|b1 [|b2 [|b3 rest]]]; try discriminate.
    injection Htexts as H1 H2 H3 _. cbn [find].
    destruct (size_text_match "10" b1); [exists b1; split; [reflexivity | now rewrite H1]|].
    destruct (size_text_match "10" b2); [exists b2; split; [reflexivity | now rewrite H2]|].
    assert (Hm : size_text_match "10" b3 = true).
    { unfold size_text_match. rewrite H3. reflexivity. }
    rewrite Hm. exists b3. split; [reflexivity | now rewrite H3].
Qed.

(** C1 on a concrete run: on the plain grid the click goes to the button
    "10" and to nothing else. *)
Lemma select_size_text_match_run :
  exists evs,
    added w0 (snd (@_do_select plain_grid_env (a_config "10" 5) w0)) evs /\
    (exists dx dy pause, In (EActionClick (button 3 "10" None true) dx dy pause) evs) /\
    (forall ev el, In ev evs -> acted_on ev = Some el -> el = button 3 "10" None true).
Proof.
  destruct (select_size_text_match plain_grid_env (a_config "10" 5)) as [H _].
  specialize (H w0 (fun sel _ => eq_refl)).
  exact (proj2 (proj2 H)).
Defined.

(** C1, the claim as it is worded fails: on a grid in the order 8, 9,
    10.5, 10, 11 whose buttons carry the labels "Size 8" ... "Size 11", the
    button "10.5" passes the test for "10" through its label and, standing
    before the button "10", is the one clicked. *)
Lemma select_size_picks_10_5 :
  In size_10 (@size_buttons size_grid_env w0) /\
  PyStr.strip (el_text size_10) = "10" /\
  size_text_match "10" size_10_5 = true /\
  @_do_select size_grid_env (a_config "10" 5) w0 =
  (Ret tt,
   mkWorld 800000 None
           [ESleep 500000 300000;
            ELog INFO "Size 10 selected (text match)!";
            EActionClick size_10_5 (-3) (-3) 100000;
            ESleep 0 500000]
           0).
Proof.
  split; [right; right; right; left; reflexivity|].
  split; [reflexivity|]. split; vm_compute; reflexivity.
Qed.

(** ** The API login *)

Lemma bind_ret_inv {A B} (m : M A) (k : A -> M B) w b w' :
  bind m k w = (Ret b, w') -> exists a w1, m w = (Ret a, w1) /\ k a w1 = (Ret b, w').
Proof.
  unfold bind. destruct (m w) as [[a|e|] w1]; try discriminate.
  intros H. now exists a, w1.
Qed.

Lemma tame_ret {A} (a : A) : tame (ret a).
Proof. intros w. exact I. Qed.

Lemma tame_ask {A} (f : World -> A) : tame (ask f).
Proof. intros w. exact I. Qed.

Lemma tame_log lvl msg : tame (log lvl msg).
Proof. intros w. exact I. Qed.

Lemma tame_sleep d : tame (sleep d).
Proof. intros w. exact I. Qed.

Lemma tame_raise {A} cls msg :
  exc_class_eqb cls KeyboardInterrupt = false -> tame (@raise A cls msg).
Proof. intros H w. cbn. unfold is_Exception. cbn. now rewrite H. Qed.

Lemma tame_bind {A B} (m : M A) (k : A -> M B) :
  tame m -> (forall a, tame (k a)) -> tame (bind m k).
Proof.
  intros Hm Hk w. unfold bind. specialize (Hm w).
  destruct (m w) as [[a|e|] w1]; cbn in *; [apply Hk | exact Hm | exact Hm].
Qed.

Lemma tame_try_except {A} (body : M A) catches handler :
  tame body -> (forall e, tame (handler e)) -> tame (try_except body catches handler).
Proof.
  intros Hb Hh w. unfold try_except. specialize (Hb w).
  destruct (body w) as [[a|e|] w1]; cbn in *; try exact Hb.
  destruct (catches e); [apply Hh | exact Hb].
Qed.

Lemma tame_for_each {A} (xs : list A) (body : A -> M unit) :
  (forall x, tame (body x)) -> tame (for_each xs body).
Proof.
  intros Hb. induction xs as [|x rest IH]; cbn [for_each]; [apply tame_ret|].
  apply tame_bind; [apply Hb | intros _; exact IH].
Qed.

Create HintDb tame discriminated.

#[export] Hint Resolve tame_ret tame_ask tame_log tame_sleep : tame.

Ltac tame_step :=
  match goal with
  | |- tame (bind _ _) => apply tame_bind; [idtac | intros ?]
  | |- tame (try_except _ _ _) => apply tame_try_except; [idtac | intros ?]
  | |- tame (for_each _ _) => apply tame_for_each; intros ?
  | |- tame (raise _ _) => apply tame_raise; reflexivity
  | |- tame (if ?b then _ else _) => destruct b
  | |- tame (match ?x with _ => _ end) => destruct x
  | |- tame _ => solve [eauto with tame]
  end.

(** ** Injecting the session of the API login *)

Lemma cookies_offered_app evs1 evs2 :
  cookies_offered (evs2 ++ evs1) = (cookies_offered evs1 ++ cookies_offered evs2)%list.
Proof. unfold cookies_offered. now rewrite flat_map_app, rev_app_distr. Qed.

Section InjectSession.

Context {env : Env}.
Hypothesis not_interrupted : no_interrupt env.

(** A command whose [Exception]s are swallowed always goes on. *)
Lemma guarded_perform ev w :
  try_except (perform ev) is_Exception (fun _ => ret tt) w = (Ret tt, record ev w).
Proof.
  unfold try_except, perform. destruct (raises w ev) as [e|] eqn:He; [|reflexivity].
  now rewrite (not_interrupted w ev e He).
Qed.

Lemma add_cookies_run cookies : forall w,
  exists w' evs,
    for_each cookies (fun cookie =>
      try_except
        (perform (EAddCookie (ck_name cookie) (ck_value cookie)
                             (NikeAPILogin.or_default (ck_domain cookie) ".nike.com")
                             (NikeAPILogin.or_default (ck_path cookie) "/")))
        is_Exception (fun _ => ret tt)) w = (Ret tt, w') /\
    added w w' evs /\ cookies_offered evs = map injected cookies.
Proof.
  induction cookies as [|c rest IH]; intros w.
  - exists w, []. repeat split.
  - cbn [for_each]. rewrite (bind_run _ _ _ _ _ (guarded_perform _ w)).
    destruct (IH (record (EAddCookie (ck_name c) (ck_value c)
                            (NikeAPILogin.or_default (ck_domain c) ".nike.com")
                            (NikeAPILogin.or_default (ck_path c) "/")) w))
      as (w' & evs & Hrun & Hadd & Hoff).
    exists w', (evs ++ [EAddCookie (ck_name c) (ck_value c)
                          (NikeAPILogin.or_default (ck_domain c) ".nike.com")
                          (NikeAPILogin.or_default (ck_path c) "/")])%list.
    split; [exact Hrun|]. split.
    + unfold added in *. rewrite Hadd. cbn [trace record]. now rewrite <- app_assoc.
    + rewrite cookies_offered_app, Hoff. reflexivity.
Qed.

Lemma land_on_nike_run w :
  exists w' evs,
    (if negb (PyStr.contains "nike" (current_url w))
     then try_except
            (perform (EGet "https://www.nike.com/") ;; sleep 2000000)
            is_Exception (fun _ => ret tt)
     else ret tt) w = (Ret tt, w') /\
    added w w' evs /\ cookies_offered evs = [].
Proof.
  destruct (negb _).
  - unfold try_except, bind, perform.
    destruct (raises w _) as [e|] eqn:He.
    + rewrite (not_interrupted w _ e He). exists (record (EGet "https://www.nike.com/") w),
        [EGet "https://www.nike.com/"]. repeat split.
    + eexists. exists [ESleep (now w) 2000000; EGet "https://www.nike.com/"].
      repeat split.
  - exists w, []. repeat split.
Qed.

Lemma token_cookie_run auth_data w :
  exists w' evs,
    (if truthy (NikeAPILogin.dict_get "access_token" auth_data)
     then try_except
            (perform (EAddCookie "access_token"
                        (NikeAPILogin.dict_get "access_token" auth_data) ".nike.com" "/"))
            is_Exception (fun _ => ret tt)
     else ret tt) w = (Ret tt, w') /\
    added w w' evs /\ cookies_offered evs = token_cookie auth_data.
Proof.
  unfold token_cookie. cbv zeta.
  destruct (truthy _).
  - rewrite guarded_perform. eexists. eexists [_]. repeat split.
  - exists w, []. repeat split.
Qed.

Lemma refresh_run w :
  exists evs,
    added w (snd ((perform ERefresh ;; d <- uniform 2000000 3000000 ;; sleep d) w)) evs /\
    cookies_offered evs = [] /\
    fst ((perform ERefresh ;; d <- uniform 2000000 3000000 ;; sleep d) w) <> Diverge.
Proof.
  unfold bind, perform, uniform, ask, sleep.
  destruct (raises w ERefresh); cbn [fst snd].
  - exists [ERefresh]. repeat split. discriminate.
  - eexists [_; ERefresh]. repeat split. discriminate.
Qed.

Lemma inject_session_run auth_data cookies w :
  exists evs,
    added w (snd (NikeAPILogin._inject_session auth_data cookies w)) evs /\
    cookies_offered evs = (map injected cookies ++ token_cookie auth_data)%list /\
    fst (NikeAPILogin._inject_session auth_data cookies w) <> Diverge.
Proof.
  destruct (land_on_nike_run w) as (w1 & evs1 & Hrun1 & Hadd1 & Hoff1).
  destruct (add_cookies_run cookies w1) as (w2 & evs2 & Hrun2 & Hadd2 & Hoff2).
  destruct (token_cookie_run auth_data w2) as (w3 & evs3 & Hrun3 & Hadd3 & Hoff3).
  set (script := EScript ("window.localStorage.setItem(" ++
                          "'com.nike.commerce.nikedotcom.web.credential', '" ++
                          NikeAPILogin.json_dumps auth_data ++ "');") None).
  assert (Heq : NikeAPILogin._inject_session auth_data cookies w =
                (perform ERefresh ;; d <- uniform 2000000 3000000 ;; sleep d)
                  (record script w3)).
  { unfold NikeAPILogin._inject_session. unfold bind at 1, ask. cbv zeta.
    rewrite (bind_run _ _ _ _ _ Hrun1), (bind_run _ _ _ _ _ Hrun2), (bind_run _ _ _ _ _ Hrun3).
    now rewrite (bind_run _ _ _ _ _ (guarded_perform _ w3)). }
  rewrite Heq.
  destruct (refresh_run (record script w3)) as (evs4 & Hadd4 & Hoff4 & Hends).
  exists (evs4 ++ [script] ++ evs3 ++ evs2 ++ evs1)%list.
  split; [|split; [|exact Hends]].
  - unfold added in *. rewrite Hadd4. cbn [trace record]. rewrite Hadd3, Hadd2, Hadd1.
    rewrite <- !app_assoc. reflexivity.
  - rewrite !cookies_offered_app, Hoff1, Hoff2, Hoff3, Hoff4. cbn [app].
    change (cookies_offered [script]) with (@nil Cookie).
    now rewrite !app_nil_r.
Qed.

(** The injection up to its last step, the refresh that applies the
    session. *)
Lemma inject_session_reaches_refresh auth_data cookies w :
  exists w3 evs,
    NikeAPILogin._inject_session auth_data cookies w =
      (perform ERefresh ;; d <- uniform 2000000 3000000 ;; sleep d) w3 /\
    added w w3 evs /\
    cookies_offered evs = (map injected cookies ++ token_cookie auth_data)%list.
Proof.
  destruct (land_on_nike_run w) as (w1 & evs1 & Hrun1 & Hadd1 & Hoff1).
  destruct (add_cookies_run cookies w1) as (w2 & evs2 & Hrun2 & Hadd2 & Hoff2).
  destruct (token_cookie_run auth_data w2) as (w3 & evs3 & Hrun3 & Hadd3 & Hoff3).
  set (script := EScript ("window.localStorage.setItem(" ++
                          "'com.nike.commerce.nikedotcom.web.credential', '" ++
                          NikeAPILogin.json_dumps auth_data ++ "');") None).
  exists (record script w3), ([script] ++ evs3 ++ evs2 ++ evs1)%list.
  split; [|split].
  - unfold NikeAPILogin._inject_session. unfold bind at 1, ask. cbv zeta.
    rewrite (bind_run _ _ _ _ _ Hrun1), (bind_run _ _ _ _ _ Hrun2), (bind_run _ _ _ _ _ Hrun3).
    now rewrite (bind_run _ _ _ _ _ (guarded_perform _ w3)).
  - unfold added in *. cbn [trace record]. rewrite Hadd3, Hadd2, Hadd1.
    rewrite <- !app_assoc. reflexivity.
  - rewrite !cookies_offered_app, Hoff1, Hoff2, Hoff3. cbn [app].
    change (cookies_offered [script]) with (@nil Cookie).
    now rewrite !app_nil_r.
Qed.

(** An injection that returns has offered the cookies and ended with the
    refresh and the pause of 2 s to 3 s after it. *)
Lemma inject_session_ret auth_data cookies w w' :
  NikeAPILogin._inject_session auth_data cookies w = (Ret tt, w') ->
  exists evs start d,
    trace w' = (ESleep start d :: ERefresh :: evs ++ trace w)%list /\
    cookies_offered evs = (map injected cookies ++ token_cookie auth_data)%list /\
    2000000 <= d <= 3000000.
Proof.
  destruct (inject_session_reaches_refresh auth_data cookies w)
    as (w3 & evs & -> & Hadd & Hoff).
  unfold bind, perform. destruct (raises w3 ERefresh); [discriminate|].
  unfold uniform, ask, sleep. intros [= <-].
  exists evs, (now (record ERefresh w3)),
         (Z.max 2000000 (Z.min 3000000 (random_draw (record ERefresh w3) 2000000 3000000))).
  cbn [trace record]. rewrite Hadd. repeat split; [exact Hoff | lia | lia].
Qed.

End InjectSession.

(** ** The API login, case by case *)

Section ApiLogin.

Context {env : Env}.
Variable profile : UserProfile.
Hypothesis not_interrupted : no_interrupt env.

Lemma tame_perform ev : tame (perform ev).
Proof.
  intros w. unfold perform. destruct (raises w ev) as [e|] eqn:He; cbn; [|exact I].
  exact (not_interrupted w ev e He).
Qed.
Hint Resolve tame_perform : tame.

Lemma tame_uniform lo hi : tame (uniform lo hi).
Proof. unfold uniform. apply tame_ask. Qed.
Hint Resolve tame_uniform : tame.

Lemma tame_inject_session data cookies : tame (NikeAPILogin._inject_session data cookies).
Proof. unfold NikeAPILogin._inject_session. repeat tame_step. Qed.
Hint Resolve tame_inject_session : tame.

Lemma tame_on_response response : tame (NikeAPILogin.on_response response).
Proof. unfold NikeAPILogin.on_response. repeat tame_step. Qed.
Hint Resolve tame_on_response : tame.

Lemma tame_build_request : tame (NikeAPILogin.build_request profile).
Proof. unfold NikeAPILogin.build_request. repeat tame_step. Qed.
Hint Resolve tame_build_request : tame.

Lemma tame_login_attempt : tame (NikeAPILogin.login_attempt profile).
Proof. unfold NikeAPILogin.login_attempt. repeat tame_step. Qed.

(** [login] always returns a boolean. *)
Lemma api_login_returns w :
  exists b w', NikeAPILogin.login profile w = (Ret b, w').
Proof.
  unfold NikeAPILogin.login. unfold bind at 1, log. unfold try_except.
  pose proof (tame_login_attempt (record (ELog INFO "Attempting Nike API login") w)) as H.
  destruct (NikeAPILogin.login_attempt profile _) as [[b|e|] w1]; cbn in H.
  - now exists b, w1.
  - rewrite H. eexists _, _. reflexivity.
  - contradiction.
Qed.

(** Once the request is built, [login] is the POST and what follows it,
    under the outer [try]. *)
Lemma login_with_request w body headers w_p :
  NikeAPILogin.build_request profile (api_login_start w) = (Ret (body, headers), w_p) ->
  NikeAPILogin.login profile w =
  try_except
    (perform (login_post body headers) ;;
     response <- ask http_response ;;
     NikeAPILogin.on_response response)
    is_Exception
    (fun exc => log WARNING ("API login failed: " ++ exn_msg exc) ;; ret false) w_p.
Proof.
  intros Hreq. unfold NikeAPILogin.login. unfold bind at 1, log. fold (api_login_start w).
  unfold try_except, NikeAPILogin.login_attempt.
  now rewrite (bind_run _ _ _ _ _ Hreq).
Qed.

(** The request could not be built: the user-agent script failed. *)
Lemma api_login_no_request w e w_p :
  NikeAPILogin.build_request profile (api_login_start w) = (Raise e, w_p) ->
  NikeAPILogin.login profile w =
  (Ret false, record (ELog WARNING ("API login failed: " ++ exn_msg e)) w_p).
Proof.
  intros Hreq. unfold NikeAPILogin.login. unfold bind at 1, log. fold (api_login_start w).
  pose proof (tame_build_request (api_login_start w)) as Htame.
  rewrite Hreq in Htame. cbn [fst] in Htame.
  rewrite (try_except_caught _ _ _ _ e w_p); [reflexivity | | exact Htame].
  unfold NikeAPILogin.login_attempt. now apply bind_raise.
Qed.

(** A transport error: the POST itself fails. *)
Lemma api_login_post_fails w body headers w_p e :
  NikeAPILogin.build_request profile (api_login_start w) = (Ret (body, headers), w_p) ->
  raises w_p (login_post body headers) = Some e ->
  NikeAPILogin.login profile w =
  (Ret false,
   record (ELog WARNING ("API login failed: " ++ exn_msg e))
          (record (login_post body headers) w_p)).
Proof.
  intros Hreq Hr. rewrite (login_with_request _ _ _ _ Hreq).
  rewrite (try_except_caught _ _ _ _ e (record (login_post body headers) w_p));
    [reflexivity | | exact (not_interrupted _ _ _ Hr)].
  apply bind_raise. unfold perform. now rewrite Hr.
Qed.

(** An answer with a status other than 200. *)
Lemma api_login_refused w body headers w_p :
  NikeAPILogin.build_request profile (api_login_start w) = (Ret (body, headers), w_p) ->
  raises w_p (login_post body headers) = None ->
  status_code (answer_to body headers w_p) <> 200 ->
  NikeAPILogin.login profile w =
  (Ret false,
   record (ELog WARNING ("API login returned " ++
                         PyStr.of_Z (status_code (answer_to body headers w_p)) ++ ": " ++
                         substring 0 200 (resp_text (answer_to body headers w_p))))
          (record (login_post body headers) w_p)).
Proof.
  intros Hreq Hr Hstatus. rewrite (login_with_request _ _ _ _ Hreq).
  apply try_except_ret. unfold bind at 1, perform. rewrite Hr.
  unfold bind at 1, ask. fold (answer_to body headers w_p).
  unfold NikeAPILogin.on_response.
  destruct (Z.eqb_spec (status_code (answer_to body headers w_p)) 200) as [H|H];
    [contradiction | reflexivity].
Qed.

(** [login] returns [True] only along one path: the request is built, the
    POST goes through and is answered with status 200 and a JSON body, and
    the injection of the session runs to its end. *)
Lemma api_login_granted w w' :
  NikeAPILogin.login profile w = (Ret true, w') ->
  exists body headers w_p data evs start d,
    NikeAPILogin.build_request profile (api_login_start w) = (Ret (body, headers), w_p) /\
    raises w_p (login_post body headers) = None /\
    status_code (answer_to body headers w_p) = 200 /\
    resp_json (answer_to body headers w_p) = Some data /\
    trace w' =
      (ESleep start d :: ERefresh :: evs ++
       ELog INFO "API login successful! Injecting session" ::
       login_post body headers :: trace w_p)%list /\
    cookies_offered evs =
      (map injected (resp_cookies (answer_to body headers w_p)) ++ token_cookie data)%list /\
    2000000 <= d <= 3000000.
Proof.
  unfold NikeAPILogin.login. unfold bind at 1, log. fold (api_login_start w).
  unfold try_except.
  destruct (NikeAPILogin.login_attempt profile _) as [[b|e|] w1] eqn:Hrun.
  - intros [= -> ->]. unfold NikeAPILogin.login_attempt in Hrun.
    apply bind_ret_inv in Hrun. destruct Hrun as ([body headers] & w_p & Hreq & Hrun).
    cbn [fst snd] in Hrun. fold (login_post body headers) in Hrun.
    apply bind_ret_inv in Hrun. destruct Hrun as ([] & we & Hpost & Hrun).
    apply bind_ret_inv in Hrun. destruct Hrun as (response & wf & Hask & Hrun).
    unfold ask in Hask. injection Hask as <- <-.
    unfold perform in Hpost.
    destruct (raises w_p (login_post body headers)) eqn:Hr; [discriminate|].
    injection Hpost as <-. fold (answer_to body headers w_p) in Hrun.
    unfold NikeAPILogin.on_response in Hrun.
    destruct (Z.eqb_spec (status_code (answer_to body headers w_p)) 200) as [H200|H200].
    + destruct (resp_json (answer_to body headers w_p)) as [data|] eqn:Hjson;
        [|discriminate].
      apply bind_ret_inv in Hrun. destruct Hrun as (u & wl & Hlog & Hrun).
      unfold log in Hlog. injection Hlog as _ <-.
      apply bind_ret_inv in Hrun. destruct Hrun as ([] & wi & Hinject & Hret).
      unfold ret in Hret. injection Hret as <-.
      apply (inject_session_ret not_interrupted) in Hinject.
      destruct Hinject as (evs & start & d & Htrace & Hoff & Hd).
      exists body, headers, w_p, data, evs, start, d.
      cbn [trace record] in Htrace. repeat split; try assumption; lia.
    + apply bind_ret_inv in Hrun. destruct Hrun as (_ & wl & _ & Hrun). discriminate Hrun.
  - destruct (is_Exception e); [cbn; discriminate | discriminate].
  - discriminate.
Qed.

End ApiLogin.

(** C7.  Provided no command is interrupted from the keyboard, for every
    browser, every answer of the authentication endpoint and every
    transport outcome, [login] returns a boolean and propagates no
    exception.  It returns [True] only when the POST built from the
    profile went through and was answered with status 200 and a JSON
    body, and then the session has been injected: after the POST the run
    logged the success, offered the browser every cookie of the answer
    and the access-token cookie, refreshed the page and paused 2 s to 3 s.
    It returns [False], with one warning logged after the POST, when the
    POST fails (a transport error) and when the answer has another status
    than 200; it returns [False] as well when the request cannot be
    built. *)
Theorem api_login_boolean :
  forall (env : Env) (profile : UserProfile) (w : World),
  no_interrupt env ->
  exists b w',
    NikeAPILogin.login profile w = (Ret b, w') /\
    (b = true ->
     exists body headers w_p data evs start d,
       NikeAPILogin.build_request profile (api_login_start w) = (Ret (body, headers), w_p) /\
       raises w_p (login_post body headers) = None /\
       status_code (answer_to body headers w_p) = 200 /\
       resp_json (answer_to body headers w_p) = Some data /\
       trace w' =
         (ESleep start d :: ERefresh :: evs ++
          ELog INFO "API login successful! Injecting session" ::
          login_post body headers :: trace w_p)%list /\
       cookies_offered evs =
         (map injected (resp_cookies (answer_to body headers w_p)) ++ token_cookie data)%list /\
       2000000 <= d <= 3000000) /\
    (forall body headers w_p e,
       NikeAPILogin.build_request profile (api_login_start w) = (Ret (body, headers), w_p) ->
       raises w_p (login_post body headers) = Some e ->
       b = false /\
       w' = record (ELog WARNING ("API login failed: " ++ exn_msg e))
                   (record (login_post body headers) w_p)) /\
    (forall body headers w_p,
       NikeAPILogin.build_request profile (api_login_start w) = (Ret (body, headers), w_p) ->
       raises w_p (login_post body headers) = None ->
       status_code (answer_to body headers w_p) <> 200 ->
       b = false /\
       w' = record (ELog WARNING
                      ("API login returned " ++
                       PyStr.of_Z (status_code (answer_to body headers w_p)) ++ ": " ++
                       substring 0 200 (resp_text (answer_to body headers w_p))))
                   (record (login_post body headers) w_p)) /\
    (forall e w_p,
       NikeAPILogin.build_request profile (api_login_start w) = (Raise e, w_p) ->
       b = false /\
       w' = record (ELog WARNING ("API login failed: " ++ exn_msg e)) w_p).
Proof.
  intros env profile w Hni.
  destruct (api_login_returns profile Hni w) as (b & w' & Hrun).
  exists b, w'. split; [exact Hrun|]. refine (conj _ (conj _ (conj _ _))).
  - intros ->. now apply api_login_granted.
  - intros body headers w_p e Hreq Hr.
    rewrite (api_login_post_fails profile Hni w body headers w_p e Hreq Hr) in Hrun.
    injection Hrun as <- <-. split; reflexivity.
  - intros body headers w_p Hreq Hr Hstatus.
    rewrite (api_login_refused profile w body headers w_p Hreq Hr Hstatus) in Hrun.
    injection Hrun as <- <-. split; reflexivity.
  - intros e w_p Hreq.
    rewrite (api_login_no_request profile Hni w e w_p Hreq) in Hrun.
    injection Hrun as <- <-. split; reflexivity.
Qed.

(** C7 on concrete runs: a 403 answer and an unreachable endpoint both
    give [False]; a 200 answer gives [True], after the cookie of the
    answer and the token cookie were handed to the browser. *)
Lemma api_login_boolean_run :
  (exists w', @NikeAPILogin.login (api_env forbidden true) a_profile w0 = (Ret false, w')) /\
  (exists w', @NikeAPILogin.login (api_env granted false) a_profile w0 = (Ret false, w')) /\
  (exists w' evs,
     @NikeAPILogin.login (api_env granted true) a_profile w0 = (Ret true, w') /\
     cookies_offered evs =
       [mkCookie "sid" "S1" ".nike.com" "/"; mkCookie "access_token" "tok" ".nike.com" "/"] /\
     exists start d rest, trace w' = (ESleep start d :: ERefresh :: evs ++ rest)%list).
Proof.
  assert (Hni : forall response reachable, no_interrupt (api_env response reachable)).
  { intros response reachable w ev e. cbn. destruct ev; try discriminate.
    destruct reachable; [discriminate|]. now intros [= <-]. }
  refine (conj _ (conj _ _)).
  - destruct (api_login_boolean (api_env forbidden true) a_profile w0 (Hni forbidden true))
      as (b & w' & Hrun & _ & _ & Hrefused & _).
    exists w'. edestruct Hrefused as [Hb _]; [lazy; reflexivity | reflexivity | cbn; discriminate |].
    rewrite Hb in Hrun. exact Hrun.
  - destruct (api_login_boolean (api_env granted false) a_profile w0 (Hni granted false))
      as (b & w' & Hrun & _ & Hfails & _).
    exists w'. edestruct Hfails as [Hb _]; [lazy; reflexivity | reflexivity |].
    rewrite Hb in Hrun. exact Hrun.
  - destruct (api_login_boolean (api_env granted true) a_profile w0 (Hni granted true))
      as (b & w' & Hrun & Htrue & _).
    assert (Hb : b = true).
    { assert (H : fst (@NikeAPILogin.login (api_env granted true) a_profile w0) = Ret true)
        by (vm_compute; reflexivity).
      rewrite Hrun in H. now injection H. }
    subst b.
    destruct (Htrue eq_refl)
      as (body & headers & w_p & data & evs & start & d & _ & _ & _ & Hjson & Htrace & Hoff & _).
    exists w', evs. split; [exact Hrun|]. split.
    + cbv in Hjson. injection Hjson as <-. exact Hoff.
    + now exists start, d, (ELog INFO "API login successful! Injecting session"
                            :: login_post body headers :: trace w_p).
Defined.

(** ** The end of a run *)

Section RunEnd.

Context {env : Env}.
Variable profile : UserProfile.
Variable config : BotConfig.
Hypothesis Hcleanup : cleanup_goes_through env.

Lemma validate_config_passes w :
  config_valid profile config = true ->
  _validate_config profile config w = (Ret tt, w).
Proof.
  unfold config_valid, _validate_config. intros H.
  apply andb_true_iff in H. destruct H as [H Hsize].
  apply andb_true_iff in H. destruct H as [H Hurl].
  apply andb_true_iff in H. destruct H as [Hemail Hpw].
  now rewrite Hemail, Hpw, Hurl, Hsize.
Qed.

Lemma run_stages_ends w : fst (run_stages profile config w) <> Diverge.
Proof. apply (keeps_run_stages profile config any_world); unfold any_world; auto. Qed.

Lemma start_catches_everything e :
  is_a KeyboardInterrupt e || is_Exception e = true.
Proof. unfold is_a, is_Exception. now destruct (exc_class_eqb _ _). Qed.

Lemma final_capture_run w :
  exists w1,
    _screenshot "final_state" w = (Ret tt, w1) /\
    (trace w1 = ELog INFO ("Screenshot -> " ++ final_path w)
                :: ESaveScreenshot (final_path w) :: trace w
     \/ trace w1 = ESaveScreenshot (final_path w) :: trace w).
Proof.
  destruct Hcleanup as (Hshot & _ & _).
  unfold _screenshot.
  change ("screenshots/" ++ "final_state" ++ "_" ++
          PyStr.of_Z (Z.quot (now w) 1000000) ++ ".png") with (final_path w).
  destruct (raises w (ESaveScreenshot (final_path w))) as [e|] eqn:He.
  - rewrite (try_except_caught _ _ _ w e (record (ESaveScreenshot (final_path w)) w)).
    + eexists. split; [reflexivity|]. right. reflexivity.
    + unfold bind at 1, ask. cbv zeta.
      change ("screenshots/" ++ "final_state" ++ "_" ++
              PyStr.of_Z (Z.quot (now w) 1000000) ++ ".png") with (final_path w).
      apply bind_raise. unfold perform. now rewrite He.
    + exact (Hshot _ _ _ He).
  - rewrite (try_except_ret _ _ _ w tt
               (record (ELog INFO ("Screenshot -> " ++ final_path w))
                       (record (ESaveScreenshot (final_path w)) w))).
    + eexists. split; [reflexivity|]. left. reflexivity.
    + unfold bind at 1, ask. cbv zeta.
      change ("screenshots/" ++ "final_state" ++ "_" ++
              PyStr.of_Z (Z.quot (now w) 1000000) ++ ".png") with (final_path w).
      unfold bind, perform. now rewrite He.
Qed.

Lemma cleanup_run w :
  exists w', cleanup w = (Ret tt, w') /\ ends_with_cleanup w (trace w') (trace w).
Proof.
  destruct (final_capture_run w) as (w1 & Hshot & Htrace).
  destruct Hcleanup as (_ & Hprompt & Hquit).
  unfold cleanup. rewrite (bind_run _ _ _ _ _ Hshot).
  unfold bind, perform. rewrite Hprompt, Hquit.
  eexists. split; [reflexivity|]. unfold ends_with_cleanup. cbn [trace record].
  destruct Htrace as [-> | ->]; [left | right]; reflexivity.
Qed.

Lemma try_stages_run w :
  exists o w1,
    run_stages profile config w = (o, w1) /\ o <> Diverge /\
    try_except (run_stages profile config)
               (fun exc => is_a KeyboardInterrupt exc || is_Exception exc)
               start_handler w =
    (Ret tt, mkWorld (now w1) (frame w1) (stage_report o ++ trace w1)%list (calls w1)).
Proof.
  pose proof (run_stages_ends w) as Hends. unfold try_except.
  destruct (run_stages profile config w) as [[[]|e|] w1]; cbn in Hends.
  - exists (Ret tt), w1. repeat split; [discriminate | now destruct w1].
  - exists (Raise e), w1. rewrite start_catches_everything.
    repeat split; [discriminate|]. unfold start_handler, stage_report.
    now destruct (is_a KeyboardInterrupt e).
  - now contradiction Hends.
Qed.

End RunEnd.

(** C3, as the code has it.  For every run that reaches the state machine
    (the configuration is valid and the browser starts), whether the
    stages succeed, one of them exhausts its retry budget or the user
    cancels: the stages end, [start] logs how, takes the final capture,
    shows the closing prompt and quits the browser, in this order, and then
    returns normally, so the process exits with status 0 in every case.
    This holds provided the final capture is not interrupted from the
    keyboard, the operator answers the prompt and the browser quits. *)
Theorem start_cleans_up_and_returns :
  forall (env : Env) (profile : UserProfile) (config : BotConfig) (w : World),
  cleanup_goes_through env ->
  config_valid profile config = true ->
  raises (record (ELog INFO "Nike SNKRS Bot (v2 Stealth) starting") w) ECreateDriver = None ->
  exists o w1 w',
    run_stages profile config (stages_start w) = (o, w1) /\
    o <> Diverge /\
    main profile config w = (Ret tt, w') /\
    exit_status (fst (main profile config w)) = Some 0 /\
    ends_with_cleanup
      (mkWorld (now w1) (frame w1) (stage_report o ++ trace w1)%list (calls w1))
      (trace w') (stage_report o ++ trace w1)%list.
Proof.
  intros env profile config w Hcleanup Hvalid Hdriver.
  destruct (try_stages_run profile config (stages_start w)) as (o & w1 & Hrun & Hends & Htry).
  destruct (cleanup_run Hcleanup
              (mkWorld (now w1) (frame w1) (stage_report o ++ trace w1)%list (calls w1)))
    as (w' & Hclean & Hshape).
  assert (Hstart : start profile config w = (Ret tt, w')).
  { unfold start. unfold bind at 1, log.
    rewrite (bind_run _ _ _ _ _ (validate_config_passes profile config _ Hvalid)).
    unfold bind at 1, perform. rewrite Hdriver.
    change (record ECreateDriver _) with (stages_start w).
    unfold try_finally. rewrite Htry, Hclean. reflexivity. }
  exists o, w1, w'. unfold main. rewrite Hstart.
  repeat split; assumption.
Qed.

(** C3 on a concrete run: on a blank page the login stage exhausts its
    budget of one attempt, and the run still ends with the cleanup and a
    normal return. *)
Lemma start_cleans_up_run :
  exists o w1 w',
    @run_stages blank_env a_profile (a_config "10" 1) (stages_start w0) = (o, w1) /\
    o <> Diverge /\
    @main blank_env a_profile (a_config "10" 1) w0 = (Ret tt, w') /\
    exit_status (fst (@main blank_env a_profile (a_config "10" 1) w0)) = Some 0 /\
    ends_with_cleanup
      (mkWorld (now w1) (frame w1) (stage_report o ++ trace w1)%list (calls w1))
      (trace w') (stage_report o ++ trace w1)%list.
Proof.
  apply (start_cleans_up_and_returns blank_env a_profile (a_config "10" 1) w0).
  - repeat split; intros; try reflexivity; discriminate.
  - reflexivity.
  - reflexivity.
Defined.

(** C3, the claim as it is worded fails in its second half: the login
    stage exhausts its retry budget, and the process still exits with
    status 0, as it does after a completed order. *)
Lemma start_failure_exits_zero :
  fst (@run_stages blank_env a_profile (a_config "10" 1) (stages_start w0)) =
    Raise (mkExn NoSuchElementException "Email field not found.") /\
  fst (@main blank_env a_profile (a_config "10" 1) w0) = Ret tt /\
  exit_status (fst (@main blank_env a_profile (a_config "10" 1) w0)) = Some 0.
Proof. repeat split; vm_compute; reflexivity. Qed.

(** A cancelled run: the interrupt passes through [_retry] untouched, is
    reported by [start], and the cleanup follows. *)
Lemma start_after_cancellation :
  @main cancelled_env a_profile (a_config "10" 5) w0 =
  (Ret tt,
   mkWorld 0 None
           [EQuit; EInput "Press Enter to close the browser";
            ELog INFO "Screenshot -> screenshots/final_state_0.png";
            ESaveScreenshot "screenshots/final_state_0.png";
            ELog WARNING "Bot stopped by user (Ctrl+C).";
            EGet NIKE_LOGIN_URL;
            ELog INFO "Navigating to accounts.nike.com";
            ELog INFO "Logging in via accounts.nike.com";
            ECreateDriver;
            ELog INFO "Nike SNKRS Bot (v2 Stealth) starting"]
           0).
Proof. vm_compute. reflexivity. Qed.

(** ** The 2FA poll loop *)

Section TwoFactor.

Context {env : Env}.
Variables max_wait start_time : Z.

Lemma next_poll_run w :
  (twofa_progress max_wait start_time ;; sleep 2000000) w =
  (Ret tt, next_poll max_wait start_time w).
Proof.
  unfold next_poll, twofa_progress, bind, ask. cbv zeta.
  destruct (_ && _); reflexivity.
Qed.

Lemma next_poll_now w : now (next_poll max_wait start_time w) = now w + 2000000.
Proof.
  unfold next_poll, twofa_progress, bind, ask. cbv zeta.
  destruct (_ && _); reflexivity.
Qed.

Lemma poll_world_now n : forall w,
  now (poll_world max_wait start_time n w) = now w + 2000000 * Z.of_nat n.
Proof.
  induction n as [|n IH]; intros w; cbn [poll_world]; [lia|].
  rewrite IH, next_poll_now. lia.
Qed.

Lemma twofa_loop_step fuel w :
  now w - start_time < max_wait ->
  twofa_loop (S fuel) max_wait start_time w =
  if on_login_page w
  then twofa_loop fuel max_wait start_time (next_poll max_wait start_time w)
  else (Ret (Some tt), record (ELog INFO "2FA complete - logged in!") w).
Proof.
  intros Hlt. cbn [twofa_loop]. unfold bind at 1, ask.
  destruct (Z.ltb_spec (now w - start_time) max_wait) as [_|]; [|lia].
  unfold bind at 1, _is_on_login_page, ask. fold (on_login_page w).
  destruct (on_login_page w); cbn [negb]; [|reflexivity].
  change (twofa_progress max_wait start_time ;; sleep 2000000 ;;
          twofa_loop fuel max_wait start_time)
    with (bind (twofa_progress max_wait start_time)
               (fun _ => bind (sleep 2000000)
                              (fun _ => twofa_loop fuel max_wait start_time))).
  pose proof (next_poll_run w) as Hn. unfold bind in *.
  destruct (twofa_progress max_wait start_time w) as [[[]|e|] w1]; cbn in *;
    try discriminate.
  now injection Hn as <-.
Qed.

Lemma twofa_loop_stop fuel w :
  max_wait <= now w - start_time ->
  twofa_loop (S fuel) max_wait start_time w = (Ret None, w).
Proof.
  intros Hge. cbn [twofa_loop]. unfold bind at 1, ask.
  destruct (Z.ltb_spec (now w - start_time) max_wait); [lia | reflexivity].
Qed.

(** The browser leaves the login pages at poll [k], before the ceiling. *)
Lemma twofa_loop_leaves (k : nat) : forall fuel w,
  (k < fuel)%nat ->
  now w + 2000000 * Z.of_nat k - start_time < max_wait ->
  (forall j, (j < k)%nat -> on_login_page (poll_world max_wait start_time j w) = true) ->
  on_login_page (poll_world max_wait start_time k w) = false ->
  twofa_loop fuel max_wait start_time w =
  (Ret (Some tt),
   record (ELog INFO "2FA complete - logged in!") (poll_world max_wait start_time k w)).
Proof.
  induction k as [|k IH]; intros fuel w Hfuel Hbefore Hon Hoff;
    (destruct fuel as [|fuel]; [lia|]); rewrite twofa_loop_step by lia.
  - cbn [poll_world] in Hoff. now rewrite Hoff.
  - assert (H0 : on_login_page w = true) by (apply (Hon 0%nat); lia).
    rewrite H0. apply IH.
    + lia.
    + rewrite next_poll_now. lia.
    + intros j Hj. apply (Hon (S j)). lia.
    + exact Hoff.
Qed.

(** The browser stays on the login pages until the ceiling, reached at
    poll [n]. *)
Lemma twofa_loop_expires (n : nat) : forall fuel w,
  (n < fuel)%nat ->
  now w + 2000000 * Z.of_nat n - start_time >= max_wait ->
  (n = 0%nat \/ now w + 2000000 * (Z.of_nat n - 1) - start_time < max_wait) ->
  (forall j, (j < n)%nat -> on_login_page (poll_world max_wait start_time j w) = true) ->
  twofa_loop fuel max_wait start_time w = (Ret None, poll_world max_wait start_time n w).
Proof.
  induction n as [|n IH]; intros fuel w Hfuel Hat Hbefore Hon;
    (destruct fuel as [|fuel]; [lia|]).
  - cbn [poll_world]. apply twofa_loop_stop. lia.
  - cbn [poll_world]. rewrite twofa_loop_step by lia.
    assert (H0 : on_login_page w = true) by (apply (Hon 0%nat); lia).
    rewrite H0. apply IH.
    + lia.
    + rewrite next_poll_now. lia.
    + rewrite next_poll_now. destruct n; [now left | right; lia].
    + intros j Hj. apply (Hon (S j)). lia.
Qed.

End TwoFactor.

(** C5.  When a verification-code input is detected the login ends with
    the 2FA wait.  Its polls are 2 s apart, the first one when the wait
    starts.  If the browser is on a login page at the polls before poll
    [k] and off them at poll [k], with [k] before the ceiling of 300 s
    (150 polls), the wait returns at poll [k], [2 k] seconds after it
    started.  If the browser is on a login page at every one of the 150
    polls, the wait raises its timeout error, exactly 300 s after it
    started. *)
Theorem twofa_wait_returns_or_expires :
  forall (env : Env) (profile : UserProfile) (config : BotConfig),
  (forall w w1 w2 w3 w4 el,
     login_enter_email profile config w = (Ret tt, w1) ->
     login_use_password w1 = (Ret tt, w2) ->
     login_enter_password profile config w2 = (Ret tt, w3) ->
     login_detect_code_input w3 = (Ret (Some el), w4) ->
     _browser_login profile config w = login_wait_2fa w4) /\
  (forall w k,
     (k < 150)%nat ->
     (forall j, (j < k)%nat ->
        on_login_page (poll_world 300000000 (now w) j (twofa_start w)) = true) ->
     on_login_page (poll_world 300000000 (now w) k (twofa_start w)) = false ->
     exists w',
       login_wait_2fa w = (Ret tt, w') /\
       now w' = now w + 2000000 * Z.of_nat k /\
       now w' - now w < 300000000) /\
  (forall w,
     (forall j, (j < 150)%nat ->
        on_login_page (poll_world 300000000 (now w) j (twofa_start w)) = true) ->
     exists w',
       login_wait_2fa w =
       (Raise (mkExn RuntimeError
                 "Timed out waiting for 2FA code entry (5 min). Please try again."), w') /\
       now w' = now w + 300000000).
Proof.
  intros env profile config. refine (conj _ (conj _ _)).
  - intros w w1 w2 w3 w4 el H1 H2 H3 H4. unfold _browser_login.
    rewrite (bind_run _ _ _ _ _ H1), (bind_run _ _ _ _ _ H2), (bind_run _ _ _ _ _ H3).
    now rewrite (bind_run _ _ _ _ _ H4).
  - intros w k Hk Hon Hoff. unfold login_wait_2fa.
    unfold bind at 1, log. fold (twofa_start w). unfold bind at 1, ask.
    change (now (twofa_start w)) with (now w).
    rewrite (bind_run _ _ _ _ _
               (twofa_loop_leaves 300000000 (now w) k 151 (twofa_start w)
                  ltac:(lia) ltac:(cbn [now twofa_start record]; lia) Hon Hoff)).
    eexists. split; [reflexivity|].
    cbn [now record]. rewrite poll_world_now. cbn [now twofa_start record]. lia.
  - intros w Hon. unfold login_wait_2fa.
    unfold bind at 1, log. fold (twofa_start w). unfold bind at 1, ask.
    change (now (twofa_start w)) with (now w).
    rewrite (bind_run _ _ _ _ _
               (twofa_loop_expires 300000000 (now w) 150 151 (twofa_start w)
                  ltac:(lia) ltac:(cbn [now twofa_start record]; lia)
                  ltac:(right; cbn [now twofa_start record]; lia) Hon)).
    eexists. split; [reflexivity|].
    rewrite poll_world_now. cbn [now twofa_start record]. lia.
Qed.

(** C5 on concrete runs: the code is entered after 5 s and the wait
    returns at the poll of the sixth second; the code is never entered and
    the wait raises at 300 s. *)
Lemma twofa_wait_run :
  (exists w', @login_wait_2fa (code_entered_at 5000000) w0 = (Ret tt, w') /\
              now w' = 6000000) /\
  (exists w', @login_wait_2fa stuck_on_login w0 =
              (Raise (mkExn RuntimeError
                        "Timed out waiting for 2FA code entry (5 min). Please try again."),
               w') /\
              now w' = 300000000).
Proof.
  split.
  - destruct (twofa_wait_returns_or_expires (code_entered_at 5000000) a_profile
                (a_config "10" 5)) as (_ & H & _).
    destruct (H w0 3%nat) as (w' & H1 & H2 & _).
    + lia.
    + intros j Hj. destruct j as [|[|[|j]]]; [reflexivity | reflexivity | reflexivity | lia].
    + reflexivity.
    + exists w'. split; [exact H1 | exact H2].
  - destruct (twofa_wait_returns_or_expires stuck_on_login a_profile
                (a_config "10" 5)) as (_ & _ & H).
    destruct (H w0) as (w' & H1 & H2).
    + intros j Hj. reflexivity.
    + exists w'. split; [exact H1 | exact H2].
Defined.

(** ** The wait for the drop *)

Lemma added_trans w1 w2 w3 evs1 evs2 :
  added w1 w2 evs1 -> added w2 w3 evs2 -> added w1 w3 (evs2 ++ evs1).
Proof. unfold added. intros H1 H2. now rewrite H2, H1, app_assoc. Qed.

Section DropWait.

Context {env : Env}.
Variable config : BotConfig.
Hypothesis Hkeep : keep_alive_not_interrupted env.

Lemma keep_session_alive_run w :
  _keep_session_alive w = (Ret tt, record (EScript "void(0);" None) w).
Proof.
  unfold _keep_session_alive, try_except, perform.
  destruct (raises w _) as [e|] eqn:He; [|reflexivity].
  now rewrite (Hkeep _ _ He).
Qed.

Lemma drop_loop_run target fuel : forall w,
  (1 <= fuel)%nat ->
  target - now w <= 50000 * (Z.of_nat fuel - 1) ->
  exists w' evs,
    drop_loop fuel target w = (Ret tt, w') /\
    added w w' evs /\
    Forall (sleep_fits target) evs /\
    target <= now w' /\
    (now w < target -> now w' < target + 50000) /\
    (target <= now w -> w' = w).
Proof.
  induction fuel as [|f IH]; intros w Hpos Hfuel; [lia|].
  cbn [drop_loop]. unfold bind at 1, ask. cbv zeta.
  destruct (Z.leb_spec (target - now w) 0) as [Hle|Hgt].
  { exists w, []. repeat split; try lia; [constructor]. }
  assert (Hstep : forall (step : M unit) w_mid iter_evs,
             step w = (Ret tt, w_mid) ->
             added w w_mid iter_evs ->
             Forall (sleep_fits target) iter_evs ->
             now w + 50000 <= now w_mid < target + 50000 ->
             exists w' evs,
               bind step (fun _ => drop_loop f target) w = (Ret tt, w') /\
               added w w' evs /\
               Forall (sleep_fits target) evs /\
               target <= now w' /\
               (now w < target -> now w' < target + 50000) /\
               (target <= now w -> w' = w)).
  { intros step w_mid iter_evs Hrun Hadd Hfits Hnow.
    destruct (IH w_mid) as (w' & evs & H1 & H2 & H3 & H4 & H5 & H6); [lia | lia |].
    exists w', (evs ++ iter_evs)%list. rewrite (bind_run _ _ _ _ _ Hrun).
    split; [exact H1|]. split; [eapply added_trans; eassumption|].
    split; [apply Forall_app; now split|]. split; [exact H4|]. split; [|lia].
    intros _. destruct (Z.lt_ge_cases (now w_mid) target) as [Hlt|Hge].
    - now apply H5.
    - rewrite (H6 Hge). lia. }
  destruct (Z.ltb_spec 120000000 (target - now w)) as [H120|H120];
    [|destruct (Z.ltb_spec 5000000 (target - now w)) as [H5|H5]].
  - eapply Hstep.
    + rewrite (bind_run _ _ _ _ _ eq_refl : (log INFO _ ;; _) w = _).
      rewrite (bind_run _ _ _ _ _ (keep_session_alive_run _)). reflexivity.
    + unfold added. cbn [trace record]. repeat apply cons_app_eq. apply nil_app_eq.
    + repeat constructor; cbn [now record]; lia.
    + cbn [now record]. lia.
  - eapply Hstep.
    + reflexivity.
    + unfold added. cbn [trace]. repeat apply cons_app_eq. apply nil_app_eq.
    + repeat constructor; lia.
    + cbn [now]. lia.
  - eapply Hstep.
    + reflexivity.
    + unfold added. cbn [trace]. repeat apply cons_app_eq. apply nil_app_eq.
    + repeat constructor; lia.
    + cbn [now]. lia.
Qed.

End DropWait.

(** C4, as the code has it, for a target written without UTC offset (a
    naive [datetime], the kind [datetime.now()] is).  With no target
    configured, or a target already reached, the wait stage returns at
    once: the clock has not moved and the only trace is a log line.  With
    the target ahead (and the keep-alive script not interrupted from the
    keyboard) the stage returns, not before the target and less than
    0.05 s after it; every sleep starts before the target; a sleep begun
    with more than 5 s to go ends before the target, and a sleep begun
    with 5 s or less to go is a tick of 0.05 s, the only kind that can run
    past the target. *)
Theorem wait_for_drop_timing :
  forall (env : Env) (config : BotConfig) (w : World),
  (drop_time config = None \/ drop_time config = Some EmptyString ->
   wait_for_drop config w =
   (Ret tt, record (ELog INFO "No drop time set - proceeding now.") w)) /\
  (forall s target,
     drop_time config = Some s -> truthy s = true ->
     fromisoformat s = Some (mkDatetime target None) -> target <= now w ->
     wait_for_drop config w =
     (Ret tt, record (ELog INFO "Drop time already passed - proceeding now.") w)) /\
  (forall s target,
     keep_alive_not_interrupted env ->
     drop_time config = Some s -> truthy s = true ->
     fromisoformat s = Some (mkDatetime target None) -> now w < target ->
     exists w' evs,
       wait_for_drop config w = (Ret tt, w') /\
       added w w' evs /\
       Forall (sleep_fits target) evs /\
       target <= now w' < target + 50000).
Proof.
  intros env config w. refine (conj _ (conj _ _)).
  - unfold wait_for_drop. intros [-> | ->]; reflexivity.
  - intros s target Hs Ht Hparse Hpast. unfold wait_for_drop.
    rewrite Hs, Ht, Hparse. cbn [negb tzinfo micros]. unfold bind, ask.
    destruct (Z.leb_spec target (now w)); [reflexivity | lia].
  - intros s target Hkeep Hs Ht Hparse Hahead. unfold wait_for_drop.
    rewrite Hs, Ht, Hparse. cbn [negb tzinfo micros]. unfold bind at 1, ask.
    destruct (Z.leb_spec target (now w)); [lia|]. cbv zeta.
    unfold bind at 1, log. fold (drop_wait_start target w).
    destruct (drop_loop_run Hkeep target (drop_fuel (target - now w)) (drop_wait_start target w))
      as (w2 & evs & Hrun & Hadd & Hfits & Hreach & Hover & _).
    + unfold drop_fuel. lia.
    + unfold drop_fuel. cbn [now drop_wait_start record].
      pose proof (Z.mul_succ_div_gt (target - now w) 50000). lia.
    + rewrite (bind_run _ _ _ _ _ Hrun).
      exists (record (ELog INFO "DROP TIME - GO!") w2),
             (ELog INFO "DROP TIME - GO!"
              :: evs ++ [ELog INFO ("Waiting for drop (" ++
                           PyStr.of_Z (Z.quot (target - now w) 1000000) ++ "s away)")])%list.
      split; [reflexivity|]. split.
      * unfold added in *. cbn [trace record]. rewrite Hadd.
        cbn [trace drop_wait_start record]. rewrite <- app_comm_cons. f_equal.
        now rewrite <- app_assoc.
      * split.
        -- constructor; [exact I|]. apply Forall_app. split; [exact Hfits|].
           constructor; [exact I | constructor].
        -- cbn [now record]. cbn [now drop_wait_start record] in Hover. lia.
Qed.

(** C4 on a concrete run: a release 150 s ahead. *)
Lemma wait_for_drop_timing_run :
  exists w' evs,
    @wait_for_drop (drop_env 150000000) drop_config w0 = (Ret tt, w') /\
    added w0 w' evs /\
    Forall (sleep_fits 150000000) evs /\
    150000000 <= now w' < 150000000 + 50000.
Proof.
  destruct (wait_for_drop_timing (drop_env 150000000) drop_config w0) as (_ & _ & H).
  apply (H "2026-02-05T10:00:00" 150000000).
  - intros w e. discriminate.
  - reflexivity.
  - reflexivity.
  - reflexivity.
  - reflexivity.
Defined.

(** C4, the claim as it is worded fails, in two ways.  With the release
    0.01 s ahead the stage sleeps its tick of 0.05 s, which ends 0.04 s
    after the target: it does sleep past the target.  And with a target
    that is already in the past but written with a UTC offset, the stage
    does not return: the comparison with the naive current time raises
    [TypeError]. *)
Lemma wait_for_drop_sleeps_past_target :
  (@wait_for_drop (drop_env 10000) drop_config w0 =
   (Ret tt,
    mkWorld 50000 None
            [ELog INFO "DROP TIME - GO!"; ESleep 0 50000;
             ELog INFO "Waiting for drop (0s away)"]
            0) /\
   10000 < 0 + 50000) /\
  (@fromisoformat (aware_drop_env (-60000000)) "2026-02-05T10:00:00+00:00" =
     Some (mkDatetime (-60000000) (Some 0)) /\
   -60000000 <= now w0 /\
   @wait_for_drop (aware_drop_env (-60000000)) aware_drop_config w0 =
   (Raise (mkExn TypeError "can't compare offset-naive and offset-aware datetimes"), w0)).
Proof.
  split; [split; [vm_compute; reflexivity | lia]|].
  split; [reflexivity|]. split; [cbn; lia | vm_compute; reflexivity].
Qed.

(** ** Failures before the stages *)

Lemma truthy_false (s : string) : truthy s = false -> s = EmptyString.
Proof. unfold truthy. intros H. apply String.eqb_eq. now destruct (String.eqb s ""). Qed.

Lemma truthy_true (s : string) : truthy s = true -> s <> EmptyString.
Proof. unfold truthy. intros H ->. discriminate. Qed.

(** X1.  A configuration that [_validate_config] rejects stops [start]
    before the browser is created: [start] raises [ValueError], and the
    starting log line is the only thing it has done (no driver, no final
    capture, no prompt, no quit).  The message names the first missing
    item, in the order credentials, shoe URL, shoe size. *)
Theorem start_rejects_invalid_config :
  forall (env : Env) (profile : UserProfile) (config : BotConfig) (w : World),
  config_valid profile config = false ->
  exists msg,
    start profile config w =
    (Raise (mkExn ValueError msg),
     record (ELog INFO "Nike SNKRS Bot (v2 Stealth) starting") w) /\
    (email profile = EmptyString \/ password profile = EmptyString ->
     msg = "Email and password are required.") /\
    (email profile <> EmptyString -> password profile <> EmptyString ->
     shoe_url config = EmptyString -> msg = "Shoe URL is required.") /\
    (email profile <> EmptyString -> password profile <> EmptyString ->
     shoe_url config <> EmptyString ->
     shoe_size config = EmptyString /\ msg = "Shoe size is required.").
Proof.
  intros env profile config w Hbad. unfold config_valid in Hbad.
  unfold start. unfold bind at 1, log. unfold _validate_config.
  destruct (truthy (email profile)) eqn:He; cbn [negb orb andb] in *.
  - destruct (truthy (password profile)) eqn:Hp; cbn [negb orb andb] in *.
    + destruct (truthy (shoe_url config)) eqn:Hu; cbn [negb orb andb] in *.
      * rewrite Hbad. cbn [negb]. eexists. split; [reflexivity|].
        apply truthy_true in He, Hp, Hu. apply truthy_false in Hbad.
        split; [intros [H|H]; contradiction|]. split; [intros; contradiction|].
        intros _ _ _. split; [exact Hbad | reflexivity].
      * eexists. split; [reflexivity|].
        apply truthy_true in He, Hp. apply truthy_false in Hu.
        split; [intros [H|H]; contradiction|]. split; [reflexivity|].
        intros _ _ H. contradiction.
    + eexists. split; [reflexivity|]. apply truthy_false in Hp.
      split; [reflexivity|]. split; intros _ H; contradiction.
  - eexists. split; [reflexivity|]. apply truthy_false in He.
    split; [reflexivity|]. split; intros H; contradiction.
Qed.

(** X1 on a concrete run: a profile with no password. *)
Lemma start_rejects_invalid_config_run :
  exists msg,
    @start blank_env (mkProfile "runner@example.com" "" "" "" "" "" "" "" "" "" "" "" "" "" "" "")
           (a_config "10" 5) w0 =
    (Raise (mkExn ValueError msg),
     record (ELog INFO "Nike SNKRS Bot (v2 Stealth) starting") w0) /\
    msg = "Email and password are required.".
Proof.
  destruct (start_rejects_invalid_config blank_env
              (mkProfile "runner@example.com" "" "" "" "" "" "" "" "" "" "" "" "" "" "" "")
              (a_config "10" 5) w0) as (msg & Hrun & Hmsg & _).
  - reflexivity.
  - exists msg. split; [exact Hrun | apply Hmsg; right; reflexivity].
Defined.

(** X2.  When the browser cannot be created, the exception leaves
    [start] as it is: the [try] of [start] has not been entered, so nothing
    is logged about it and no final capture, prompt or quit follows. *)
Theorem start_driver_failure_is_not_cleaned_up :
  forall (env : Env) (profile : UserProfile) (config : BotConfig) (w : World) (e : exn),
  config_valid profile config = true ->
  raises (record (ELog INFO "Nike SNKRS Bot (v2 Stealth) starting") w) ECreateDriver = Some e ->
  start profile config w = (Raise e, stages_start w).
Proof.
  intros env profile config w e Hvalid Hdriver. unfold start.
  unfold bind at 1, log.
  rewrite (bind_run _ _ _ _ _ (validate_config_passes profile config _ Hvalid)).
  unfold bind, perform. now rewrite Hdriver.
Qed.

(** X2 on a concrete run: the driver cannot connect to the browser. *)
Lemma start_driver_failure_run :
  @start no_browser_env a_profile (a_config "10" 5) w0 =
  (Raise (mkExn OtherException "cannot connect to chrome"), stages_start w0).
Proof.
  apply (start_driver_failure_is_not_cleaned_up no_browser_env a_profile (a_config "10" 5) w0);
    reflexivity.
Defined.

(** ** More on the retry controller *)

Lemma uniform_run {env : Env} lo hi w :
  uniform lo hi w = (Ret (Z.max lo (Z.min hi (random_draw w lo hi))), w).
Proof. reflexivity. Qed.

Lemma uniform_within {env : Env} lo hi w :
  lo <= hi -> lo <= Z.max lo (Z.min hi (random_draw w lo hi)) <= hi.
Proof. lia. Qed.

(** The diagnostic capture, whatever the driver answers. *)
Lemma screenshot_run {env : Env} name w :
  _screenshot name w =
  let path := "screenshots/" ++ name ++ "_" ++ PyStr.of_Z (Z.quot (now w) 1000000) ++ ".png" in
  match raises w (ESaveScreenshot path) with
  | None => (Ret tt, record (ELog INFO ("Screenshot -> " ++ path)) (record (ESaveScreenshot path) w))
  | Some e => (if is_Exception e then Ret tt else Raise e, record (ESaveScreenshot path) w)
  end.
Proof.
  unfold _screenshot, try_except, bind, ask, perform, log. cbv zeta.
  destruct (raises w _) as [e|]; [destruct (is_Exception e)|]; reflexivity.
Qed.

(** X3.  A [KeyboardInterrupt] raised by the stage function is not an
    [Exception]: it leaves [_retry] at once, from any attempt, with no
    warning, no diagnostic capture, no pause and no further attempt. *)
Theorem retry_passes_interrupt :
  forall (env : Env) (config : BotConfig) (A : Type) (func : M A) (step_name : string)
         (w : World) (e : exn) (w' : World),
  func w = (Raise e, w') ->
  is_Exception e = false ->
  (forall attempt, _retry_attempt config func step_name attempt w = (Raise e, w')) /\
  (0 < retry_limit config -> _retry config func step_name w = (Raise e, w')).
Proof.
  intros env config A func step_name w e w' Hf He.
  assert (Hall : forall attempt,
             _retry_attempt config func step_name attempt w = (Raise e, w')).
  { intros attempt. unfold _retry_attempt.
    apply try_except_uncaught; [|exact He]. now apply bind_raise. }
  split; [exact Hall|].
  intros Hpos. unfold _retry. rewrite range_cons by lia. cbn [for_first].
  apply bind_raise. apply Hall.
Qed.

(** X3 on a concrete run: Ctrl+C during the page load of a stage. *)
Lemma retry_passes_interrupt_run :
  @_retry cancelled_env (a_config "10" 5) unit (@perform cancelled_env (EGet "https://www.nike.com/"))
          "stage" w0 =
  (Raise (mkExn KeyboardInterrupt EmptyString), record (EGet "https://www.nike.com/") w0).
Proof.
  apply (retry_passes_interrupt cancelled_env (a_config "10" 5) unit
           (@perform cancelled_env (EGet "https://www.nike.com/")) "stage" w0);
    reflexivity.
Defined.

Section RetryCost.

Context {env : Env}.
Variable config : BotConfig.
Variable A : Type.
Variable func : M A.
Variable step_name : string.
Variables c_lo c_hi : Z.

Hypothesis capture_not_interrupted :
  forall w path e, raises w (ESaveScreenshot path) = Some e -> is_Exception e = true.

Hypothesis func_fails :
  forall w, exists e w',
    func w = (Raise e, w') /\ is_Exception e = true /\ c_lo <= now w' - now w <= c_hi.

Lemma screenshot_keeps_clock name w :
  exists w', _screenshot name w = (Ret tt, w') /\ now w' = now w.
Proof.
  rewrite screenshot_run. cbv zeta.
  destruct (raises w _) as [e|] eqn:He.
  - rewrite (capture_not_interrupted _ _ _ He). eexists. split; reflexivity.
  - eexists. split; reflexivity.
Qed.

(** A failed attempt: the last one re-raises without a pause, any other
    pauses between 1 s and 3 s. *)
Lemma retry_attempt_cost attempt w :
  exists e w',
    _retry_attempt config func step_name attempt w =
      (if attempt =? retry_limit config then Raise e else Ret None, w') /\
    if attempt =? retry_limit config
    then c_lo <= now w' - now w <= c_hi
    else c_lo + 1000000 <= now w' - now w <= c_hi + 3000000.
Proof.
  destruct (func_fails w) as (e & w1 & Hf & He & Hcost).
  unfold _retry_attempt.
  rewrite (try_except_caught _ _ _ w e w1); [|now apply bind_raise | exact He].
  unfold bind at 1, log.
  match goal with |- context [bind (_screenshot ?n) _ ?w2] =>
    destruct (screenshot_keeps_clock n w2) as (w3 & Hs & Hnow);
    rewrite (bind_run _ _ _ _ _ Hs) end.
  cbn [now record] in Hnow.
  destruct (attempt =? retry_limit config).
  - exists e, w3. split; [reflexivity | lia].
  - exists e. eexists. split; [reflexivity|]. cbn [now].
    pose proof (uniform_within 1000000 3000000 w3). lia.
Qed.

Lemma retry_loop_cost (n : nat) : forall a w,
  retry_limit config - a = Z.of_nat n ->
  exists e w',
    for_first (range a (retry_limit config + 1)) (_retry_attempt config func step_name) w
      = (Raise e, w') /\
    (Z.of_nat n + 1) * c_lo + Z.of_nat n * 1000000 <= now w' - now w
      <= (Z.of_nat n + 1) * c_hi + Z.of_nat n * 3000000.
Proof.
  induction n as [|n IH]; intros a w Ha;
    rewrite range_cons by lia; cbn [for_first];
    destruct (retry_attempt_cost a w) as (e & w1 & Hrun & Hcost).
  - replace (a =? retry_limit config) with true in * by (symmetry; apply Z.eqb_eq; lia).
    exists e, w1. split; [now apply bind_raise | lia].
  - replace (a =? retry_limit config) with false in * by (symmetry; apply Z.eqb_neq; lia).
    rewrite (bind_run _ _ _ _ _ Hrun).
    destruct (IH (a + 1) w1) as (e' & w' & Hloop & Hc); [lia|].
    exists e', w'. split; [exact Hloop | lia].
Qed.

End RetryCost.

(** X4.  The time a stage that keeps failing costs.  If every call of
    the stage function raises an [Exception] after between [c_lo] and
    [c_hi] microseconds, then [_retry] gives up after [retry_limit] calls
    separated by [retry_limit - 1] pauses of 1 s to 3 s each: there is no
    pause after the last failure. *)
Theorem retry_backoff_time :
  forall (env : Env) (config : BotConfig) (A : Type) (func : M A) (step_name : string)
         (c_lo c_hi : Z) (w : World),
  (forall w path e, raises w (ESaveScreenshot path) = Some e -> is_Exception e = true) ->
  (forall w, exists e w',
      func w = (Raise e, w') /\ is_Exception e = true /\ c_lo <= now w' - now w <= c_hi) ->
  0 < retry_limit config ->
  exists e w',
    _retry config func step_name w = (Raise e, w') /\
    retry_limit config * c_lo + (retry_limit config - 1) * 1000000 <= now w' - now w /\
    now w' - now w <= retry_limit config * c_hi + (retry_limit config - 1) * 3000000.
Proof.
  intros env config A func step_name c_lo c_hi w Hshot Hfail Hpos. unfold _retry.
  destruct (retry_loop_cost config A func step_name c_lo c_hi Hshot Hfail
              (Z.to_nat (retry_limit config - 1)) 1 w) as (e & w' & Hrun & Hc); [lia|].
  exists e, w'. split; [exact Hrun|].
  replace (Z.of_nat (Z.to_nat (retry_limit config - 1))) with (retry_limit config - 1) in Hc
    by lia.
  replace (retry_limit config - 1 + 1) with (retry_limit config) in Hc by lia. lia.
Qed.

(** X4 on a concrete run: a stage that fails at once, five attempts, the
    generator drawing the shortest pause every time. *)
Lemma retry_backoff_time_run :
  exists e w',
    @_retry blank_env (a_config "10" 5) Z always_raises "stage" w0 = (Raise e, w') /\
    5 * 0 + (5 - 1) * 1000000 <= now w' - now w0 /\
    now w' - now w0 <= 5 * 0 + (5 - 1) * 3000000.
Proof.
  apply (retry_backoff_time blank_env (a_config "10" 5) Z always_raises "stage" 0 0 w0).
  - discriminate.
  - intros w. exists (mkExn RuntimeError "boom"), w. cbn. repeat split; lia.
  - reflexivity.
Defined.

(** X5.  The diagnostic capture is best effort: [_screenshot] never lets
    an [Exception] out and never moves the clock or the frame.  When the
    capture succeeds it returns, and the line naming the file follows the
    capture in the history; when the capture fails the capture is the last
    thing in the history, and only an interrupt of the capture itself
    leaves [_screenshot]. *)
Theorem screenshot_is_best_effort :
  forall (env : Env) (name : string) (w : World),
  exists o w',
    _screenshot name w = (o, w') /\
    o <> Diverge /\
    now w' = now w /\ frame w' = frame w /\
    (forall e, o = Raise e ->
       is_Exception e = false /\
       raises w (ESaveScreenshot (capture_path name w)) = Some e) /\
    (raises w (ESaveScreenshot (capture_path name w)) = None ->
     o = Ret tt /\
     trace w' = ELog INFO ("Screenshot -> " ++ capture_path name w)
                :: ESaveScreenshot (capture_path name w) :: trace w) /\
    (raises w (ESaveScreenshot (capture_path name w)) <> None ->
     trace w' = ESaveScreenshot (capture_path name w) :: trace w).
Proof.
  intros env name w. rewrite screenshot_run. cbv zeta.
  fold (capture_path name w).
  destruct (raises w _) as [e|] eqn:He.
  - destruct (is_Exception e) eqn:Hexc; do 2 eexists;
      (split; [reflexivity|]); (split; [discriminate|]);
      (split; [reflexivity|]); (split; [reflexivity|]);
      (split; [|split; [discriminate | reflexivity]]).
    + intros e' H. discriminate H.
    + intros e' [= <-]. split; [exact Hexc | reflexivity].
  - do 2 eexists. split; [reflexivity|]. split; [discriminate|].
    split; [reflexivity|]. split; [reflexivity|]. split.
    + intros e' H. discriminate H.
    + split; [intros _; split; reflexivity | intros H; now contradiction H].
Qed.

(** ** Loading the shoe page *)

Lemma loads_app url evs1 evs2 :
  loads url (evs1 ++ evs2) = (loads url evs1 + loads url evs2)%nat.
Proof. unfold loads. now rewrite filter_app, length_app. Qed.

Lemma slept_app evs1 evs2 : slept (evs1 ++ evs2) = slept evs1 + slept evs2.
Proof.
  unfold slept. induction evs1 as [|ev evs1 IH]; cbn [app fold_right]; [lia|].
  destruct ev; rewrite IH; lia.
Qed.

(** A loop whose every pass goes on to the next, loads the page once and
    pauses between [lo] and [hi]. *)
Lemma for_first_all_pass {env : Env} {B} (body : Z -> M (option B)) url lo hi :
  (forall a w, exists w' evs,
      body a w = (Ret None, w') /\ added w w' evs /\ loads url evs = 1%nat /\
      lo <= slept evs <= hi) ->
  forall (n : nat) a w, exists w' evs,
    for_first (range a (a + Z.of_nat n)) body w = (Ret None, w') /\
    added w w' evs /\ loads url evs = n /\
    Z.of_nat n * lo <= slept evs <= Z.of_nat n * hi.
Proof.
  intros Hbody. induction n as [|n IH]; intros a w.
  - rewrite range_nil by lia. exists w, []. repeat split; cbn; lia.
  - rewrite range_cons by lia. cbn [for_first].
    destruct (Hbody a w) as (w1 & evs1 & Hrun & Hadd1 & Hl1 & Hc1).
    rewrite (bind_run _ _ _ _ _ Hrun).
    replace (a + Z.of_nat (S n)) with (a + 1 + Z.of_nat n) by lia.
    destruct (IH (a + 1) w1) as (w' & evs & Hloop & Hadd & Hl & Hc).
    exists w', (evs ++ evs1)%list. split; [exact Hloop|].
    split; [eapply added_trans; eassumption|].
    split; [rewrite loads_app; lia | rewrite slept_app; lia].
Qed.

(** X6.  When the size markers never show (every wait times out, the
    page loads and the captures going through) and the configured refresh
    interval is not negative, [navigate_to_shoe] loads the shoe page once
    per attempt of its budget, [retry_limit] times in all (not once when
    the budget is zero or less), and then raises [RuntimeError].  Every
    attempt pauses 1.5 s to 3 s after the load and [refresh_interval]
    after the failure, the last attempt included: the pauses of the stage
    add up to between 1.5 s and 3 s plus [refresh_interval], times the
    number of attempts.  The time the waits for the size markers take is
    not part of that sum. *)
Theorem navigate_exhausts_budget :
  forall (env : Env) (config : BotConfig) (w : World),
  (forall w path e, raises w (ESaveScreenshot path) = Some e -> is_Exception e = true) ->
  (forall w, raises w (EGet (shoe_url config)) = None) ->
  (forall w, until w (element_timeout config) sizes_present = None) ->
  0 <= refresh_interval config ->
  exists w' evs,
    navigate_to_shoe config w =
      (Raise (mkExn RuntimeError "Could not load shoe page with available sizes."), w') /\
    added w w' evs /\
    loads (shoe_url config) evs = Z.to_nat (retry_limit config) /\
    Z.max 0 (retry_limit config) * (1500000 + refresh_interval config) <= slept evs /\
    slept evs <= Z.max 0 (retry_limit config) * (3000000 + refresh_interval config).
Proof.
  intros env config w Hshot Hget Huntil Hrefresh.
  unfold navigate_to_shoe. unfold bind at 1, log.
  match goal with |- context [for_first _ ?body] =>
    destruct (for_first_all_pass body (shoe_url config)
                (1500000 + refresh_interval config) (3000000 + refresh_interval config))
      with (n := Z.to_nat (retry_limit config)) (a := 1)
           (w := record (ELog INFO ("Loading shoe page: " ++ shoe_url config)) w)
      as (w' & evs & Hrun & Hadd & Hloads & Hcost)
  end.
  - intros a w1. cbv beta.
    assert (Hbody : (perform (EGet (shoe_url config)) ;;
                     random_sleep 1500000 3000000 ;;
                     _ <- wait_until (element_timeout config) sizes_present ;;
                     log INFO "Shoe page loaded." ;;
                     ret (Some tt)) w1 =
                    (Raise (mkExn TimeoutException ""),
                     after_pause 1500000 3000000 (record (EGet (shoe_url config)) w1))).
    { unfold bind at 1, perform. rewrite Hget.
      rewrite (bind_run _ _ _ _ _ (random_sleep_run 1500000 3000000 _)).
      apply bind_raise. unfold wait_until. now rewrite Huntil. }
    rewrite (try_except_caught _ _ _ _ _ _ Hbody eq_refl).
    unfold bind at 1, log.
    match goal with |- context [bind (_screenshot ?n) _ ?w2] =>
      pose proof (screenshot_run n w2) as Hs; cbv zeta in Hs;
      destruct (raises w2 (ESaveScreenshot _)) as [e|] eqn:He;
      [rewrite (Hshot _ _ _ He) in Hs|];
      rewrite (bind_run _ _ _ _ _ Hs)
    end.
    + do 2 eexists. split; [reflexivity|]. split.
      * unfold added, after_pause. cbn [snd trace record random_sleep bind uniform ask sleep].
        repeat apply cons_app_eq. apply nil_app_eq.
      * split.
        -- unfold loads. cbn [filter List.length]. now rewrite String.eqb_refl.
        -- cbn [slept fold_right].
           pose proof (uniform_within 1500000 3000000 (record (EGet (shoe_url config)) w1)). lia.
    + do 2 eexists. split; [reflexivity|]. split.
      * unfold added, after_pause. cbn [snd trace record random_sleep bind uniform ask sleep].
        repeat apply cons_app_eq. apply nil_app_eq.
      * split.
        -- unfold loads. cbn [filter List.length]. now rewrite String.eqb_refl.
        -- cbn [slept fold_right].
           pose proof (uniform_within 1500000 3000000 (record (EGet (shoe_url config)) w1)). lia.
  - assert (Hrange : range 1 (retry_limit config + 1) =
                     range 1 (1 + Z.of_nat (Z.to_nat (retry_limit config)))).
    { destruct (Z.le_gt_cases 0 (retry_limit config)) as [Hpos|Hneg].
      - f_equal. lia.
      - now rewrite !range_nil by lia. }
    rewrite Hrange, (bind_run _ _ _ _ _ Hrun).
    exists w', (evs ++ [ELog INFO ("Loading shoe page: " ++ shoe_url config)])%list.
    split; [reflexivity|]. split.
    + unfold added in *. rewrite Hadd. cbn [trace record]. now rewrite <- app_assoc.
    + rewrite loads_app, slept_app.
      change (loads (shoe_url config) [ELog INFO _]) with 0%nat.
      change (slept [ELog INFO _]) with 0.
      replace (Z.of_nat (Z.to_nat (retry_limit config))) with (Z.max 0 (retry_limit config))
        in Hcost by lia.
      lia.
Qed.

(** X6 on a concrete run: a blank page, three attempts, the generator
    drawing the shortest pause and the refresh interval 3 s. *)
Lemma navigate_exhausts_budget_run :
  exists w' evs,
    @navigate_to_shoe blank_env (a_config "10" 3) w0 =
      (Raise (mkExn RuntimeError "Could not load shoe page with available sizes."), w') /\
    added w0 w' evs /\
    loads "https://www.nike.com/t/air-jordan-1" evs = 3%nat /\
    Z.max 0 3 * (1500000 + 3000000) <= slept evs /\
    slept evs <= Z.max 0 3 * (3000000 + 3000000).
Proof.
  apply (navigate_exhausts_budget blank_env (a_config "10" 3) w0).
  - discriminate.
  - reflexivity.
  - reflexivity.
  - cbn; lia.
Defined.

(** X7.  [navigate_to_shoe] retries on [TimeoutException] only.  A page
    load that fails with anything else ends the stage at the first
    attempt: one load, no capture, no refresh pause, and the exception of
    the load is what the stage raises. *)
Theorem navigate_does_not_retry_other_errors :
  forall (env : Env) (config : BotConfig) (w : World) (e : exn),
  0 < retry_limit config ->
  raises (record (ELog INFO ("Loading shoe page: " ++ shoe_url config)) w)
         (EGet (shoe_url config)) = Some e ->
  is_a TimeoutException e = false ->
  navigate_to_shoe config w =
  (Raise e, record (EGet (shoe_url config))
                   (record (ELog INFO ("Loading shoe page: " ++ shoe_url config)) w)).
Proof.
  intros env config w e Hpos Hget Hclass. unfold navigate_to_shoe.
  unfold bind at 1, log. rewrite range_cons by lia. cbn [for_first].
  apply bind_raise. apply bind_raise.
  apply try_except_uncaught; [|exact Hclass].
  apply bind_raise. unfold perform. now rewrite Hget.
Qed.

(** X7 on a concrete run: the browser is offline. *)
Lemma navigate_does_not_retry_run :
  @navigate_to_shoe offline_env (a_config "10" 5) w0 =
  (Raise (mkExn OtherException "net::ERR_INTERNET_DISCONNECTED"),
   record (EGet "https://www.nike.com/t/air-jordan-1")
          (record (ELog INFO "Loading shoe page: https://www.nike.com/t/air-jordan-1") w0)).
Proof.
  apply (navigate_does_not_retry_other_errors offline_env (a_config "10" 5) w0);
    reflexivity.
Defined.

(** ** What a stage that returns has done *)

Lemma try_except_ret_inv {A} (body : M A) catches handler w a w' :
  try_except body catches handler w = (Ret a, w') ->
  body w = (Ret a, w') \/
  exists e w1, body w = (Raise e, w1) /\ catches e = true /\ handler e w1 = (Ret a, w').
Proof.
  unfold try_except. destruct (body w) as [[a1|e|] w1]; try discriminate.
  - intros H. now left.
  - destruct (catches e) eqn:Hc; [|discriminate]. intros H. right. now exists e, w1.
Qed.

Lemma for_first_some_inv {A B} (xs : list A) (body : A -> M (option B)) w b w' :
  for_first xs body w = (Ret (Some b), w') ->
  exists x w1, In x xs /\ body x w1 = (Ret (Some b), w').
Proof.
  revert w. induction xs as [|x rest IH]; intros w; cbn [for_first]; [discriminate|].
  intros H. apply bind_ret_inv in H. destruct H as ([b1|] & w1 & Hx & Hrest).
  - injection Hrest as <- <-. exists x, w. split; [now left | exact Hx].
  - destruct (IH w1 Hrest) as (x' & w2 & Hin & Hrun). exists x', w2. split; [now right | exact Hrun].
Qed.

Section RetryReturns.

Context {env : Env}.
Variable config : BotConfig.
Variable A : Type.
Variable func : M A.
Variable step_name : string.

Lemma retry_attempt_ret_inv attempt w r w' :
  _retry_attempt config func step_name attempt w = (Ret r, w') ->
  match r with
  | Some v => func w = (Ret v, w')
  | None => attempt <> retry_limit config /\ exists e w1, func w = (Raise e, w1)
  end.
Proof.
  unfold _retry_attempt. intros H. apply try_except_ret_inv in H.
  destruct H as [H | (e & w1 & Hbody & _ & Hh)].
  - apply bind_ret_inv in H. destruct H as (v & w1 & Hf & Hr).
    injection Hr as <- <-. exact Hf.
  - assert (Hf : func w = (Raise e, w1)).
    { revert Hbody. unfold bind. destruct (func w) as [[v|e1|] w2]; [discriminate | | discriminate].
      now intros [= -> ->]. }
    apply bind_ret_inv in Hh. destruct Hh as (_ & w2 & _ & Hh).
    apply bind_ret_inv in Hh. destruct Hh as (_ & w3 & _ & Hh).
    destruct (Z.eqb_spec attempt (retry_limit config)) as [Heq|Hne]; [discriminate Hh|].
    apply bind_ret_inv in Hh. destruct Hh as (d & w4 & _ & Hh).
    apply bind_ret_inv in Hh. destruct Hh as (_ & w5 & _ & Hh).
    injection Hh as <- <-. split; [exact Hne | now exists e, w1].
Qed.

Lemma retry_loop_ret_inv (n : nat) : forall a w r w',
  retry_limit config - a = Z.of_nat n ->
  for_first (range a (retry_limit config + 1)) (_retry_attempt config func step_name) w
    = (Ret r, w') ->
  exists v w1, r = Some v /\ func w1 = (Ret v, w').
Proof.
  induction n as [|n IH]; intros a w r w' Ha; rewrite range_cons by lia; cbn [for_first];
    intros H; apply bind_ret_inv in H; destruct H as ([v|] & w1 & Hatt & Hrest);
    apply retry_attempt_ret_inv in Hatt.
  - injection Hrest as <- <-. now exists v, w.
  - destruct Hatt as [Hne _]. lia.
  - injection Hrest as <- <-. now exists v, w.
  - apply (IH (a + 1) w1 r w'); [lia | exact Hrest].
Qed.

Lemma retry_ret_inv w r w' :
  0 < retry_limit config ->
  _retry config func step_name w = (Ret r, w') ->
  exists v w1, r = Some v /\ func w1 = (Ret v, w').
Proof.
  intros Hpos Hrun. unfold _retry in Hrun.
  apply (retry_loop_ret_inv (Z.to_nat (retry_limit config - 1)) 1 w r w'); [lia | exact Hrun].
Qed.

End RetryReturns.

(** X8.  With a positive budget, [_retry] returns only by returning from
    a call of the stage function: its value is the value of that call and
    the world is the one the call left, so nothing is done after the
    successful call, and whatever holds when the stage function returns
    holds when the stage returns. *)
Theorem retry_returns_a_call :
  forall (env : Env) (config : BotConfig) (A : Type) (func : M A) (step_name : string)
         (w : World) (r : option A) (w' : World),
  0 < retry_limit config ->
  _retry config func step_name w = (Ret r, w') ->
  exists v w1, r = Some v /\ func w1 = (Ret v, w').
Proof.
  intros env config A func step_name w r w' Hpos Hrun.
  exact (retry_ret_inv config A func step_name w r w' Hpos Hrun).
Qed.

(** X8 on a concrete run: the value that comes back is the one of the
    call that returned. *)
Lemma retry_returns_a_call_run :
  exists v w1,
    Some 42 = Some v /\
    counted (returns_on_call 2 42) w1 =
    (Ret v, snd (@_retry blank_env (a_config "10" 3) Z
                   (counted (returns_on_call 2 42)) "stage" w0)).
Proof.
  apply (retry_returns_a_call blank_env (a_config "10" 3) Z (counted (returns_on_call 2 42))
           "stage" w0 (Some 42)).
  - reflexivity.
  - vm_compute. reflexivity.
Defined.

Section Checkout.

Context {env : Env}.

Lemma do_checkout_returns w w' :
  _do_checkout w = (Ret tt, w') ->
  exists w1 msg,
    w' = record (ELog INFO msg) w1 /\ PyStr.contains "/checkout" (current_url w1) = true.
Proof.
  unfold _do_checkout. intros H.
  apply bind_ret_inv in H. destruct H as ([[]|] & w1 & Hloop & Hrest).
  - injection Hrest as <-.
    apply for_first_some_inv in Hloop. destruct Hloop as (sel & w2 & _ & Hbody).
    apply try_except_ret_inv in Hbody.
    destruct Hbody as [Hbody | (e & w3 & _ & _ & Hh)]; [|discriminate Hh].
    apply bind_ret_inv in Hbody. destruct Hbody as (el & w3 & _ & Hbody).
    apply bind_ret_inv in Hbody. destruct Hbody as (_ & w4 & _ & Hbody).
    apply bind_ret_inv in Hbody. destruct Hbody as (_ & w5 & _ & Hbody).
    apply bind_ret_inv in Hbody. destruct Hbody as (url & w6 & Hask & Hbody).
    unfold ask in Hask. injection Hask as <- <-.
    destruct (PyStr.contains "/checkout" (current_url w5)) eqn:Hc; [|discriminate Hbody].
    injection Hbody as <-. now exists w5, "On checkout page.".
  - apply bind_ret_inv in Hrest. destruct Hrest as (_ & w2 & _ & Hrest).
    apply bind_ret_inv in Hrest. destruct Hrest as (_ & w3 & _ & Hrest).
    apply bind_ret_inv in Hrest. destruct Hrest as (url & w4 & Hask & Hrest).
    unfold ask in Hask. injection Hask as <- <-.
    destruct (PyStr.contains "/checkout" (current_url w3)) eqn:Hc; [|discriminate Hrest].
    injection Hrest as <-. now exists w3, "On checkout page (direct URL).".
Qed.

End Checkout.

(** X9.  With a positive budget, [begin_checkout] returns only from a
    checkout page: the last thing it did was to read an address that
    contains "/checkout" and to log that it is on the checkout page.
    Clicking a checkout control is not enough for the stage to return. *)
Theorem begin_checkout_returns_on_checkout_page :
  forall (env : Env) (config : BotConfig) (w w' : World),
  0 < retry_limit config ->
  begin_checkout config w = (Ret tt, w') ->
  exists w1 msg,
    w' = record (ELog INFO msg) w1 /\
    PyStr.contains "/checkout" (current_url w1) = true.
Proof.
  intros env config w w' Hpos Hrun. unfold begin_checkout, stage in Hrun.
  apply bind_ret_inv in Hrun. destruct Hrun as (_ & w1 & _ & Hrun).
  apply bind_ret_inv in Hrun. destruct Hrun as (r & w2 & Hretry & Hret).
  injection Hret as <-.
  destruct (retry_ret_inv config unit _do_checkout "begin_checkout" w1 r w2 Hpos Hretry)
    as ([] & w3 & _ & Hbody).
  now apply do_checkout_returns in Hbody.
Qed.

(** X9 on a concrete run: no checkout control is clickable and the direct
    address leads to the checkout page. *)
Lemma begin_checkout_returns_run :
  exists w1 msg,
    snd (@begin_checkout payment_step_env (a_config "10" 5) w0) = record (ELog INFO msg) w1 /\
    PyStr.contains "/checkout" (@current_url payment_step_env w1) = true.
Proof.
  apply (begin_checkout_returns_on_checkout_page payment_step_env (a_config "10" 5) w0).
  - reflexivity.
  - vm_compute. reflexivity.
Defined.

(** ** Histories: what a computation adds to the trace *)

Lemma replay_app w evs1 evs2 : replay w (evs2 ++ evs1) = replay (replay w evs1) evs2.
Proof. unfold replay. apply fold_right_app. Qed.

Lemma replay_trace w evs : trace (replay w evs) = (evs ++ trace w)%list.
Proof.
  induction evs as [|ev evs IH]; [reflexivity|].
  cbn [replay fold_right app]. fold (replay w evs).
  destruct ev; cbn [after_event record trace]; now rewrite IH.
Qed.

Lemma replay_frame w evs : frame (replay w evs) = frame w.
Proof.
  induction evs as [|ev evs IH]; [reflexivity|].
  cbn [replay fold_right]. fold (replay w evs).
  destruct ev; cbn [after_event record frame]; exact IH.
Qed.

Section Emits.

Context {env : Env}.
Variable P : Event -> Prop.
Hypothesis P_log : forall lvl msg, P (ELog lvl msg).
Hypothesis P_sleep : forall start d, P (ESleep start d).

Lemma emits_ret {A} (a : A) : emits P (ret a).
Proof. intros w. exists []. repeat split; [constructor | discriminate]. Qed.

Lemma emits_raise {A} cls msg : emits P (@raise A cls msg).
Proof. intros w. exists []. repeat split; [constructor | discriminate]. Qed.

Lemma emits_reraise {A} e : emits P (@reraise A e).
Proof. intros w. exists []. repeat split; [constructor | discriminate]. Qed.

Lemma emits_ask {A} (f : World -> A) : emits P (ask f).
Proof. intros w. exists []. repeat split; [constructor | discriminate]. Qed.

Lemma emits_log lvl msg : emits P (log lvl msg).
Proof.
  intros w. exists [ELog lvl msg]. repeat split; [|discriminate].
  constructor; [apply P_log | constructor].
Qed.

Lemma emits_sleep d : emits P (sleep d).
Proof.
  intros w. exists [ESleep (now w) d]. repeat split; [|discriminate].
  constructor; [apply P_sleep | constructor].
Qed.

Lemma emits_perform ev :
  P ev -> (forall w, after_event ev w = record ev w) -> emits P (perform ev).
Proof.
  intros HP Hrec w. exists [ev]. unfold perform.
  destruct (raises w ev); cbn [fst snd replay fold_right]; rewrite Hrec;
    (repeat split; [constructor; [exact HP | constructor] | discriminate]).
Qed.

Lemma emits_find_element by_ value : emits P (find_element by_ value).
Proof.
  intros w. exists []. unfold find_element.
  destruct (find_elements w by_ value); (repeat split; [constructor | discriminate]).
Qed.

Lemma emits_wait_until t cond : emits P (wait_until t cond).
Proof.
  intros w. exists []. unfold wait_until.
  destruct (until w t cond); (repeat split; [constructor | discriminate]).
Qed.

Lemma emits_bind {A B} (m : M A) (k : A -> M B) :
  emits P m -> (forall a, emits P (k a)) -> emits P (bind m k).
Proof.
  intros Hm Hk w. unfold bind. destruct (Hm w) as (evs1 & H1 & HP1 & Hd1).
  destruct (m w) as [[a|e|] w1]; cbn [fst snd] in *.
  - destruct (Hk a w1) as (evs2 & H2 & HP2 & Hd2).
    exists (evs2 ++ evs1)%list. rewrite replay_app, <- H1.
    split; [exact H2|]. split; [apply Forall_app; now split | exact Hd2].
  - exists evs1. repeat split; [exact H1 | exact HP1 | discriminate].
  - now contradiction Hd1.
Qed.

Lemma emits_try_except {A} (body : M A) catches handler :
  emits P body -> (forall e, emits P (handler e)) -> emits P (try_except body catches handler).
Proof.
  intros Hb Hh w. unfold try_except. destruct (Hb w) as (evs1 & H1 & HP1 & Hd1).
  destruct (body w) as [[a|e|] w1]; cbn [fst snd] in *.
  - exists evs1. repeat split; [exact H1 | exact HP1 | discriminate].
  - destruct (catches e).
    + destruct (Hh e w1) as (evs2 & H2 & HP2 & Hd2).
      exists (evs2 ++ evs1)%list. rewrite replay_app, <- H1.
      split; [exact H2|]. split; [apply Forall_app; now split | exact Hd2].
    + exists evs1. repeat split; [exact H1 | exact HP1 | discriminate].
  - now contradiction Hd1.
Qed.

Lemma emits_for_first {A B} (xs : list A) (body : A -> M (option B)) :
  (forall x, emits P (body x)) -> emits P (for_first xs body).
Proof.
  intros Hb. induction xs as [|x rest IH]; cbn [for_first]; [apply emits_ret|].
  apply emits_bind; [apply Hb|]. intros [b|]; [apply emits_ret | exact IH].
Qed.

Lemma emits_for_each {A} (xs : list A) (body : A -> M unit) :
  (forall x, emits P (body x)) -> emits P (for_each xs body).
Proof.
  intros Hb. induction xs as [|x rest IH]; cbn [for_each]; [apply emits_ret|].
  apply emits_bind; [apply Hb | intros _; exact IH].
Qed.

Lemma emits_uniform lo hi : emits P (uniform lo hi).
Proof. apply emits_ask. Qed.

Lemma emits_random_sleep lo hi : emits P (random_sleep lo hi).
Proof. unfold random_sleep. apply emits_bind; [apply emits_uniform | intros d; apply emits_sleep]. Qed.

End Emits.

Create HintDb emits discriminated.

#[export] Hint Resolve emits_ret emits_raise emits_reraise emits_ask emits_log emits_sleep
  emits_find_element emits_wait_until emits_uniform emits_random_sleep : emits.

(** One step of a proof of [emits], as for [keeps]; a command sent to the
    outside leaves its side conditions to the caller. *)
Ltac emits_step :=
  match goal with
  | |- emits _ (bind _ _) => apply emits_bind; [assumption .. | idtac | intros ?]
  | |- emits _ (try_except _ _ _) => apply emits_try_except; [assumption .. | idtac | intros ?]
  | |- emits _ (for_first _ _) => apply emits_for_first; [assumption .. | intros ?]
  | |- emits _ (for_each _ _) => apply emits_for_each; [assumption .. | intros ?]
  | |- emits _ (perform _) =>
      apply emits_perform; [assumption .. | first [exact I | reflexivity | assumption]
                            | intros ?; reflexivity]
  | |- emits _ (if ?b then _ else _) => destruct b eqn:?
  | |- emits _ (match ?x with _ => _ end) => destruct x eqn:?
  | |- emits _ _ => solve [eauto with emits]
  end.

Ltac emits_auto := repeat emits_step.

Section EmitsBot.

Context {env : Env}.
Variable P : Event -> Prop.
Hypothesis P_log : forall lvl msg, P (ELog lvl msg).
Hypothesis P_sleep : forall start d, P (ESleep start d).
Hypothesis P_capture : forall path, P (ESaveScreenshot path).

Lemma emits_screenshot name : emits P (_screenshot name).
Proof.
  unfold _screenshot. emits_auto. apply emits_perform; [apply P_capture | reflexivity].
Qed.

Lemma emits_retry_attempt (config : BotConfig) {A} (func : M A) name attempt :
  emits P func -> emits P (_retry_attempt config func name attempt).
Proof.
  intros Hf. unfold _retry_attempt. emits_auto. apply emits_screenshot.
Qed.

Lemma emits_retry (config : BotConfig) {A} (func : M A) name :
  emits P func -> emits P (_retry config func name).
Proof. intros Hf. unfold _retry. emits_auto. now apply emits_retry_attempt. Qed.

Lemma emits_stage (config : BotConfig) func name :
  emits P func -> emits P (stage config func name).
Proof. intros Hf. unfold stage. emits_auto. now apply emits_retry. Qed.

Lemma emits_element_exists by_ value : emits P (element_exists by_ value).
Proof. unfold element_exists. emits_auto. Qed.

Lemma emits_step_already_complete name : emits P (_step_already_complete name).
Proof. unfold _step_already_complete. emits_auto. apply emits_element_exists. Qed.

End EmitsBot.

(** ** Stages that click once *)

Lemma timeout_or_not_found_is_Exception e :
  timeout_or_not_found e = true -> is_Exception e = true.
Proof.
  unfold timeout_or_not_found, is_a, is_Exception. now destruct (exn_class e).
Qed.

Lemma not_a_click_log lvl msg : not_a_click (ELog lvl msg).
Proof. reflexivity. Qed.

Lemma not_a_click_sleep start d : not_a_click (ESleep start d).
Proof. reflexivity. Qed.

Lemma not_a_click_capture path : not_a_click (ESaveScreenshot path).
Proof. reflexivity. Qed.

#[export] Hint Resolve not_a_click_log not_a_click_sleep not_a_click_capture
  emits_screenshot : emits.

Lemma screenshot_calm {env : Env} name : calm (_screenshot name).
Proof.
  intros w e w'. rewrite screenshot_run. cbv zeta.
  destruct (raises _ _) as [e1|]; [destruct (is_Exception e1) eqn:H|]; try discriminate.
  now intros [= <- _].
Qed.

Section ClickOnce.

Context {env : Env}.
Variable wi : World.

(** Events that are no clicks change neither state. *)
Lemma none_through_quiet evs h :
  Forall not_a_click evs -> none_through wi h -> none_through wi (evs ++ h).
Proof.
  intros Hq Hh. induction Hq as [|ev evs Hev _ IH]; [exact Hh|].
  cbn [app none_through]. split; [|exact IH].
  intros [Hclick _]. unfold not_a_click in Hev. congruence.
Qed.

Lemma one_through_quiet evs h :
  Forall not_a_click evs -> one_through wi h -> one_through wi (evs ++ h).
Proof.
  intros Hq (post & ev & pre & -> & Hgo & Hpost & Hpre).
  exists (evs ++ post)%list, ev, pre. rewrite app_assoc.
  repeat split; try assumption; try apply Hgo. apply Forall_app. now split.
Qed.

Lemma before_click_quiet {A} (m : M A) w :
  emits not_a_click m -> before_click wi w -> before_click wi (snd (m w)).
Proof.
  intros Hm (h & -> & Hh). destruct (Hm (replay wi h)) as (evs & Hw & Hq & _).
  exists (evs ++ h)%list. rewrite replay_app. split; [exact Hw | now apply none_through_quiet].
Qed.

Lemma after_click_quiet {A} (m : M A) w :
  emits not_a_click m -> after_click wi w -> after_click wi (snd (m w)).
Proof.
  intros Hm (h & -> & Hh). destruct (Hm (replay wi h)) as (evs & Hw & Hq & _).
  exists (evs ++ h)%list. rewrite replay_app. split; [exact Hw | now apply one_through_quiet].
Qed.

(** [human_click] returns after a click that went through, the action
    chain or the script; when it raises, every click it sent failed. *)
Lemma human_click_state el w :
  before_click wi w ->
  match human_click el w with
  | (Ret _, w') => after_click wi w'
  | (Raise _, w') => before_click wi w'
  | (Diverge, _) => False
  end.
Proof.
  intros (h & -> & Hh).
  unfold human_click, try_except, bind, randint, uniform, ask, perform.
  match goal with |- context [raises (replay wi h) ?ev] => set (chain := ev) end.
  destruct (raises (replay wi h) chain) as [e|] eqn:Hchain.
  - assert (Hfailed : none_through wi (chain :: h)).
    { split; [|exact Hh]. intros [_ H]. congruence. }
    destruct (is_Exception e).
    + match goal with |- context [raises (record chain _) ?ev] => set (script := ev) end.
      destruct (raises (record chain (replay wi h)) script) as [e2|] eqn:Hscript.
      * exists (script :: chain :: h). split; [reflexivity|].
        split; [|exact Hfailed]. intros [_ H]. cbn [replay fold_right after_event] in H.
        fold (replay wi h) in H. subst chain. cbn [after_event] in H. congruence.
      * exists (script :: chain :: h). split; [reflexivity|].
        exists [], script, (chain :: h). split; [reflexivity|].
        split; [|split; [constructor | exact Hfailed]].
        split; [reflexivity|]. exact Hscript.
    + exists (chain :: h). split; [reflexivity | exact Hfailed].
  - exists (chain :: h). split; [reflexivity|].
    exists [], chain, h. split; [reflexivity|].
    split; [|split; [constructor | exact Hh]].
    split; [reflexivity | exact Hchain].
Qed.

(** The loop over candidate selectors shared by the add and the submit
    steps, for a follow-up [after] that clicks nothing and lets no
    [Exception] out. *)
Lemma click_first_clickable_state t after :
  emits not_a_click after -> calm after ->
  forall sels w,
    before_click wi w -> click_state wi (click_first_clickable t sels after w).
Proof.
  intros Hquiet Hcalm. unfold click_first_clickable.
  induction sels as [|sel rest IH]; intros w Hw; [exact Hw|].
  cbn [for_first]. unfold bind at 1. unfold try_except at 1.
  unfold bind at 1, wait_until at 1.
  destruct (until w t _) as [el|]; [|cbn; apply IH; exact Hw].
  unfold bind at 1.
  pose proof (human_click_state el w Hw) as Hclick.
  destruct (human_click el w) as [[[]|e|] w1].
  - unfold bind at 1.
    pose proof (after_click_quiet after w1 Hquiet Hclick) as Hafter.
    destruct (Hquiet w1) as (_ & _ & _ & Hends).
    destruct (after w1) as [[[]|e|] w2] eqn:Hrun; cbn [fst snd] in *.
    + cbn. exact Hafter.
    + pose proof (Hcalm w1 e w2 Hrun) as He.
      destruct (timeout_or_not_found e) eqn:Hc.
      * apply timeout_or_not_found_is_Exception in Hc. congruence.
      * cbn. rewrite He. now right.
    + now contradiction Hends.
  - destruct (timeout_or_not_found e) eqn:Hc.
    + cbn. apply IH. exact Hclick.
    + cbn. destruct (is_Exception e); [exact Hclick | now left].
  - contradiction.
Qed.

(** One pass of [_retry] over a stage function that clicks once. *)
Lemma retry_attempt_state (config : BotConfig) {A} (func : M A) name attempt w :
  clicks_once func ->
  before_click wi w ->
  click_state wi (_retry_attempt config func name attempt w).
Proof.
  intros Hfunc Hw. unfold _retry_attempt, try_except.
  unfold bind at 1. specialize (Hfunc wi w Hw). unfold stage_state in Hfunc.
  destruct (func w) as [[v|e|] w1]; [exact Hfunc | | exact Hfunc].
  destruct (is_Exception e) eqn:He; [|unfold click_state; now rewrite He].
  unfold bind at 1, log.
  match goal with |- context [record (ELog WARNING ?m) w1] =>
    pose proof (before_click_quiet (log WARNING m) w1 ltac:(emits_auto) Hfunc) as Hw2;
    cbn [snd log] in Hw2
  end.
  unfold bind at 1.
  match goal with |- context [_screenshot ?n ?w2] =>
    pose proof (before_click_quiet (_screenshot n) w2 ltac:(emits_auto) Hw2) as Hw3;
    pose proof (screenshot_calm n w2) as Hcalm;
    assert (Hq : emits not_a_click (_screenshot n)) by emits_auto;
    destruct (Hq w2) as (_ & _ & _ & Hends);
    destruct (_screenshot n w2) as [[[]|e1|] w3]
  end; cbn [fst snd] in *.
  - destruct (attempt =? retry_limit config).
    + unfold reraise, click_state. now rewrite He.
    + match goal with |- click_state wi (?m w3) =>
        pose proof (before_click_quiet m w3 ltac:(emits_auto) Hw3) as Hw4
      end.
      exact Hw4.
  - unfold click_state. rewrite (Hcalm e1 w3 eq_refl). now left.
  - now contradiction Hends.
Qed.

Lemma retry_state (config : BotConfig) {A} (func : M A) name :
  clicks_once func ->
  forall attempts w,
    before_click wi w ->
    click_state wi (for_first attempts (_retry_attempt config func name) w).
Proof.
  intros Hfunc. induction attempts as [|a rest IH]; intros w Hw; [exact Hw|].
  cbn [for_first]. unfold bind.
  pose proof (retry_attempt_state config func name a w Hfunc Hw) as Hatt.
  destruct (_retry_attempt config func name a w) as [[[v|]|e|] w1];
    [exact Hatt | apply IH; exact Hatt | exact Hatt | exact Hatt].
Qed.

End ClickOnce.

Section ClickOnceStages.

Context {env : Env}.

Lemma submit_follow_up_quiet :
  emits not_a_click
        (random_sleep 3000000 5000000 ;; log INFO "Order submitted!" ;;
         _screenshot "order_submitted").
Proof. emits_auto. Qed.

Lemma submit_follow_up_calm :
  calm (random_sleep 3000000 5000000 ;; log INFO "Order submitted!" ;;
        _screenshot "order_submitted").
Proof.
  intros w e w'. unfold bind at 1. rewrite random_sleep_run. unfold bind at 1, log.
  rewrite screenshot_run. cbv zeta.
  destruct (raises _ _) as [e1|]; [|discriminate].
  destruct (is_Exception e1) eqn:He; [discriminate|]. now intros [= <- _].
Qed.

Lemma do_submit_clicks_once : clicks_once _do_submit.
Proof.
  intros wi w Hw. unfold _do_submit. unfold bind at 1. rewrite random_sleep_run.
  assert (Hw1 : before_click wi (after_pause 1000000 2000000 w)).
  { apply (before_click_quiet wi (random_sleep 1000000 2000000) w); [|exact Hw].
    emits_auto. }
  unfold bind.
  match goal with |- context [click_first_clickable ?t ?sels ?after ?w1] =>
    pose proof (click_first_clickable_state wi t after
                  submit_follow_up_quiet submit_follow_up_calm sels w1 Hw1) as Hloop;
    destruct (click_first_clickable t sels after w1) as [[[[]|]|e|] w2]
  end; exact Hloop.
Qed.

Lemma add_follow_up_quiet :
  emits not_a_click (log INFO "Added to cart!" ;; random_sleep 2000000 4000000).
Proof. emits_auto. Qed.

Lemma add_follow_up_calm :
  calm (log INFO "Added to cart!" ;; random_sleep 2000000 4000000).
Proof. intros w e w'. discriminate. Qed.

Lemma do_add_clicks_once : clicks_once _do_add.
Proof.
  intros wi w Hw. unfold _do_add. unfold bind.
  match goal with |- context [click_first_clickable ?t ?sels ?after ?w1] =>
    pose proof (click_first_clickable_state wi t after
                  add_follow_up_quiet add_follow_up_calm sels w1 Hw) as Hloop;
    destruct (click_first_clickable t sels after w1) as [[[[]|]|e|] w2]
  end; exact Hloop.
Qed.

(** A stage built on [_retry] from a stage function that clicks once. *)
Lemma stage_clicks_once (config : BotConfig) (func : M unit) name line w :
  clicks_once func ->
  exists h,
    snd ((log INFO line ;; stage config func name) w) = replay w h /\
    match fst ((log INFO line ;; stage config func name) w) with
    | Ret _ => if 0 <? retry_limit config then one_through w h else none_through w h
    | Raise e => if is_Exception e then none_through w h else none_through w h \/ one_through w h
    | Diverge => False
    end.
Proof.
  intros Hfunc. unfold stage, bind, log.
  assert (Hw1 : before_click w (record (ELog INFO line) w)).
  { exists [ELog INFO line]. split; [reflexivity|]. split; [|exact I]. intros [H _]. discriminate H. }
  pose proof (retry_state w config func name Hfunc
                (range 1 (retry_limit config + 1)) _ Hw1) as Hloop.
  fold (_retry config func name) in Hloop.
  destruct (Z.ltb_spec 0 (retry_limit config)) as [Hpos|Hnone].
  - destruct (_retry config func name (record (ELog INFO line) w)) as [[r|e|] w2] eqn:Hrun;
      cbn [fst snd ret].
    + destruct (retry_ret_inv config unit func name _ r w2 Hpos Hrun) as (v & w3 & -> & _).
      destruct Hloop as (h & -> & Hh). now exists h.
    + unfold click_state in Hloop. destruct (is_Exception e).
      * destruct Hloop as (h & -> & Hh). now exists h.
      * destruct Hloop as [(h & -> & Hh) | (h & -> & Hh)]; exists h; auto.
    + contradiction.
  - rewrite retry_without_budget by lia. cbn [fst snd ret].
    exists [ELog INFO line]. split; [reflexivity|]. split; [|exact I].
    intros [H _]. discriminate H.
Qed.

End ClickOnceStages.

(** X10.  The submit stage places the order at most once.  Whatever the
    page and the driver do, the history [h] of [submit_order] holds at
    most one click that went through, every click before it failed, and
    nothing is clicked after it, neither by the loop over the selectors
    nor by a retry.  With a positive budget the stage returns exactly when
    one click went through; when it raises an [Exception], no click went
    through. *)
Theorem submit_order_clicks_once :
  forall (env : Env) (config : BotConfig) (w : World),
  exists h,
    snd (submit_order config w) = replay w h /\
    added w (snd (submit_order config w)) h /\
    match fst (submit_order config w) with
    | Ret _ => if 0 <? retry_limit config then one_through w h else none_through w h
    | Raise e => if is_Exception e then none_through w h else none_through w h \/ one_through w h
    | Diverge => False
    end.
Proof.
  intros env config w.
  destruct (stage_clicks_once config _do_submit "submit_order" "Submitting order" w
              do_submit_clicks_once) as (h & Hw & Hstate).
  exists h. split; [exact Hw|]. split; [|exact Hstate].
  unfold added. fold (submit_order config) in Hw. rewrite Hw. apply replay_trace.
Qed.

(** X11.  The same for the add-to-cart stage: at most one click goes
    through, nothing is clicked after it, the stage returns (with a
    positive budget) exactly when one did, and an [Exception] from the
    stage means that none did. *)
Theorem add_to_cart_clicks_once :
  forall (env : Env) (config : BotConfig) (w : World),
  exists h,
    snd (add_to_cart config w) = replay w h /\
    added w (snd (add_to_cart config w)) h /\
    match fst (add_to_cart config w) with
    | Ret _ => if 0 <? retry_limit config then one_through w h else none_through w h
    | Raise e => if is_Exception e then none_through w h else none_through w h \/ one_through w h
    | Diverge => False
    end.
Proof.
  intros env config w.
  destruct (stage_clicks_once config _do_add "add_to_cart" "Adding to cart" w
              do_add_clicks_once) as (h & Hw & Hstate).
  exists h. split; [exact Hw|]. split; [|exact Hstate].
  unfold added. fold (add_to_cart config) in Hw. rewrite Hw. apply replay_trace.
Qed.

(** ** What the typing helpers send *)

Section EmitsTyping.

Context {env : Env}.
Variable config : BotConfig.
Variable P : Event -> Prop.
Hypothesis P_log : forall lvl msg, P (ELog lvl msg).
Hypothesis P_sleep : forall start d, P (ESleep start d).

Lemma emits_human_click el :
  (forall dx dy pause, P (EActionClick el dx dy pause)) ->
  P (EScript "arguments[0].click();" (Some el)) ->
  emits P (human_click el).
Proof.
  intros Hchain Hscript. unfold human_click, randint. emits_auto.
  apply emits_perform; [apply Hchain | reflexivity].
Qed.

Variable el : WebElement.
Hypothesis P_click : P (EClick el).
Hypothesis P_keys : forall k, P (ESendKeys el k).

Lemma emits_type_chars text : emits P (type_chars config el text).
Proof.
  induction text as [|c rest IH]; cbn [type_chars]; emits_auto.
  apply emits_perform; [apply P_keys | reflexivity].
Qed.

Lemma emits_human_type text : emits P (human_type config el text).
Proof. unfold human_type. emits_auto. apply emits_type_chars. Qed.

Lemma emits_human_clear_and_type text : emits P (human_clear_and_type config el text).
Proof.
  unfold human_clear_and_type. emits_auto;
    first [apply emits_human_type | apply emits_perform; [apply P_keys | reflexivity]].
Qed.

End EmitsTyping.

Lemma displayed_log lvl msg : typed_only_into_displayed (ELog lvl msg).
Proof. exact I. Qed.

Lemma displayed_sleep start d : typed_only_into_displayed (ESleep start d).
Proof. exact I. Qed.

Lemma displayed_capture path : typed_only_into_displayed (ESaveScreenshot path).
Proof. exact I. Qed.

#[export] Hint Resolve displayed_log displayed_sleep displayed_capture : emits.

Section ShippingTyping.

Context {env : Env}.
Variable profile : UserProfile.
Variable config : BotConfig.

Lemma displayed_human_click el : emits typed_only_into_displayed (human_click el).
Proof. apply emits_human_click; auto with emits; intros; exact I. Qed.

Lemma displayed_click_first_clickable t sels after :
  emits typed_only_into_displayed after ->
  emits typed_only_into_displayed (click_first_clickable t sels after).
Proof. intros Ha. unfold click_first_clickable. emits_auto. apply displayed_human_click. Qed.

Lemma displayed_fill_first_displayed group value after :
  emits typed_only_into_displayed after ->
  emits typed_only_into_displayed (fill_first_displayed config group value after).
Proof.
  intros Ha. unfold fill_first_displayed. emits_auto.
  apply emits_human_clear_and_type; auto with emits; intros; first [exact I | assumption].
Qed.

Lemma displayed_do_shipping : emits typed_only_into_displayed (_do_shipping profile config).
Proof.
  unfold _do_shipping, _click_continue_button. emits_auto;
    first [ apply emits_step_already_complete; auto with emits
          | apply displayed_fill_first_displayed; emits_auto
          | apply displayed_click_first_clickable; emits_auto ].
Qed.

End ShippingTyping.

(** X12.  The shipping stage types only into inputs it found displayed:
    every key press in the history of [fill_shipping], whatever the page
    and the driver do and however often the stage is retried, goes to an
    element whose [is_displayed()] was true.  (The frame-scoped part of the
    payment stage makes no such check.) *)
Theorem shipping_types_only_into_displayed :
  forall (env : Env) (profile : UserProfile) (config : BotConfig) (w : World),
  exists evs,
    added w (snd (fill_shipping profile config w)) evs /\
    fst (fill_shipping profile config w) <> Diverge /\
    forall el keys, In (ESendKeys el keys) evs -> el_displayed el = true.
Proof.
  intros env profile config w.
  assert (H : emits typed_only_into_displayed (fill_shipping profile config)).
  { unfold fill_shipping. emits_auto.
    apply emits_stage; auto with emits. apply displayed_do_shipping. }
  destruct (H w) as (evs & Hw & Hall & Hends).
  exists evs. split; [unfold added; rewrite Hw; apply replay_trace|].
  split; [exact Hends|].
  intros el keys Hin. rewrite Forall_forall in Hall. exact (Hall _ Hin).
Qed.

(** ** Checkout steps on a page where nothing is found *)

Section NothingFound.

Context {env : Env}.
Variable profile : UserProfile.
Variable config : BotConfig.

Lemma click_first_clickable_times_out t sels after w :
  (forall sel, In sel sels -> until w t (element_to_be_clickable CSS_SELECTOR sel) = None) ->
  click_first_clickable t sels after w = (Ret None, w).
Proof.
  unfold click_first_clickable.
  induction sels as [|sel rest IH]; intros H; [reflexivity|].
  cbn [for_first].
  rewrite (bind_run _ _ w None w).
  - apply IH. intros s Hs. apply H. now right.
  - rewrite (try_except_caught _ _ _ w (mkExn TimeoutException "") w); [reflexivity | | reflexivity].
    apply bind_raise. unfold wait_until. now rewrite (H sel (or_introl eq_refl)).
Qed.

Lemma fill_first_displayed_nothing group value after w :
  (forall sel, find_elements w CSS_SELECTOR sel = []) ->
  fill_first_displayed config group value after w = (Ret tt, w).
Proof.
  intros Hnone. unfold fill_first_displayed.
  generalize (PyStr.split_comma_space EmptyString group). intros sels.
  rewrite (bind_run _ _ w None w); [reflexivity|].
  induction sels as [|sel rest IH]; [reflexivity|].
  cbn [for_first]. rewrite (bind_run _ _ w None w); [exact IH|].
  rewrite (try_except_caught _ _ _ w (mkExn NoSuchElementException sel) w);
    [reflexivity | | reflexivity].
  apply bind_raise. unfold find_element. now rewrite Hnone.
Qed.

Lemma shipping_fields_nothing after w :
  (forall sel, find_elements w CSS_SELECTOR sel = []) ->
  for_each (shipping_field_map profile) (fun '(selector_group, value) =>
    if negb (truthy value)
    then ret tt
    else fill_first_displayed config selector_group value after) w = (Ret tt, w).
Proof.
  intros Hnone. generalize (shipping_field_map profile). intros fields.
  induction fields as [|[group value] rest IH]; [reflexivity|].
  cbn [for_each]. rewrite (bind_run _ _ w tt w); [exact IH|].
  destruct (negb (truthy value)); [reflexivity|].
  now apply fill_first_displayed_nothing.
Qed.

Lemma do_shipping_nothing w :
  (forall w sel, find_elements w CSS_SELECTOR sel = []) ->
  (forall w sel, until w 3 (element_to_be_clickable CSS_SELECTOR sel) = None) ->
  _do_shipping profile config w = (Ret tt, shipping_found_nothing w).
Proof.
  intros Hnone Hwait. unfold _do_shipping.
  rewrite (bind_run _ _ _ _ _ (random_sleep_run 2000000 3000000 w)).
  rewrite (bind_run _ _ _ _ _ (step_already_complete_run "shipping" _)).
  assert (Hmark : existsb (present (after_pause 2000000 3000000 w)) (indicators "shipping")
                  = false).
  { cbn [indicators String.eqb Ascii.eqb Bool.eqb existsb]. unfold present.
    now rewrite !Hnone. }
  rewrite Hmark.
  rewrite (bind_run _ _ _ _ _ (shipping_fields_nothing _ _ (Hnone _))).
  rewrite (bind_run _ _ _ _ _ (random_sleep_run 500000 1000000 _)).
  unfold _click_continue_button at 1.
  unfold bind at 1. unfold bind at 1.
  rewrite click_first_clickable_times_out by (intros; apply Hwait).
  unfold log at 1.
  rewrite (bind_run _ _ _ _ _ (random_sleep_run 2000000 3000000 _)).
  reflexivity.
Qed.

End NothingFound.

(** X13.  The shipping stage succeeds without having done anything when
    the page gives it nothing to do: if no selector matches any element
    and no continue control becomes clickable, the stage body types
    nothing and clicks nothing, warns that no continue button was found,
    and still returns and logs that the shipping was submitted; so does the
    stage, at its first attempt. *)
Theorem fill_shipping_succeeds_on_empty_page :
  forall (env : Env) (profile : UserProfile) (config : BotConfig) (w : World),
  (forall w sel, find_elements w CSS_SELECTOR sel = []) ->
  (forall w sel, until w 3 (element_to_be_clickable CSS_SELECTOR sel) = None) ->
  0 < retry_limit config ->
  _do_shipping profile config w = (Ret tt, shipping_found_nothing w) /\
  fill_shipping profile config w =
    (Ret tt, shipping_found_nothing (record (ELog INFO "Filling shipping info") w)) /\
  exists evs,
    added w (shipping_found_nothing (record (ELog INFO "Filling shipping info") w)) evs /\
    Forall (fun ev => idle ev = true) evs.
Proof.
  intros env profile config w Hnone Hwait Hpos.
  split; [now apply do_shipping_nothing|]. split.
  - unfold fill_shipping. unfold bind at 1, log. unfold stage, _retry.
    rewrite range_cons by lia. cbn [for_first]. unfold _retry_attempt at 1.
    unfold bind, try_except. now rewrite do_shipping_nothing.
  - eexists. split.
    + unfold shipping_found_nothing.
      apply added_record, added_pause, added_record, added_pause, added_pause,
            added_record, added_nil.
    + repeat constructor.
Qed.

(** X13 on a concrete run: a blank page. *)
Lemma fill_shipping_succeeds_on_empty_page_run :
  @fill_shipping blank_env a_profile (a_config "10" 5) w0 =
  (Ret tt, @shipping_found_nothing blank_env (record (ELog INFO "Filling shipping info") w0)).
Proof.
  apply (fill_shipping_succeeds_on_empty_page blank_env a_profile (a_config "10" 5) w0).
  - reflexivity.
  - reflexivity.
  - reflexivity.
Defined.

(** ** The payment stage on a page that already shows the review step *)

Section PaymentShortCircuit.

Context {env : Env}.
Variable profile : UserProfile.
Variable config : BotConfig.

Lemma do_payment_skips w :
  review_marker_present (after_pause 2000000 3000000 w) = true ->
  _do_payment profile config w =
  (Ret tt, record (ELog INFO "Payment already saved - skipping.")
                  (after_pause 2000000 3000000 w)).
Proof.
  intros Hm. unfold _do_payment. unfold bind at 1. rewrite random_sleep_run.
  unfold bind at 1. rewrite step_already_complete_run.
  change (existsb _ (indicators "payment"))
    with (present (after_pause 2000000 3000000 w) (attr "data-qa" "=" "place-order")
          || (present (after_pause 2000000 3000000 w)
                      ("button" ++ attr "aria-label" "*=" "Place Order")
              || false)).
  rewrite orb_false_r. unfold review_marker_present in Hm. now rewrite Hm.
Qed.

End PaymentShortCircuit.

(** X14.  The payment stage is idempotent in the same way as the shipping
    stage: when a marker of the review step is on the page at the moment
    the stage looks for it (right after its opening pause), the stage
    body and the retried stage return having only paused and logged.  No
    frame is entered, nothing is typed and nothing is clicked, whatever
    the retry budget. *)
Theorem fill_payment_idempotent :
  forall (env : Env) (profile : UserProfile) (config : BotConfig) (w : World),
  review_marker_present
    (after_pause 2000000 3000000 (record (ELog INFO "Filling payment info") w)) = true ->
  exists w' evs,
    fill_payment profile config w = (Ret tt, w') /\
    added w w' evs /\ Forall (fun ev => idle ev = true) evs /\
    frame w' = frame w.
Proof.
  intros env profile config w Hm.
  unfold fill_payment. unfold bind at 1, log. unfold stage, _retry.
  destruct (Z.leb_spec (retry_limit config) 0) as [Hle|Hgt].
  - rewrite range_nil by lia. do 2 eexists. split; [reflexivity|]. split.
    + apply added_record, added_nil.
    + split; [repeat constructor | reflexivity].
  - rewrite range_cons by lia. cbn [for_first]. unfold _retry_attempt at 1.
    unfold try_except. unfold bind.
    rewrite do_payment_skips by assumption.
    do 2 eexists. split; [reflexivity|]. split.
    + apply added_record, added_pause, added_record, added_nil.
    + split; [repeat constructor | reflexivity].
Qed.

(** X14 on a concrete run with the default budget of 5. *)
Lemma fill_payment_idempotent_run :
  exists w' evs,
    @fill_payment review_step_env a_profile (a_config "10" 5) w0 = (Ret tt, w') /\
    added w0 w' evs /\ Forall (fun ev => idle ev = true) evs /\
    frame w' = frame w0.
Proof.
  apply (fill_payment_idempotent review_step_env a_profile (a_config "10" 5) w0).
  reflexivity.
Defined.

(** ** Typing like a human *)

Lemma keys_sent_app evs1 evs2 :
  keys_sent (evs2 ++ evs1) = (keys_sent evs1 ++ keys_sent evs2)%list.
Proof. unfold keys_sent. now rewrite flat_map_app, rev_app_distr. Qed.

Lemma acts_only_on_app el evs1 evs2 :
  acts_only_on el evs1 -> acts_only_on el evs2 -> acts_only_on el (evs2 ++ evs1).
Proof.
  intros H1 H2 ev el' Hin. apply in_app_or in Hin. destruct Hin; [now apply H2 | now apply H1].
Qed.

Section Sends.

Context {env : Env}.
Variable el : WebElement.

Lemma sends_bind {A B} ks1 ks2 (m : M A) (k : A -> M B) :
  sends el ks1 m -> (forall a, sends el ks2 (k a)) -> sends el (ks1 ++ ks2) (bind m k).
Proof.
  intros Hm Hk w. unfold bind.
  destruct (Hm w) as (evs1 & Hadd1 & Hact1 & Hends1 & (rest1 & Hpre1) & Hall1).
  destruct (m w) as [[a|e|] w1]; cbn [fst snd] in *.
  - destruct (Hk a w1) as (evs2 & Hadd2 & Hact2 & Hends2 & (rest2 & Hpre2) & Hall2).
    exists (evs2 ++ evs1)%list. split; [eapply added_trans; eassumption|].
    split; [now apply acts_only_on_app|]. split; [exact Hends2|].
    rewrite keys_sent_app, (Hall1 a eq_refl). split.
    + exists rest2. now rewrite <- app_assoc, <- Hpre2.
    + intros b Hb. now rewrite (Hall2 b Hb).
  - exists evs1. split; [exact Hadd1|]. split; [exact Hact1|]. split; [discriminate|]. split.
    + exists (rest1 ++ ks2)%list. now rewrite app_assoc, <- Hpre1.
    + discriminate.
  - now contradiction Hends1.
Qed.

Lemma sends_key k : sends el [k] (perform (ESendKeys el k)).
Proof.
  intros w. exists [ESendKeys el k]. unfold perform.
  destruct (raises w _); cbn [fst snd];
    (split; [reflexivity|]);
    (split; [intros ev el' [<-|[]] [= <-]; reflexivity|]);
    (split; [discriminate|]); (split; [now exists [] | reflexivity]).
Qed.

Lemma sends_click : sends el [] (perform (EClick el)).
Proof.
  intros w. exists [EClick el]. unfold perform.
  destruct (raises w _); cbn [fst snd];
    (split; [reflexivity|]);
    (split; [intros ev el' [<-|[]] [= <-]; reflexivity|]);
    (split; [discriminate|]); (split; [now exists [] | reflexivity]).
Qed.

Lemma sends_pause d : sends el [] (sleep d).
Proof.
  intros w. exists [ESleep (now w) d]. split; [reflexivity|].
  split; [intros ev el' [<-|[]]; discriminate|].
  split; [discriminate|]. split; [now exists [] | reflexivity].
Qed.

Lemma sends_uniform lo hi : sends el [] (uniform lo hi).
Proof.
  intros w. exists []. split; [reflexivity|]. split; [intros ev el' []|].
  split; [discriminate|]. split; [now exists [] | reflexivity].
Qed.

Lemma sends_random_sleep lo hi : sends el [] (random_sleep lo hi).
Proof.
  unfold random_sleep.
  apply (sends_bind [] []); [apply sends_uniform | intros d; apply sends_pause].
Qed.

Lemma sends_type_chars (config : BotConfig) text :
  sends el (text_keys text) (type_chars config el text).
Proof.
  induction text as [|c rest IH].
  - intros w. exists []. split; [reflexivity|]. split; [intros ev el' []|].
    split; [discriminate|]. split; [now exists [] | reflexivity].
  - cbn [type_chars].
    change (text_keys (String c rest))
      with ([KText (String c EmptyString)] ++ ([] ++ ([] ++ text_keys rest)))%list.
    apply sends_bind; [apply sends_key | intros _].
    apply sends_bind; [apply sends_uniform | intros r].
    apply sends_bind; [|intros _; exact IH].
    destruct (r <? 100000);
      (apply (sends_bind [] []); [apply sends_uniform | intros d; apply sends_pause]).
Qed.

Lemma sends_human_type (config : BotConfig) text :
  sends el (text_keys text) (human_type config el text).
Proof.
  unfold human_type.
  change (text_keys text) with ([] ++ ([] ++ text_keys text))%list.
  apply sends_bind; [apply sends_click | intros _].
  apply sends_bind; [apply sends_random_sleep | intros _].
  apply sends_type_chars.
Qed.

Lemma sends_human_clear_and_type (config : BotConfig) text :
  sends el (KControlA :: KBackspace :: text_keys text) (human_clear_and_type config el text).
Proof.
  unfold human_clear_and_type.
  change (KControlA :: KBackspace :: text_keys text)
    with ([] ++ ([] ++ ([KControlA] ++ ([] ++ ([] ++ ([KBackspace] ++ ([] ++ text_keys text)))))))%list.
  apply sends_bind; [apply sends_click | intros _].
  apply sends_bind; [apply sends_random_sleep | intros _].
  apply sends_bind; [apply sends_key | intros _].
  apply sends_bind; [apply sends_uniform | intros d].
  apply sends_bind; [apply sends_pause | intros _].
  apply sends_bind; [apply sends_key | intros _].
  apply sends_bind; [apply sends_random_sleep | intros _].
  apply sends_human_type.
Qed.

End Sends.

(** X15.  [human_clear_and_type] replaces the content of one field by
    [text]: it acts on the given element only, and the keys it sends are,
    in this order, Ctrl+A, Backspace and the characters of [text], one key
    press each.  When a command fails on the way, what was sent is a
    beginning of that sequence; when the call returns, it is all of it. *)
Theorem human_clear_and_type_sends_the_text :
  forall (env : Env) (config : BotConfig) (el : WebElement) (text : string) (w : World),
  exists evs,
    added w (snd (human_clear_and_type config el text w)) evs /\
    acts_only_on el evs /\
    fst (human_clear_and_type config el text w) <> Diverge /\
    (exists rest,
       KControlA :: KBackspace :: text_keys text = (keys_sent evs ++ rest)%list) /\
    (fst (human_clear_and_type config el text w) = Ret tt ->
     keys_sent evs = KControlA :: KBackspace :: text_keys text).
Proof.
  intros env config el text w.
  destruct (sends_human_clear_and_type el config text w)
    as (evs & Hadd & Hact & Hends & Hpre & Hall).
  exists evs. repeat split; try assumption. apply Hall.
Qed.

(** ** The pace of the typing *)

Lemma within_time_later {A} lo hi d_lo d_hi w w1 (r : outcome A * World) :
  within_time lo hi w1 r ->
  d_lo <= now w1 - now w <= d_hi -> 0 <= d_lo ->
  within_time (d_lo + lo) (d_hi + hi) w r.
Proof.
  intros [H1 H2] Hd Hpos. split; [lia|]. intros a Ha. specialize (H2 a Ha). lia.
Qed.

Section Pace.

Context {env : Env}.
Variable config : BotConfig.
Variable el : WebElement.
Hypothesis speed_ordered : 0 <= type_speed_min config <= type_speed_max config.

Lemma type_chars_pace text : forall w,
  within_time (Z.of_nat (String.length text) * Z.min 200000 (type_speed_min config))
              (Z.of_nat (String.length text) * Z.max 500000 (type_speed_max config))
              w (type_chars config el text w).
Proof.
  induction text as [|c rest IH]; intros w.
  - cbn [type_chars String.length]. change (Z.of_nat 0) with 0.
    unfold within_time, ret. cbn [fst snd]. split; [lia | intros _ _; lia].
  - cbn [type_chars String.length]. rewrite Nat2Z.inj_succ, !Z.mul_succ_l.
    assert (Hhi : 0 <= Z.of_nat (String.length rest) * Z.max 500000 (type_speed_max config))
      by (apply Z.mul_nonneg_nonneg; lia).
    assert (Hlo : 0 <= Z.of_nat (String.length rest) * Z.min 200000 (type_speed_min config))
      by (apply Z.mul_nonneg_nonneg; lia).
    unfold bind at 1, perform.
    destruct (raises w _) as [e|].
    + unfold within_time. cbn [fst snd now record]. split; [lia | discriminate].
    + unfold bind at 1. rewrite uniform_run.
      set (w1 := record _ w).
      destruct (_ <? 100000).
      * unfold bind at 1. unfold bind at 1. rewrite uniform_run. unfold sleep at 1.
        pose proof (uniform_within 200000 500000 w1 ltac:(lia)) as Hd.
        match goal with |- within_time _ _ w (type_chars config el rest ?w2) =>
          pose proof (within_time_later _ _
                        (Z.min 200000 (type_speed_min config))
                        (Z.max 500000 (type_speed_max config)) w w2 _ (IH w2)) as H
        end.
        cbn [now] in H. change (now w1) with (now w) in H.
        rewrite (Z.add_comm (_ * Z.min _ _)), (Z.add_comm (_ * Z.max _ _)).
        apply H; lia.
      * unfold bind at 1. unfold bind at 1. rewrite uniform_run. unfold sleep at 1.
        pose proof (uniform_within (type_speed_min config) (type_speed_max config) w1
                      ltac:(lia)) as Hd.
        match goal with |- within_time _ _ w (type_chars config el rest ?w2) =>
          pose proof (within_time_later _ _
                        (Z.min 200000 (type_speed_min config))
                        (Z.max 500000 (type_speed_max config)) w w2 _ (IH w2)) as H
        end.
        cbn [now] in H. change (now w1) with (now w) in H.
        rewrite (Z.add_comm (_ * Z.min _ _)), (Z.add_comm (_ * Z.max _ _)).
        apply H; lia.
Qed.

End Pace.

(** X16.  The pace of [human_type].  With [type_speed_min] at most
    [type_speed_max] (and not negative), typing a text of [n] characters
    takes at least 0.2 s plus [n] pauses of at least the smaller of 0.2 s
    and [type_speed_min], and at most 0.5 s plus [n] pauses of at most the
    larger of 0.5 s and [type_speed_max]; a call that fails on the way has
    not taken longer than that either. *)
Theorem human_type_pace :
  forall (env : Env) (config : BotConfig) (el : WebElement) (text : string) (w : World),
  0 <= type_speed_min config <= type_speed_max config ->
  within_time
    (200000 + Z.of_nat (String.length text) * Z.min 200000 (type_speed_min config))
    (500000 + Z.of_nat (String.length text) * Z.max 500000 (type_speed_max config))
    w (human_type config el text w).
Proof.
  intros env config el text w Hspeed. unfold human_type.
  assert (Hhi : 0 <= Z.of_nat (String.length text) * Z.max 500000 (type_speed_max config))
    by (apply Z.mul_nonneg_nonneg; lia).
  unfold bind at 1, perform.
  destruct (raises w _) as [e|].
  - unfold within_time. cbn [fst snd now record]. split; [lia | discriminate].
  - unfold bind at 1. rewrite random_sleep_run.
    set (w1 := after_pause 200000 500000 (record (EClick el) w)).
    apply (within_time_later _ _ 200000 500000 w w1 _ (type_chars_pace config el Hspeed text w1));
      [|lia].
    unfold w1, after_pause. cbn [snd random_sleep bind uniform ask sleep now record].
    pose proof (uniform_within 200000 500000 (record (EClick el) w)). lia.
Qed.

(** X16 on a concrete run: five characters at the configured speed of
    0.05 s to 0.15 s per key. *)
Lemma human_type_pace_run :
  within_time (200000 + 5 * 50000) (500000 + 5 * 500000) w0
    (@human_type blank_env (a_config "10" 5) (button 1 "" None true) "hello" w0).
Proof.
  apply (human_type_pace blank_env (a_config "10" 5) (button 1 "" None true) "hello" w0).
  cbn. lia.
Defined.

(** ** The cookies of the injected session *)

(** X17.  [_inject_session] hands every cookie of the response to the
    browser exactly once and in the order of the response, then the
    access-token cookie when the answer carries a non-empty token, and no
    other cookie.  A missing domain becomes [".nike.com"] and a missing
    path ["/"].  A cookie the browser rejects does not stop the ones after
    it.  (No command is interrupted from the keyboard.) *)
Theorem inject_session_offers_every_cookie :
  forall (env : Env) (auth_data : list (string * string)) (cookies : list Cookie) (w : World),
  no_interrupt env ->
  exists evs,
    added w (snd (NikeAPILogin._inject_session auth_data cookies w)) evs /\
    cookies_offered evs = (map injected cookies ++ token_cookie auth_data)%list /\
    fst (NikeAPILogin._inject_session auth_data cookies w) <> Diverge.
Proof.
  intros env auth_data cookies w Hni. now apply inject_session_run.
Qed.

Lemma api_env_not_interrupted response reachable : no_interrupt (api_env response reachable).
Proof.
  intros w ev e. cbn. destruct ev; try discriminate.
  destruct reachable; [discriminate|]. now intros [= <-].
Qed.

(** X17 on a concrete run: the answer [granted] carries one cookie without
    domain and path, and an access token. *)
Lemma inject_session_offers_every_cookie_run :
  exists evs,
    added w0 (snd (@NikeAPILogin._inject_session (api_env granted true)
                     [("access_token", "tok")] [mkCookie "sid" "S1" "" ""] w0)) evs /\
    cookies_offered evs =
      [mkCookie "sid" "S1" ".nike.com" "/"; mkCookie "access_token" "tok" ".nike.com" "/"] /\
    fst (@NikeAPILogin._inject_session (api_env granted true)
           [("access_token", "tok")] [mkCookie "sid" "S1" "" ""] w0) <> Diverge.
Proof.
  apply (inject_session_offers_every_cookie (api_env granted true)
           [("access_token", "tok")] [mkCookie "sid" "S1" "" ""] w0).
  apply api_env_not_interrupted.
Defined.

(** ** A granted login that still returns [False] *)

Section ApiLoginTrue.

Context {env : Env}.
Variable profile : UserProfile.

Lemma inject_session_ret_inv auth_data cookies w w' :
  NikeAPILogin._inject_session auth_data cookies w = (Ret tt, w') ->
  exists w_r, raises w_r ERefresh = None.
Proof.
  unfold NikeAPILogin._inject_session. cbv zeta. intros H.
  apply bind_ret_inv in H. destruct H as (url & w1 & _ & H).
  apply bind_ret_inv in H. destruct H as (_ & w2 & _ & H).
  apply bind_ret_inv in H. destruct H as (_ & w3 & _ & H).
  apply bind_ret_inv in H. destruct H as (_ & w4 & _ & H).
  apply bind_ret_inv in H. destruct H as (_ & w5 & _ & H).
  apply bind_ret_inv in H. destruct H as (u & w6 & Hrefresh & _).
  exists w5. revert Hrefresh. unfold perform.
  destruct (raises w5 ERefresh); [discriminate | reflexivity].
Qed.

Lemma on_response_true_inv response w w' :
  NikeAPILogin.on_response response w = (Ret true, w') ->
  resp_json response <> None /\ exists w_r, raises w_r ERefresh = None.
Proof.
  unfold NikeAPILogin.on_response.
  destruct (status_code response =? 200).
  - destruct (resp_json response) as [data|]; [|discriminate].
    intros H. split; [discriminate|].
    apply bind_ret_inv in H. destruct H as (_ & w1 & _ & H).
    apply bind_ret_inv in H. destruct H as ([] & w2 & Hinject & _).
    now apply inject_session_ret_inv in Hinject.
  - intros H. apply bind_ret_inv in H. destruct H as (_ & w1 & _ & H). discriminate H.
Qed.

Lemma api_login_true_inv w w' :
  NikeAPILogin.login profile w = (Ret true, w') ->
  (exists w_j, resp_json (http_response w_j) <> None) /\
  (exists w_r, raises w_r ERefresh = None).
Proof.
  unfold NikeAPILogin.login. intros H.
  apply bind_ret_inv in H. destruct H as (_ & w1 & _ & H).
  apply try_except_ret_inv in H. destruct H as [H | (e & w2 & _ & _ & H)].
  - unfold NikeAPILogin.login_attempt in H.
    apply bind_ret_inv in H. destruct H as (request & wd & _ & H).
    apply bind_ret_inv in H. destruct H as (_ & we & _ & H).
    apply bind_ret_inv in H. destruct H as (response & wf & Hask & H).
    unfold ask in Hask. injection Hask as <- <-.
    apply on_response_true_inv in H. destruct H as [Hjson Hrefresh].
    split; [now exists we | exact Hrefresh].
  - apply bind_ret_inv in H. destruct H as (_ & w3 & _ & H). discriminate H.
Qed.

End ApiLoginTrue.



(** ** The helpers no stage calls *)

(** X19.  [_verify_logged_in] answers with a boolean and lets no
    [Exception] out.  It answers [True] exactly when the profile page could
    be asked for and, three seconds later, the address is not a login
    address; a page load that fails is answered with [False], at once. *)
Theorem verify_logged_in_boolean :
  forall (env : Env) (w : World),
  no_interrupt env ->
  exists b w',
    _verify_logged_in w = (Ret b, w') /\
    (b = true <->
     raises w (EGet "https://www.nike.com/member/profile") = None /\
     is_login_url (current_url (profile_page_settled w)) = false) /\
    (raises w (EGet "https://www.nike.com/member/profile") = None ->
     w' = profile_page_settled w) /\
    (raises w (EGet "https://www.nike.com/member/profile") <> None ->
     w' = record (EGet "https://www.nike.com/member/profile") w).
Proof.
  intros env w Hni. unfold _verify_logged_in, try_except, bind, perform, sleep,
    _is_on_login_page, ask.
  destruct (raises w _) as [e|] eqn:He.
  - rewrite (Hni w _ e He). do 2 eexists. split; [reflexivity|]. split; [|split].
    + split; [discriminate | intros [H _]; discriminate H].
    + discriminate.
    + reflexivity.
  - cbn [record now frame trace calls]. fold (profile_page_settled w).
    destruct (is_login_url _) eqn:Hurl; do 2 eexists; (split; [reflexivity|]);
      (split; [|split; [reflexivity | intros H; now contradiction H]]).
    + split; [discriminate | intros [_ H]; discriminate H].
    + split; [intros _; split; reflexivity | reflexivity].
Qed.

(** X19 on a concrete run: the browser is still on the login page. *)
Lemma verify_logged_in_boolean_run :
  exists b w',
    @_verify_logged_in stuck_on_login w0 = (Ret b, w') /\
    (b = true <->
     @raises stuck_on_login w0 (EGet "https://www.nike.com/member/profile") = None /\
     is_login_url (@current_url stuck_on_login (profile_page_settled w0)) = false) /\
    (@raises stuck_on_login w0 (EGet "https://www.nike.com/member/profile") = None ->
     w' = profile_page_settled w0) /\
    (@raises stuck_on_login w0 (EGet "https://www.nike.com/member/profile") <> None ->
     w' = record (EGet "https://www.nike.com/member/profile") w0).
Proof.
  apply (verify_logged_in_boolean stuck_on_login w0). discriminate.
Defined.

(** X20.  [wait_and_click] returns the element its wait produced, after
    exactly one click on it went through: the element's own click, or,
    when that one was intercepted, the click by script.  A timeout of the
    wait and every other failure of a click leave it as they are (unlike
    [human_click], it does not swallow them).  A timeout argument of [0]
    or [None] stands for the helper's own timeout. *)
Theorem wait_and_click_clicks_once :
  forall (env : Env) (config : BotConfig) (by_ : By) (value : string) (timeout : option Z)
         (w : World) (el : WebElement) (w' : World),
  wait_and_click config by_ value timeout w = (Ret el, w') ->
  until w (timeout_or_default config timeout) (element_to_be_clickable by_ value) = Some el /\
  ((raises w (EClick el) = None /\ w' = record (EClick el) w) \/
   (exists e,
      raises w (EClick el) = Some e /\ is_a ElementClickInterceptedException e = true /\
      raises (record (EClick el) w) (EScript "arguments[0].click();" (Some el)) = None /\
      w' = record (EScript "arguments[0].click();" (Some el)) (record (EClick el) w))) /\
  (timeout = None \/ timeout = Some 0 ->
   timeout_or_default config timeout = element_timeout config).
Proof.
  intros env config by_ value timeout w el w' Hrun.
  split; [|split].
  - revert Hrun. unfold wait_and_click, bind, wait_until. cbv zeta.
    destruct (until w _ _) as [el1|]; [|discriminate].
    destruct (try_except _ _ _ w) as [[[]|e|] w1]; try discriminate.
    now intros [= -> _].
  - revert Hrun. unfold wait_and_click, bind, wait_until. cbv zeta.
    destruct (until w _ _) as [el1|]; [|discriminate].
    unfold try_except, perform.
    destruct (raises w (EClick el1)) as [e|] eqn:Hclick.
    + destruct (is_a ElementClickInterceptedException e) eqn:Hclass; [|discriminate].
      destruct (raises (record (EClick el1) w) _) as [e2|] eqn:Hscript; [discriminate|].
      intros [= <- <-]. right. exists e. now repeat split.
    + intros [= <- <-]. left. now split.
  - intros [-> | ->]; reflexivity.
Qed.

(** X20 on a concrete run: a banner intercepts the click and the script
    click goes through. *)
Lemma wait_and_click_clicks_once_run :
  @until covered_env w0 12 (element_to_be_clickable CSS_SELECTOR "button.continue-btn")
    = Some (button 7 "Continue" None true) /\
  @wait_and_click covered_env (a_config "10" 5) CSS_SELECTOR "button.continue-btn" None w0 =
  (Ret (button 7 "Continue" None true),
   record (EScript "arguments[0].click();" (Some (button 7 "Continue" None true)))
          (record (EClick (button 7 "Continue" None true)) w0)).
Proof.
  destruct (wait_and_click_clicks_once covered_env (a_config "10" 5) CSS_SELECTOR
              "button.continue-btn" None w0 (button 7 "Continue" None true)
              (record (EScript "arguments[0].click();" (Some (button 7 "Continue" None true)))
                      (record (EClick (button 7 "Continue" None true)) w0)))
    as (Hwait & _ & _).
  - reflexivity.
  - split; [exact Hwait | reflexivity].
Defined.

(** X21.  [random_scroll] scrolls by a whole number of pixels between 100
    and 400, up or down and never by zero, with one script; when the
    script went through it pauses between 0.3 s and 0.8 s, and when the
    script fails the failure leaves [random_scroll] without a pause. *)
Theorem random_scroll_moves :
  forall (env : Env) (w : World),
  exists amount,
    (100 <= amount <= 400 \/ -400 <= amount <= -100) /\
    match raises w (EScript ("window.scrollBy(0, " ++ PyStr.of_Z amount ++ ");") None) with
    | None =>
        exists pause,
          300000 <= pause <= 800000 /\
          random_scroll w =
          (Ret tt,
           mkWorld (now w + pause) (frame w)
                   (ESleep (now w) pause
                    :: EScript ("window.scrollBy(0, " ++ PyStr.of_Z amount ++ ");") None
                    :: trace w)
                   (calls w))
    | Some e =>
        random_scroll w =
        (Raise e, record (EScript ("window.scrollBy(0, " ++ PyStr.of_Z amount ++ ");") None) w)
    end.
Proof.
  intros env w.
  set (n := Z.max 100 (Z.min 400 (random_draw w 100 400))).
  set (i := Z.max 0 (Z.min 1 (random_draw w 0 1))).
  assert (Hrun : random_scroll w =
                 (perform (EScript ("window.scrollBy(0, " ++
                                    PyStr.of_Z (n * nth (Z.to_nat i) [1; -1] 1) ++ ");") None) ;;
                  random_sleep 300000 800000) w) by reflexivity.
  rewrite Hrun. clear Hrun.
  assert (Hn : 100 <= n <= 400) by (unfold n; lia).
  assert (Hi : i = 0 \/ i = 1) by (unfold i; lia).
  exists (n * nth (Z.to_nat i) [1; -1] 1). split.
  - destruct Hi as [-> | ->].
    + change (nth (Z.to_nat 0) [1; -1] 1) with 1. lia.
    + change (nth (Z.to_nat 1) [1; -1] 1) with (-1). lia.
  - unfold bind, perform.
    destruct (raises w _) as [e|]; [reflexivity|].
    eexists. split; [|reflexivity]. apply uniform_within. lia.
Qed.

(** ** Which addresses count as login pages *)

Lemma lower_app a b : PyStr.lower (a ++ b) = PyStr.lower a ++ PyStr.lower b.
Proof. induction a as [|c a IH]; cbn; [reflexivity | now rewrite IH]. Qed.

Lemma lower_char_idempotent c : PyStr.lower_char (PyStr.lower_char c) = PyStr.lower_char c.
Proof.
  unfold PyStr.lower_char.
  destruct ((65 <=? nat_of_ascii c) && (nat_of_ascii c <=? 90))%nat eqn:Hup.
  - apply andb_true_iff in Hup. destruct Hup as [H1 H2].
    apply Nat.leb_le in H1, H2.
    rewrite nat_ascii_embedding by lia.
    destruct ((65 <=? nat_of_ascii c + 32) && (nat_of_ascii c + 32 <=? 90))%nat eqn:Hup2;
      [|reflexivity].
    apply andb_true_iff in Hup2. destruct Hup2 as [_ H3]. apply Nat.leb_le in H3. lia.
  - now rewrite Hup.
Qed.

Lemma lower_idempotent s : PyStr.lower (PyStr.lower s) = PyStr.lower s.
Proof.
  induction s as [|c s IH]; cbn; [reflexivity|]. now rewrite lower_char_idempotent, IH.
Qed.

Lemma prefix_app sub s t : String.prefix sub s = true -> String.prefix sub (s ++ t) = true.
Proof.
  revert s. induction sub as [|c sub IH]; intros s; [now destruct (s ++ t)|].
  destruct s as [|d s]; [discriminate|]. cbn.
  destruct (ascii_dec c d); [apply IH | discriminate].
Qed.

Lemma contains_app_l sub s t :
  PyStr.contains sub s = true -> PyStr.contains sub (s ++ t) = true.
Proof.
  induction s as [|c s IH]; cbn [PyStr.contains append].
  - rewrite orb_false_r. intros H. destruct sub; [|discriminate H].
    destruct t; reflexivity.
  - intros H. apply orb_true_iff in H. apply orb_true_iff. destruct H as [H|H].
    + left. exact (prefix_app sub (String c s) t H).
    + right. now apply IH.
Qed.

Lemma contains_app_r sub s t :
  PyStr.contains sub s = true -> PyStr.contains sub (t ++ s) = true.
Proof.
  intros H. induction t as [|c t IH]; [exact H|].
  cbn [PyStr.contains append]. rewrite IH. apply orb_true_r.
Qed.

(** X22.  The test for a login address looks for its markers anywhere in
    the address and ignores the case of letters: an address that counts as
    a login page still counts as one with anything put before or after it
    (a query string, a redirect parameter), and an address and its
    lower-case form always count alike. *)
Theorem login_address_test_is_a_substring_test :
  forall (before address after : string),
  is_login_url (PyStr.lower address) = is_login_url address /\
  (is_login_url address = true -> is_login_url (before ++ address ++ after) = true).
Proof.
  intros before address after. unfold is_login_url. cbv zeta. split.
  - now rewrite lower_idempotent.
  - intros H. apply existsb_exists in H. destruct H as (indicator & Hin & Hfound).
    apply existsb_exists. exists indicator. split; [exact Hin|].
    rewrite !lower_app. now apply contains_app_r, contains_app_l.
Qed.

(** X22 on concrete addresses: the login address in upper case, and a
    storefront address that carries a login address as a parameter. *)
Lemma login_address_test_run :
  is_login_url "HTTPS://ACCOUNTS.NIKE.COM/LOOKUP" = true /\
  is_login_url ("https://www.nike.com/launch?next=" ++ "/login" ++ "&lang=en") = true.
Proof.
  split.
  - reflexivity.
  - apply (login_address_test_is_a_substring_test
             "https://www.nike.com/launch?next=" "/login" "&lang=en").
    reflexivity.
Defined.

(** ** A login that does not redirect *)

Section LoginRedirect.

Context {env : Env}.

Lemma find_element_run sel w :
  find_element CSS_SELECTOR sel w =
  match first_match w sel with
  | Some el => (Ret el, w)
  | None => (Raise (mkExn NoSuchElementException sel), w)
  end.
Proof.
  unfold find_element, first_match. now destruct (find_elements w CSS_SELECTOR sel).
Qed.

Lemma present_first_match sel w :
  present w sel = true -> exists el, first_match w sel = Some el.
Proof.
  unfold present, first_match. destruct (find_elements w CSS_SELECTOR sel) as [|el rest];
    [discriminate | intros _; now exists el].
Qed.

Lemma login_error_scan sels w :
  for_first sels (fun sel =>
    present <- element_exists CSS_SELECTOR sel ;;
    if present
    then err_el <- find_element CSS_SELECTOR sel ;;
         raise RuntimeError ("Login error: " ++ el_text err_el)
    else ret (@None unit)) w =
  match find (present w) sels with
  | Some sel =>
      match first_match w sel with
      | Some el => (Raise (mkExn RuntimeError ("Login error: " ++ el_text el)), w)
      | None => (Raise (mkExn NoSuchElementException sel), w)
      end
  | None => (Ret None, w)
  end.
Proof.
  induction sels as [|sel rest IH]; [reflexivity|].
  cbn [for_first find].
  destruct (present w sel) eqn:Hp.
  - destruct (present_first_match sel w Hp) as (el & Hel). rewrite Hel.
    apply bind_raise.
    rewrite (bind_run _ _ _ _ _ (element_exists_run sel w)), Hp.
    rewrite (bind_run _ _ w el w); [reflexivity|].
    now rewrite find_element_run, Hel.
  - rewrite (bind_run _ _ w None w); [exact IH|].
    now rewrite (bind_run _ _ _ _ _ (element_exists_run sel w)), Hp.
Qed.

End LoginRedirect.

(** X23.  When the wait for the login redirect times out,
    [login_wait_redirect] never returns: it raises [RuntimeError] without
    touching the page.  The message is "Login error: " followed by the text
    of the first element matched by the earliest error selector that
    matches anything, and the timeout message when none does. *)
Theorem login_without_redirect_raises :
  forall (env : Env) (w : World),
  until w 20 left_login_page = None ->
  exists msg,
    login_wait_redirect w = (Raise (mkExn RuntimeError msg), w) /\
    match find (present w) login_error_selectors with
    | Some sel => exists el, first_match w sel = Some el /\ msg = "Login error: " ++ el_text el
    | None => msg = "Login timed out - still on /login page."
    end.
Proof.
  intros env w Hwait. unfold login_wait_redirect.
  assert (Hbody : (_ <- wait_until 20 left_login_page ;; ret tt) w =
                  (Raise (mkExn TimeoutException ""), w)).
  { apply bind_raise. unfold wait_until. now rewrite Hwait. }
  unfold bind at 1.
  rewrite (try_except_caught _ _ _ _ _ _ Hbody eq_refl).
  unfold bind at 1. rewrite login_error_scan. fold login_error_selectors.
  destruct (find (present w) login_error_selectors) as [sel|] eqn:Hfind.
  - apply find_some in Hfind. destruct Hfind as [_ Hp].
    destruct (present_first_match sel w Hp) as (el & Hel). rewrite Hel.
    eexists. split; [reflexivity|]. now exists el.
  - eexists. split; reflexivity.
Qed.

(** X23 on a concrete run: the page shows an error banner. *)
Lemma login_without_redirect_run :
  @login_wait_redirect login_error_env w0 =
  (Raise (mkExn RuntimeError
            "Login error: Your email or password was entered incorrectly."), w0).
Proof.
  destruct (login_without_redirect_raises login_error_env w0) as (msg & Hrun & Hmsg).
  - reflexivity.
  - cbn in Hmsg. destruct Hmsg as (el & [= <-] & ->). exact Hrun.
Defined.

(** ** What the navigation and the wait for the drop leave behind *)

(** X25.  [navigate_to_shoe] returns only from a loaded page that shows a
    size marker: the last things it did were a page load that did not
    fail, a pause, a wait that found a size marker within
    [element_timeout], and the line saying that the page is loaded. *)
Theorem navigate_returns_with_sizes :
  forall (env : Env) (config : BotConfig) (w w' : World),
  navigate_to_shoe config w = (Ret tt, w') ->
  exists w_load el,
    raises w_load (EGet (shoe_url config)) = None /\
    until (after_pause 1500000 3000000 (record (EGet (shoe_url config)) w_load))
          (element_timeout config) sizes_present = Some el /\
    w' = record (ELog INFO "Shoe page loaded.")
                (after_pause 1500000 3000000 (record (EGet (shoe_url config)) w_load)).
Proof.
  intros env config w w' Hrun. unfold navigate_to_shoe in Hrun.
  apply bind_ret_inv in Hrun. destruct Hrun as (_ & w1 & _ & Hrun).
  apply bind_ret_inv in Hrun. destruct Hrun as ([[]|] & w2 & Hloop & Hret);
    [|discriminate Hret].
  injection Hret as <-.
  apply for_first_some_inv in Hloop. destruct Hloop as (attempt & w3 & _ & Hbody).
  apply try_except_ret_inv in Hbody. destruct Hbody as [Hbody | (e & w4 & _ & _ & Hh)].
  - apply bind_ret_inv in Hbody. destruct Hbody as (u & w4 & Hget & Hbody).
    rewrite (bind_run _ _ _ _ _ (random_sleep_run 1500000 3000000 w4)) in Hbody.
    apply bind_ret_inv in Hbody. destruct Hbody as (el & w5 & Hwait & Hbody).
    injection Hbody as <-.
    assert (Hload : raises w3 (EGet (shoe_url config)) = None /\
                    w4 = record (EGet (shoe_url config)) w3).
    { revert Hget. unfold perform. destruct (raises w3 _); [discriminate|].
      now intros [= _ <-]. }
    destruct Hload as [Hload ->].
    revert Hwait. unfold wait_until.
    destruct (until _ _ _) as [el1|] eqn:Hu; [|discriminate]. intros [= _ <-].
    exists w3, el1. repeat split; assumption.
  - apply bind_ret_inv in Hh. destruct Hh as (_ & w5 & _ & Hh).
    apply bind_ret_inv in Hh. destruct Hh as (_ & w6 & _ & Hh).
    apply bind_ret_inv in Hh. destruct Hh as (_ & w7 & _ & Hh). discriminate Hh.
Qed.

(** X25 on a concrete run: the size grid shows at the first attempt. *)
Lemma navigate_returns_with_sizes_run :
  exists w_load el,
    @raises sizes_shown_env w_load (EGet "https://www.nike.com/t/air-jordan-1") = None /\
    @until sizes_shown_env
       (@after_pause sizes_shown_env 1500000 3000000
          (record (EGet "https://www.nike.com/t/air-jordan-1") w_load))
       12 sizes_present = Some el /\
    snd (@navigate_to_shoe sizes_shown_env (a_config "10" 5) w0) =
      record (ELog INFO "Shoe page loaded.")
             (@after_pause sizes_shown_env 1500000 3000000
                (record (EGet "https://www.nike.com/t/air-jordan-1") w_load)).
Proof.
  apply (navigate_returns_with_sizes sizes_shown_env (a_config "10" 5) w0).
  vm_compute. reflexivity.
Defined.

(** X26.  A drop time that is not empty and not in ISO format makes
    [wait_for_drop] raise [ValueError] at once, without waiting.  As the
    wait is the second stage, and the validation of the configuration does
    not look at the drop time, the run fails on it only once the login
    stage has returned. *)
Theorem invalid_drop_time_fails_after_login :
  forall (env : Env) (profile : UserProfile) (config : BotConfig) (s : string)
         (w w1 : World),
  drop_time config = Some s -> truthy s = true -> fromisoformat s = None ->
  (exists msg, wait_for_drop config w = (Raise (mkExn ValueError msg), w)) /\
  (login profile config w = (Ret tt, w1) ->
   exists msg, run_stages profile config w = (Raise (mkExn ValueError msg), w1)).
Proof.
  intros env profile config s w w1 Hs Ht Hparse.
  assert (Hwait : forall w2, wait_for_drop config w2 =
                             (Raise (mkExn ValueError ("Invalid isoformat string: " ++ s)), w2)).
  { intros w2. unfold wait_for_drop. now rewrite Hs, Ht, Hparse. }
  split.
  - eexists. apply Hwait.
  - intros Hlogin. eexists. unfold run_stages.
    rewrite (bind_run _ _ _ _ _ Hlogin). apply bind_raise. apply Hwait.
Qed.

(** X26 on a concrete run: the configuration passes the validation; with
    [retry_limit] 0 the login stage returns at once, and the run stops at
    the drop time "tomorrow at ten". *)
Lemma invalid_drop_time_run :
  config_valid a_profile bad_date_config = true /\
  exists msg,
    @run_stages blank_env a_profile bad_date_config w0 =
    (Raise (mkExn ValueError msg), record (ELog INFO "Logging in via accounts.nike.com") w0).
Proof.
  split; [reflexivity|].
  destruct (invalid_drop_time_fails_after_login blank_env a_profile bad_date_config
              "tomorrow at ten" w0 (record (ELog INFO "Logging in via accounts.nike.com") w0))
    as (_ & H); try reflexivity.
  apply H. reflexivity.
Defined.

(** X28.  A drop time written with a UTC offset cannot be compared with
    the naive current time: [wait_for_drop] raises [TypeError] at once,
    whether the target is ahead or already past, without a log line and
    without waiting.  The validation of the configuration does not look at
    the drop time, so the run fails on it only once the login stage has
    returned. *)
Theorem aware_drop_time_raises :
  forall (env : Env) (profile : UserProfile) (config : BotConfig) (s : string)
         (target : datetime) (w w1 : World),
  drop_time config = Some s -> truthy s = true ->
  fromisoformat s = Some target -> tzinfo target <> None ->
  wait_for_drop config w =
    (Raise (mkExn TypeError "can't compare offset-naive and offset-aware datetimes"), w) /\
  (login profile config w = (Ret tt, w1) ->
   run_stages profile config w =
     (Raise (mkExn TypeError "can't compare offset-naive and offset-aware datetimes"), w1)).
Proof.
  intros env profile config s target w w1 Hs Ht Hparse Haware.
  assert (Hwait : forall w2, wait_for_drop config w2 =
            (Raise (mkExn TypeError "can't compare offset-naive and offset-aware datetimes"),
             w2)).
  { intros w2. unfold wait_for_drop. rewrite Hs, Ht, Hparse. cbn [negb].
    unfold bind, ask. destruct (tzinfo target); [reflexivity | now contradiction Haware]. }
  split; [apply Hwait|].
  intros Hlogin. unfold run_stages.
  rewrite (bind_run _ _ _ _ _ Hlogin). apply bind_raise. apply Hwait.
Qed.

(** X28 on a concrete run: the configuration passes the validation; with
    [retry_limit] 0 the login stage returns at once, and the run stops at
    a drop time given in UTC, one minute in the past. *)
Lemma aware_drop_time_run :
  config_valid a_profile aware_drop_config = true /\
  @run_stages (aware_drop_env (-60000000)) a_profile aware_drop_config w0 =
  (Raise (mkExn TypeError "can't compare offset-naive and offset-aware datetimes"),
   record (ELog INFO "Logging in via accounts.nike.com") w0).
Proof.
  split; [reflexivity|].
  destruct (aware_drop_time_raises (aware_drop_env (-60000000)) a_profile aware_drop_config
              "2026-02-05T10:00:00+00:00" (mkDatetime (-60000000) (Some 0)) w0
              (record (ELog INFO "Logging in via accounts.nike.com") w0))
    as (_ & H); [reflexivity | reflexivity | reflexivity | discriminate |].
  apply H. reflexivity.
Defined.

(** ** Step 2 of the login: switching to the password *)

Lemma bind_assoc {A B C} (m : M A) (k1 : A -> M B) (k2 : B -> M C) w :
  bind (bind m k1) k2 w = bind m (fun a => bind (k1 a) k2) w.
Proof. unfold bind. now destruct (m w) as [[a|e|] w1]. Qed.

Section UsePassword.

Context {env : Env}.

Lemma use_password_xpaths_time_out w :
  (forall xpath, In xpath use_password_selectors ->
     until w 3 (element_to_be_clickable XPATH xpath) = None) ->
  for_first use_password_selectors (fun xpath =>
    try_except
      (el <- wait_until 3 (element_to_be_clickable XPATH xpath) ;;
       random_mouse_move ;;
       random_sleep 300000 800000 ;;
       human_click el ;;
       log INFO "Clicked 'Use Password'!" ;;
       random_sleep 2000000 3000000 ;;
       ret (Some tt))
      timeout_or_not_found
      (fun _ => ret None)) w = (Ret None, w).
Proof.
  generalize use_password_selectors. intros xpaths.
  induction xpaths as [|xpath rest IH]; intros H; [reflexivity|].
  cbn [for_first]. rewrite (bind_run _ _ w None w).
  - apply IH. intros x Hx. apply H. now right.
  - rewrite (try_except_caught _ _ _ w (mkExn TimeoutException "") w);
      [reflexivity | | reflexivity].
    apply bind_raise. unfold wait_until. now rewrite (H xpath (or_introl eq_refl)).
Qed.

Lemma use_password_scan_run buttons w :
  for_first buttons (fun btn =>
    let btn_text := PyStr.lower (PyStr.strip (el_text btn)) in
    if PyStr.contains "use password" btn_text
    then human_click btn ;;
         log INFO "Clicked 'Use Password' (text scan)!" ;;
         random_sleep 2000000 3000000 ;;
         ret (Some tt)
    else ret None) w =
  match find says_use_password buttons with
  | Some btn =>
      (human_click btn ;;
       log INFO "Clicked 'Use Password' (text scan)!" ;;
       random_sleep 2000000 3000000 ;;
       ret (Some tt)) w
  | None => (Ret None, w)
  end.
Proof.
  induction buttons as [|btn rest IH]; [reflexivity|].
  cbn [for_first find]. cbv zeta. fold (says_use_password btn).
  destruct (says_use_password btn).
  - unfold bind at 1.
    destruct ((human_click btn ;; log INFO _ ;; random_sleep 2000000 3000000 ;; ret (Some tt)) w)
      as [[[[]|]|e|] w1] eqn:E; try reflexivity.
    exfalso. revert E. unfold bind.
    destruct (human_click btn w) as [[[]|e|] w2]; cbn; discriminate.
  - rewrite bind_ret. exact IH.
Qed.

Lemma login_use_password_run w :
  login_use_password w =
  if password_field_shows (step2_start w)
  then (Ret tt, step2_start w)
  else
    (clicked <- for_first use_password_selectors (fun xpath =>
       try_except
         (el <- wait_until 3 (element_to_be_clickable XPATH xpath) ;;
          random_mouse_move ;;
          random_sleep 300000 800000 ;;
          human_click el ;;
          log INFO "Clicked 'Use Password'!" ;;
          random_sleep 2000000 3000000 ;;
          ret (Some tt))
         timeout_or_not_found
         (fun _ => ret None)) ;;
     clicked <-
       match clicked with
       | Some _ => ret clicked
       | None =>
           log INFO "Searching all buttons for 'Use Password'" ;;
           all_buttons <- ask (fun w => find_elements w CSS_SELECTOR "button, a, [role='button']") ;;
           for_first all_buttons (fun btn =>
             let btn_text := PyStr.lower (PyStr.strip (el_text btn)) in
             if PyStr.contains "use password" btn_text
             then human_click btn ;;
                  log INFO "Clicked 'Use Password' (text scan)!" ;;
                  random_sleep 2000000 3000000 ;;
                  ret (Some tt)
             else ret None)
       end ;;
     match clicked with
     | Some _ => ret tt
     | None =>
         _screenshot "no_use_password_btn" ;;
         raise NoSuchElementException
           "'Use Password' button not found. Nike may be forcing email code verification."
     end) (code_screen w).
Proof.
  unfold login_use_password. unfold bind at 1, log. fold (step2_start w).
  unfold bind at 1. rewrite find_first_element_run.
  unfold password_field_shows. cbn [find].
  destruct (first_match_shown (step2_start w) ("input" ++ attr "type" "=" "password")) eqn:H1.
  - unfold first_match_shown in H1.
    destruct (first_match (step2_start w) _); [reflexivity | discriminate].
  - destruct (first_match_shown (step2_start w) ("input" ++ attr "name" "=" "password")) eqn:H2.
    + unfold first_match_shown in H2.
      destruct (first_match (step2_start w) ("input" ++ attr "name" "=" "password"));
        [reflexivity | discriminate].
    + cbn [orb]. reflexivity.
Qed.

End UsePassword.

(** X27.  Step 2 of the browser login.  When a password field already
    shows, the step does nothing but write its log line.  Otherwise, when
    none of the "Use Password" XPath selectors becomes clickable, the step
    scans the controls of the page in document order and clicks the first
    one whose text, stripped and in lower case, contains "use password";
    when there is none it takes a diagnostic capture and raises
    [NoSuchElementException] (unless the capture is interrupted), having
    clicked nothing. *)
Theorem login_use_password_by_text :
  forall (env : Env) (w : World),
  (password_field_shows (step2_start w) = true ->
   login_use_password w = (Ret tt, step2_start w)) /\
  (password_field_shows (step2_start w) = false ->
   (forall xpath, In xpath use_password_selectors ->
      until (code_screen w) 3 (element_to_be_clickable XPATH xpath) = None) ->
   match find says_use_password
              (find_elements (text_scan w) CSS_SELECTOR "button, a, [role='button']") with
   | Some btn =>
       login_use_password w =
       (human_click btn ;;
        log INFO "Clicked 'Use Password' (text scan)!" ;;
        random_sleep 2000000 3000000) (text_scan w)
   | None =>
       login_use_password w =
       (_screenshot "no_use_password_btn" ;;
        raise NoSuchElementException
          "'Use Password' button not found. Nike may be forcing email code verification.")
         (text_scan w)
   end).
Proof.
  intros env w. rewrite login_use_password_run. split; intros Hshow.
  - now rewrite Hshow.
  - intros Hxpaths. rewrite Hshow.
    rewrite (bind_run _ _ _ _ _ (use_password_xpaths_time_out (code_screen w) Hxpaths)).
    destruct (find says_use_password _) as [btn|] eqn:Hfind;
      rewrite bind_assoc; unfold bind at 1, log; fold (text_scan w);
      rewrite bind_assoc; unfold bind at 1, ask; unfold bind at 1;
      rewrite use_password_scan_run, Hfind; [|reflexivity].
    unfold bind. destruct (human_click btn (text_scan w)) as [[[]|e|] w1]; reflexivity.
Qed.

(** X27 on a concrete run: the control reads "  USE PASSWORD " and is the
    second control of the page. *)
Lemma login_use_password_by_text_run :
  says_use_password use_password_link = true /\
  @login_use_password code_screen_env w0 =
  (@human_click code_screen_env use_password_link ;;
   log INFO "Clicked 'Use Password' (text scan)!" ;;
   @random_sleep code_screen_env 2000000 3000000) (text_scan w0).
Proof.
  split; [reflexivity|].
  destruct (login_use_password_by_text code_screen_env w0) as [_ H].
  apply H.
  - reflexivity.
  - intros xpath _. reflexivity.
Defined.
